(** * Cloudflare DDNS: the reconciliation cycle, the notifier and the
      configuration forms, embedded from
      [custom_components/cloudflare_ddns/__init__.py], [button.py], [switch.py],
      [sensor.py], [config_flow.py] and [const.py].

    Python values are kept dynamically typed where the source relies on
    Python's [==] and truthiness; dictionaries are finite maps; the aiohttp
    session and the clock are an interface ([Host]) over an arbitrary world;
    every outbound call and every clock read is appended to a trace. *)

From Stdlib Require Import ZArith List Ascii String Bool Lia.
From stdpp Require Import base option gmap strings.

Set Warnings "-register-all".
Local Open Scope string_scope.
Local Open Scope Z_scope.

(** ** const.py *)
Module Const.
Definition DOMAIN := "cloudflare_ddns".

Definition CONF_WHAT_IP := "what_ip".
Definition CONF_DNS_RECORD := "dns_record".
Definition CONF_ZONE_ID := "zone_id".
Definition CONF_API_TOKEN := "api_token".
Definition CONF_PROXIED := "proxied".
Definition CONF_TTL := "ttl".
Definition CONF_UPDATE_INTERVAL := "update_interval".
Definition CONF_DEVICE_NAME := "device_name".
Definition CONF_AUTO_UPDATE := "auto_update".
Definition CONF_NOTIFY_TELEGRAM := "notify_telegram".
Definition CONF_TELEGRAM_CHAT_ID := "telegram_chat_id".
Definition CONF_TELEGRAM_BOT_TOKEN := "telegram_bot_token".
Definition CONF_NOTIFY_DISCORD := "notify_discord".
Definition CONF_DISCORD_WEBHOOK_URL := "discord_webhook_url".

Definition DEFAULT_WHAT_IP := "external".
Definition DEFAULT_PROXIED := false.
Definition DEFAULT_TTL := 120.
Definition DEFAULT_UPDATE_INTERVAL := 60.
Definition DEFAULT_AUTO_UPDATE := true.
Definition DEFAULT_NOTIFY_TELEGRAM := false.
Definition DEFAULT_NOTIFY_DISCORD := false.

Definition IP_TYPE_EXTERNAL := "external".
Definition IP_TYPE_INTERNAL := "internal".

Definition MIN_UPDATE_INTERVAL := 10.
Definition MAX_UPDATE_INTERVAL := 3600.

Definition MIN_TTL := 120.
Definition MAX_TTL := 7200.
Definition AUTO_TTL := 1.

Definition CLOUDFLARE_API_BASE := "https://api.cloudflare.com/client/v4".
Definition EXTERNAL_IP_URL := "https://checkip.amazonaws.com".
End Const.
Import Const.

(** ** Python values *)

(** Scalar values, as a configuration entry stores them (the forms of
    [config_flow.py] produce strings, booleans and integers) and as the
    leaves of a decoded JSON document.  JSON numbers are integers here. *)
Inductive pyval :=
| PNone
| PBool (b : bool)
| PInt (n : Z)
| PStr (s : string).

(** A decoded JSON document ([await response.json()]).  An object is the
    list of its bindings; [assoc] reads the first binding of a key. *)
Inductive json :=
| JAtom (v : pyval)
| JArr (items : list json)
| JObj (fields : list (string * json)).

Definition JNone := JAtom PNone.

(** [bool(v)] *)
Definition truthy (v : pyval) : bool :=
  match v with
  | PNone => false
  | PBool b => b
  | PInt n => negb (n =? 0)
  | PStr s => negb (String.eqb s "")
  end.

Definition json_truthy (j : json) : bool :=
  match j with
  | JAtom v => truthy v
  | JArr items => match items with [] => false | _ => true end
  | JObj fields => match fields with [] => false | _ => true end
  end.

Definition int_of_bool (b : bool) : Z := if b then 1 else 0.

(** [a == b] on scalars: [bool] is a subclass of [int], so [True == 1];
    values of unrelated types are unequal. *)
Definition py_eq (a b : pyval) : bool :=
  match a, b with
  | PNone, PNone => true
  | PBool x, PBool y => Bool.eqb x y
  | PBool x, PInt y => int_of_bool x =? y
  | PInt x, PBool y => x =? int_of_bool y
  | PInt x, PInt y => x =? y
  | PStr x, PStr y => String.eqb x y
  | _, _ => false
  end.

(** [j == v] for a decoded JSON value and a scalar: a list or a dict never
    equals a scalar. *)
Definition json_eq (j : json) (v : pyval) : bool :=
  match j with
  | JAtom a => py_eq a v
  | _ => false
  end.

Fixpoint assoc (k : string) (fields : list (string * json)) : option json :=
  match fields with
  | [] => None
  | (k', v) :: rest => if String.eqb k k' then Some v else assoc k rest
  end.

Definition py_type_name (j : json) : string :=
  match j with
  | JAtom PNone => "NoneType"
  | JAtom (PBool _) => "bool"
  | JAtom (PInt _) => "int"
  | JAtom (PStr _) => "str"
  | JArr _ => "list"
  | JObj _ => "dict"
  end.

(** ** Exceptions *)

Inductive exn :=
| TimeoutError                      (* asyncio.TimeoutError *)
| ClientError (msg : string)        (* any other error of the transport or of decoding *)
| AttributeError (msg : string)
| KeyError (key_repr : string)       (* the repr of the missing key *)
| TypeError (msg : string)
| IndexError (msg : string)
| UpdateFailed (msg : string).      (* homeassistant ... UpdateFailed *)

(** [str(err)], as interpolated by [f"Error updating data: {err}"]. *)
Definition exn_str (e : exn) : string :=
  match e with
  | TimeoutError => ""
  | ClientError msg => msg
  | AttributeError msg => msg
  | KeyError key_repr => key_repr
  | TypeError msg => msg
  | IndexError msg => msg
  | UpdateFailed msg => msg
  end.

Inductive outcome (A : Type) :=
| Ok (a : A)
| Raise (e : exn).
Arguments Ok {A} a.
Arguments Raise {A} e.

(** [str.strip()]: the ASCII characters for which [str.isspace()] holds. *)
Definition is_space (c : ascii) : bool :=
  let n := Z.of_nat (nat_of_ascii c) in
  ((9 <=? n) && (n <=? 13)) || ((28 <=? n) && (n <=? 32)).

Fixpoint lstrip (l : list ascii) : list ascii :=
  match l with
  | [] => []
  | c :: rest => if is_space c then lstrip rest else l
  end.

Definition strip (s : string) : string :=
  string_of_list_ascii
    (rev (lstrip (rev (lstrip (list_ascii_of_string s))))).

(** ** The outside world *)

(** The values interpolated into the notification text
    [f"{self.dns_record} DNS Record Updated To: {new_ip} (was {old_ip})"]. *)
Record message := Message {
  msg_record : pyval;
  msg_new_ip : string;
  msg_old_ip : json;
}.

(** One outbound call of the session, with what the source puts in its URL,
    headers, parameters and body. *)
Inductive request :=
| GetExternalIp
    (* session.get(EXTERNAL_IP_URL) *)
| GetDnsRecords (zone api_tok name : pyval)
    (* session.get(".../zones/{zone}/dns_records", Bearer api_tok, params name) *)
| PutDnsRecord (zone api_tok : pyval) (record_id : json)
               (name : pyval) (content : string) (ttl_ proxied_ : pyval)
    (* session.put(".../zones/{zone}/dns_records/{record_id}", Bearer api_tok,
       json {type: "A", name, content, ttl, proxied}) *)
| TelegramSend (bot_token chat_id : pyval) (text_ : message)
    (* session.get("https://api.telegram.org/bot{bot_token}/sendMessage", params) *)
| DiscordPost (webhook_url : pyval) (content_ : message).
    (* session.post(webhook_url, json {content}) *)

(** An HTTP response: [resp_text] and [resp_json] are [None] when
    [await response.text()], [await response.json()] raise. *)
Record response := Response {
  status : Z;
  resp_text : option string;
  resp_json : option json;
}.

Definition reply : Type := exn + response.

Inductive event :=
| EvCall (r : request)
| EvNow (t : Z).

(** The session and the clock ([dt_util.now()]) over a world of type [W]. *)
Class Host (W : Type) := {
  serve : request -> W -> reply * W;
  now : W -> Z * W;
}.

Definition is_write (e : event) : bool :=
  match e with EvCall (PutDnsRecord _ _ _ _ _ _ _) => true | _ => false end.

Definition is_read (e : event) : bool :=
  match e with EvCall (GetDnsRecords _ _ _) => true | _ => false end.

Definition is_call (e : event) : bool :=
  match e with EvCall _ => true | _ => false end.

(** Number of provider write calls in a trace. *)
Definition writes (tr : list event) : nat := length (List.filter is_write tr).
Definition reads (tr : list event) : nat := length (List.filter is_read tr).

(** ** The coordinator *)

(** The dictionary returned by [_async_update_data] and published by the
    host framework as [coordinator.data]. *)
Record sync_data := SyncData {
  synced : bool;
  current_ip : string;
  dns_record_ip : json;
  domain : pyval;
}.

(** [CloudflareDDNSCoordinator]: the attributes set by [__init__], and the
    two attributes of the framework's [DataUpdateCoordinator] base class that
    observers read ([data], [last_update_success]). *)
Record Coordinator := mkCoordinator {
  config : gmap string pyval;
  dns_record : pyval;
  zone_id : pyval;
  api_token : pyval;
  what_ip : pyval;
  proxied : pyval;
  ttl : pyval;
  auto_update_enabled : pyval;
  last_sync_time : option Z;
  _manual_sync_requested : bool;
  data : option sync_data;
  last_update_success : bool;
}.

Definition set_last_sync_time (t : option Z) (c : Coordinator) : Coordinator :=
  mkCoordinator (config c) (dns_record c) (zone_id c) (api_token c) (what_ip c)
    (proxied c) (ttl c) (auto_update_enabled c) t (_manual_sync_requested c)
    (data c) (last_update_success c).

Definition set_manual_sync_requested (b : bool) (c : Coordinator) : Coordinator :=
  mkCoordinator (config c) (dns_record c) (zone_id c) (api_token c) (what_ip c)
    (proxied c) (ttl c) (auto_update_enabled c) (last_sync_time c) b
    (data c) (last_update_success c).

Definition set_auto_update_enabled (v : pyval) (c : Coordinator) : Coordinator :=
  mkCoordinator (config c) (dns_record c) (zone_id c) (api_token c) (what_ip c)
    (proxied c) (ttl c) v (last_sync_time c) (_manual_sync_requested c)
    (data c) (last_update_success c).

Definition set_data (d : option sync_data) (ok : bool) (c : Coordinator) : Coordinator :=
  mkCoordinator (config c) (dns_record c) (zone_id c) (api_token c) (what_ip c)
    (proxied c) (ttl c) (auto_update_enabled c) (last_sync_time c)
    (_manual_sync_requested c) d ok.

(** [config[key]] raises [KeyError]; [config.get(key, dflt)] does not. *)
Definition config_item (cfg : gmap string pyval) (key : string) : outcome pyval :=
  match cfg !! key with
  | Some v => Ok v
  | None => Raise (KeyError (String.append "'" (String.append key "'")))
  end.

Definition config_get (cfg : gmap string pyval) (key : string) (dflt : pyval) : pyval :=
  default dflt (cfg !! key).

(** [CloudflareDDNSCoordinator.__init__] *)
Definition __init__ (cfg : gmap string pyval) : outcome Coordinator :=
  match config_item cfg CONF_DNS_RECORD with
  | Raise e => Raise e
  | Ok dns_record_ =>
  match config_item cfg CONF_ZONE_ID with
  | Raise e => Raise e
  | Ok zone_id_ =>
  match config_item cfg CONF_API_TOKEN with
  | Raise e => Raise e
  | Ok api_token_ =>
  match config_item cfg CONF_WHAT_IP with
  | Raise e => Raise e
  | Ok what_ip_ =>
      Ok {| config := cfg;
            dns_record := dns_record_;
            zone_id := zone_id_;
            api_token := api_token_;
            what_ip := what_ip_;
            proxied := config_get cfg CONF_PROXIED (PBool false);
            ttl := config_get cfg CONF_TTL (PInt 120);
            auto_update_enabled :=
              config_get cfg CONF_AUTO_UPDATE (PBool DEFAULT_AUTO_UPDATE);
            last_sync_time := None;
            _manual_sync_requested := false;
            data := None;
            last_update_success := true |}
  end end end end.

(** ** Running code: state, exceptions, trace *)

Section Reconciler.
Context {W : Type} `{Host W}.

Record run := Run {
  coord : Coordinator;
  world : W;
  trace : list event;
}.

Definition M (A : Type) : Type := run -> outcome A * run.

Definition ret {A} (a : A) : M A := fun st => (Ok a, st).
Definition raise {A} (e : exn) : M A := fun st => (Raise e, st).
Definition bind {A B} (m : M A) (k : A -> M B) : M B :=
  fun st =>
    match m st with
    | (Ok a, st') => k a st'
    | (Raise e, st') => (Raise e, st')
    end.

(** [try: body except Exception as err: handler(err)] *)
Definition try_except {A} (body : M A) (handler : exn -> M A) : M A :=
  fun st =>
    match body st with
    | (Ok a, st') => (Ok a, st')
    | (Raise e, st') => handler e st'
    end.

Notation "'let*' x ':=' c 'in' k" := (bind c (fun x => k))
  (at level 10, x pattern, c at level 100, k at level 200).
Notation "c ';;' k" := (bind c (fun _ => k))
  (at level 100, k at level 200, right associativity).

Definition self : M Coordinator := fun st => (Ok (coord st), st).

Definition modify (f : Coordinator -> Coordinator) : M unit :=
  fun st => (Ok tt, Run (f (coord st)) (world st) (trace st)).

(** [async with self.session.<verb>(...) as response]: the call is logged,
    the world answers, a transport error is raised. *)
Definition http (r : request) : M response :=
  fun st =>
    let (rep, w') := serve r (world st) in
    let st' := Run (coord st) w' (trace st ++ [EvCall r]) in
    match rep with
    | inl e => (Raise e, st')
    | inr resp => (Ok resp, st')
    end.

(** [dt_util.now()] *)
Definition dt_now : M Z :=
  fun st =>
    let (t, w') := now (world st) in
    (Ok t, Run (coord st) w' (trace st ++ [EvNow t])).

(** [await response.text()], [await response.json()] *)
Definition text (resp : response) : M string :=
  match resp_text resp with
  | Some s => ret s
  | None => raise (ClientError "cannot read the response body")
  end.

Definition json_of (resp : response) : M json :=
  match resp_json resp with
  | Some j => ret j
  | None => raise (ClientError "cannot decode the response body")
  end.

(** [d.get(key)]: [None] when the key is absent, [AttributeError] when [d]
    is not a dict (a string, a list, a number, [None]). *)
Definition dict_get (d : json) (key : string) : M json :=
  match d with
  | JObj fields => ret (default JNone (assoc key fields))
  | _ => raise (AttributeError
                  ("'" ++ py_type_name d ++ "' object has no attribute 'get'"))
  end.

(** [d[key]] *)
Definition dict_item (d : json) (key : string) : M json :=
  match d with
  | JObj fields =>
      match assoc key fields with
      | Some v => ret v
      | None => raise (KeyError ("'" ++ key ++ "'"))
      end
  | _ => raise (TypeError
                  ("'" ++ py_type_name d ++ "' object is not subscriptable"))
  end.

(** [x[0]]: the first element of a list, the first character of a string. *)
Definition item0 (x : json) : M json :=
  match x with
  | JArr (first :: _) => ret first
  | JArr [] => raise (IndexError "list index out of range")
  | JAtom (PStr (String c _)) => ret (JAtom (PStr (String c EmptyString)))
  | JAtom (PStr EmptyString) => raise (IndexError "string index out of range")
  | JObj _ => raise (KeyError "0")
  | JAtom _ =>
      raise (TypeError ("'" ++ py_type_name x ++ "' object is not subscriptable"))
  end.

(** ** __init__.py: the provider client *)

(** [_get_current_ip]: the trimmed body of the address-echo endpoint, or
    [None]. *)
Definition _get_current_ip : M (option string) :=
  try_except
    (let* c := self in
     if py_eq (what_ip c) (PStr IP_TYPE_EXTERNAL) then
       let* response := http GetExternalIp in
       if status response =? 200 then
         let* body := text response in
         ret (Some (strip body))
       else ret None
     else
       ret None)
    (fun err => ret None).

(** [_get_dns_record_info]: the first element of the envelope's result, or
    [None] (here [JNone]). *)
Definition _get_dns_record_info : M json :=
  try_except
    (let* c := self in
     let* response :=
       http (GetDnsRecords (zone_id c) (api_token c) (dns_record c)) in
     if status response =? 200 then
       let* data_ := json_of response in
       let* success := dict_get data_ "success" in
       if json_truthy success then
         let* result := dict_get data_ "result" in
         if json_truthy result then
           let* results := dict_item data_ "result" in
           item0 results
         else ret JNone
       else ret JNone
     else ret JNone)
    (fun err => ret JNone).

(** [_update_dns_record] *)
Definition _update_dns_record (record_id : json) (ip : string) : M bool :=
  try_except
    (let* c := self in
     let* response :=
       http (PutDnsRecord (zone_id c) (api_token c) record_id
               (dns_record c) ip (ttl c) (proxied c)) in
     if status response =? 200 then
       let* result := json_of response in
       let* success := dict_get result "success" in
       if json_truthy success then ret true else ret false
     else ret false)
    (fun err => ret false).

(** ** __init__.py: the notifier *)

(** The block under [# Telegram notification]. *)
Definition notify_telegram (c : Coordinator) (message_ : message) : M unit :=
  if truthy (config_get (config c) CONF_NOTIFY_TELEGRAM PNone) then
    let chat_id := config_get (config c) CONF_TELEGRAM_CHAT_ID PNone in
    let bot_token := config_get (config c) CONF_TELEGRAM_BOT_TOKEN PNone in
    if truthy chat_id && truthy bot_token then
      try_except
        (let* response := http (TelegramSend bot_token chat_id message_) in
         ret tt)
        (fun err => ret tt)
    else ret tt
  else ret tt.

(** The block under [# Discord notification]. *)
Definition notify_discord (c : Coordinator) (message_ : message) : M unit :=
  if truthy (config_get (config c) CONF_NOTIFY_DISCORD PNone) then
    let webhook_url := config_get (config c) CONF_DISCORD_WEBHOOK_URL PNone in
    if truthy webhook_url then
      try_except
        (let* response := http (DiscordPost webhook_url message_) in
         ret tt)
        (fun err => ret tt)
    else ret tt
  else ret tt.

(** [_send_notifications]: the two blocks in sequence. *)
Definition _send_notifications (new_ip : string) (old_ip : json) : M unit :=
  let* c := self in
  let message_ := Message (dns_record c) new_ip old_ip in
  notify_telegram c message_ ;;
  notify_discord c message_.

(** ** __init__.py: the reconciliation cycle *)

Definition MSG_NO_IP := "Failed to get current IP address".
Definition MSG_NO_RECORD := "Failed to get DNS record information".
Definition MSG_NO_UPDATE := "Failed to update DNS record".

Definition refresh_last_sync_time : M unit :=
  let* t := dt_now in
  modify (set_last_sync_time (Some t)).

(** Lines 134-179 of [_async_update_data]: compare the record read with
    the address resolved, write if that is called for, stamp the time and
    build the result. *)
Definition reconcile_record (is_manual_sync : bool) (ip : string)
           (dns_record_info : json) : M sync_data :=
  let* dns_record_id := dict_get dns_record_info "id" in
  let* dns_record_ip_ := dict_get dns_record_info "content" in
  let* is_proxied := dict_get dns_record_info "proxied" in
  let* c := self in
  let synced0 :=
    json_eq dns_record_ip_ (PStr ip) && json_eq is_proxied (proxied c) in
  let* synced_ :=
    (if is_manual_sync || (negb synced0 && truthy (auto_update_enabled c))
     then
       if negb synced0 then
         let* success := _update_dns_record dns_record_id ip in
         if success then
           _send_notifications ip dns_record_ip_ ;;
           refresh_last_sync_time ;;
           ret true
         else raise (UpdateFailed MSG_NO_UPDATE)
       else
         (if is_manual_sync then refresh_last_sync_time else ret tt) ;;
         ret synced0
     else ret synced0) in
  let* c := self in
  (if truthy (auto_update_enabled c) && negb is_manual_sync
   then refresh_last_sync_time else ret tt) ;;
  let* c := self in
  ret (SyncData synced_ ip dns_record_ip_ (dns_record c)).

(** The body of the [try] of [_async_update_data]: lines 121-132, then
    [reconcile_record]. *)
Definition update_data_body : M sync_data :=
  let* c := self in
  let is_manual_sync := _manual_sync_requested c in
  modify (set_manual_sync_requested false) ;;
  let* current_ip_ := _get_current_ip in
  match current_ip_ with
  | None | Some EmptyString => raise (UpdateFailed MSG_NO_IP)
  | Some ip =>
    let* dns_record_info := _get_dns_record_info in
    if negb (json_truthy dns_record_info) then
      raise (UpdateFailed MSG_NO_RECORD)
    else
      reconcile_record is_manual_sync ip dns_record_info
  end.

(** [_async_update_data]: every exception of the body, [UpdateFailed]
    included, is raised again as [UpdateFailed]. *)
Definition _async_update_data : M sync_data :=
  try_except update_data_body
    (fun err =>
       match err with
       | TimeoutError => raise (UpdateFailed "Timeout connecting to Cloudflare API")
       | _ => raise (UpdateFailed ("Error updating data: " ++ exn_str err))
       end).

(** The failures of a cycle, by the message the caller sees. *)
Definition AddressResolutionError := UpdateFailed ("Error updating data: " ++ MSG_NO_IP).
Definition RecordLookupError := UpdateFailed ("Error updating data: " ++ MSG_NO_RECORD).
Definition UpdateError := UpdateFailed ("Error updating data: " ++ MSG_NO_UPDATE).

(** Modelled from the spec: the refresh of the host framework's
    [DataUpdateCoordinator], which is not part of the sources.  It runs
    [_async_update_data]; a result replaces the published [data]; a failed
    cycle is recorded and "the previous SyncStatus remains the last
    known-good value". *)
Definition async_refresh : M unit :=
  try_except
    (let* d := _async_update_data in
     modify (set_data (Some d) true))
    (fun err => modify (fun c => set_data (data c) false c)).

(** ** button.py, switch.py *)

(** [CloudflareDDNSSyncButton.async_press]; [async_request_refresh] is the
    framework's request for a refresh, taken as an immediate one. *)
Definition async_press : M unit :=
  modify (set_manual_sync_requested true) ;;
  async_refresh.

(** [CloudflareDDNSAutoUpdateSwitch.async_turn_on], [async_turn_off]: the
    attribute of the coordinator (the persisted options are the host's). *)
Definition async_turn_on : M unit := modify (set_auto_update_enabled (PBool true)).
Definition async_turn_off : M unit := modify (set_auto_update_enabled (PBool false)).

End Reconciler.

Arguments run W : clear implicits.
Arguments M W A : clear implicits.

(** ** Vocabulary for the statements *)

Local Open Scope list_scope.

Section Vocabulary.
Context {W : Type} `{Host W}.

(** The state after lines 121-122 of [_async_update_data]: the manual-sync
    flag has been read and reset. *)
Definition started (st : run W) : run W :=
  Run (set_manual_sync_requested false (coord st)) (world st) (trace st).

(** [st'] is reached from [st] by issuing [tr], the coordinator untouched. *)
Definition issues (st st' : run W) (tr : list event) : Prop :=
  coord st' = coord st /\ trace st' = trace st ++ tr.

(** The write request of the coordinator for a record and an address. *)
Definition put_request (c : Coordinator) (record_id : json) (ip : string) : request :=
  PutDnsRecord (zone_id c) (api_token c) record_id (dns_record c) ip (ttl c) (proxied c).

(** The answer that makes [_update_dns_record] return [True]. *)
Definition put_accepted (rep : reply) : Prop :=
  exists resp fields success,
    rep = inr resp /\ status resp = 200  /\
    resp_json resp = Some (JObj fields)  /\
    assoc "success" fields = Some success  /\
    json_truthy success = true.

(** The calls [_send_notifications] makes, read off the configuration. *)
Definition telegram_calls (c : Coordinator) (m : message) : list event :=
  if truthy (config_get (config c) CONF_NOTIFY_TELEGRAM PNone)
     && (truthy (config_get (config c) CONF_TELEGRAM_CHAT_ID PNone)
         && truthy (config_get (config c) CONF_TELEGRAM_BOT_TOKEN PNone))
  then [EvCall (TelegramSend (config_get (config c) CONF_TELEGRAM_BOT_TOKEN PNone)
                  (config_get (config c) CONF_TELEGRAM_CHAT_ID PNone) m)]
  else [].

Definition discord_calls (c : Coordinator) (m : message) : list event :=
  if truthy (config_get (config c) CONF_NOTIFY_DISCORD PNone)
     && truthy (config_get (config c) CONF_DISCORD_WEBHOOK_URL PNone)
  then [EvCall (DiscordPost (config_get (config c) CONF_DISCORD_WEBHOOK_URL PNone) m)]
  else [].

Definition notification_calls (c : Coordinator) (new_ip : string) (old_ip : json)
  : list event :=
  telegram_calls c (Message (dns_record c) new_ip old_ip)
  ++ discord_calls c (Message (dns_record c) new_ip old_ip).

(** A property of the world that no request other than a provider write,
    and no clock read, can break. *)
Definition quiet (P : W -> Prop) : Prop :=
  (forall r w, is_write (EvCall r) = false -> P w -> P (snd (serve r w))) /\
  (forall w, P w -> P (snd (now w))).

(** [info.get(key)] on a record that is a dict. *)
Definition field (key : string) (fields : list (string * json)) : json :=
  default JNone (assoc key fields).

(** Line 138: the record matches the address and the configured flag. *)
Definition in_sync (c : Coordinator) (ip : string) (fields : list (string * json)) : bool :=
  json_eq (field "content" fields) (PStr ip)
  && json_eq (field "proxied" fields) (proxied c).

(** The cycle started in [st] resolves the non-empty address [ip], then
    reads the record [fields], and is then in [st2]. *)
Definition observes (st : run W) (ip : string) (fields : list (string * json))
           (st2 : run W) : Prop :=
  exists st1,
    _get_current_ip (started st) = (Ok (Some ip), st1) /\
    ip <> "" /\
    _get_dns_record_info st1 = (Ok (JObj fields), st2) /\
    fields <> [].

(** The state in which the cycle started in [st] has read the record. *)
Definition after_read (st : run W) : run W :=
  snd (_get_dns_record_info (snd (_get_current_ip (started st)))).

End Vocabulary.

(** ** A provider to run the code against

    A zone of records that changes only when a write is served, an
    address-echo endpoint, and third-party notification endpoints that answer
    whatever [notify] says.  [put_fault], when set, is the answer to every
    write, which then changes nothing. *)
Module Provider.

Record zone_record := ZoneRecord {
  rec_id : string;
  rec_name : pyval;
  rec_content : string;
  rec_ttl : pyval;
  rec_proxied : pyval;
}.

Record world := World {
  clock : Z;
  echo : reply;
  zone : list zone_record;
  put_fault : option reply;
  notify : request -> reply;
}.

Definition tick (w : world) : world :=
  World (clock w + 1) (echo w) (zone w) (put_fault w) (notify w).

Definition set_zone (z : list zone_record) (w : world) : world :=
  World (clock w) (echo w) z (put_fault w) (notify w).

Definition to_json (r : zone_record) : json :=
  JObj [("id", JAtom (PStr (rec_id r)));
        ("name", JAtom (rec_name r));
        ("content", JAtom (PStr (rec_content r)));
        ("ttl", JAtom (rec_ttl r));
        ("proxied", JAtom (rec_proxied r))].

(** The bindings of [to_json r]. *)
Definition fields_of (r : zone_record) : list (string * json) :=
  match to_json r with JObj fields => fields | _ => [] end.

Definition named (name : pyval) (r : zone_record) : bool :=
  py_eq (rec_name r) name.

Definition has_id (record_id : json) (r : zone_record) : bool :=
  match record_id with
  | JAtom (PStr i) => String.eqb (rec_id r) i
  | _ => false
  end.

(** A write replaces the record of that identifier. *)
Definition replace (record_id : json) (name : pyval) (content : string)
           (ttl_ proxied_ : pyval) (r : zone_record) : zone_record :=
  if has_id record_id r
  then ZoneRecord (rec_id r) name content ttl_ proxied_
  else r.

Definition envelope (ok : bool) (result : json) : response :=
  Response 200 None
    (Some (JObj [("success", JAtom (PBool ok)); ("result", result)])).

Definition not_found : response :=
  Response 404 None
    (Some (JObj [("success", JAtom (PBool false)); ("result", JNone)])).

Definition answer (r : request) (w : world) : reply * world :=
  match r with
  | GetExternalIp => (echo w, tick w)
  | GetDnsRecords _ _ name =>
      (inr (envelope true (JArr (map to_json (List.filter (named name) (zone w))))),
       tick w)
  | PutDnsRecord _ _ record_id name content ttl_ proxied_ =>
      match put_fault w with
      | Some rep => (rep, tick w)
      | None =>
          if existsb (has_id record_id) (zone w) then
            let z := map (replace record_id name content ttl_ proxied_) (zone w) in
            (inr (envelope true JNone), tick (set_zone z w))
          else (inr not_found, tick w)
      end
  | TelegramSend _ _ _ | DiscordPost _ _ => (notify w r, tick w)
  end.

Definition read_clock (w : world) : Z * world := (clock w, tick w).

#[export] Instance host : Host world := {| serve := answer; now := read_clock |}.

(** The address-echo endpoint answering [body]. *)
Definition echoes (body : string) : reply := inr (Response 200 (Some body) None).

Definition silent : request -> reply := fun _ => inr (Response 200 None None).

(** What only a write can change in the provider's world. *)
Definition settled (e : reply) (z : list zone_record) (w : world) : Prop :=
  echo w = e /\ zone w = z /\ put_fault w = None.

End Provider.

#[export] Existing Instance Provider.host.

(** ** config_flow.py *)
Module ConfigFlow.

Inductive FlowResult :=
| CreateEntry (title : pyval) (data_ : gmap string pyval)
    (* self.async_create_entry(title=..., data=user_input) *)
| ShowForm (step_id : string) (errors : gmap string string).
    (* self.async_show_form(step_id=..., data_schema=..., errors=errors) *)

(** [v < m] and [v > m] for an integer bound: [bool] counts as [int]; any
    other operand raises [TypeError]. *)
Definition py_lt (v : pyval) (m : Z) : outcome bool :=
  match v with
  | PInt n => Ok (n <? m)
  | PBool b => Ok (int_of_bool b <? m)
  | _ => Raise (TypeError "'<' not supported between these instances")
  end.

Definition py_gt (v : pyval) (m : Z) : outcome bool :=
  match v with
  | PInt n => Ok (m <? n)
  | PBool b => Ok (m <? int_of_bool b)
  | _ => Raise (TypeError "'>' not supported between these instances")
  end.

(** [ttl != AUTO_TTL and (ttl < MIN_TTL or ttl > MAX_TTL)] *)
Definition ttl_out_of_range (ttl_ : pyval) : outcome bool :=
  if negb (py_eq ttl_ (PInt AUTO_TTL)) then
    match py_lt ttl_ MIN_TTL with
    | Raise e => Raise e
    | Ok true => Ok true
    | Ok false => py_gt ttl_ MAX_TTL
    end
  else Ok false.

(** [user_input.get(CONF_WHAT_IP) == IP_TYPE_INTERNAL and
    user_input.get(CONF_PROXIED, False)] *)
Definition internal_cannot_proxy (user_input : gmap string pyval) : bool :=
  py_eq (config_get user_input CONF_WHAT_IP PNone) (PStr IP_TYPE_INTERNAL)
  && truthy (config_get user_input CONF_PROXIED (PBool false)).

(** The two validations, which the two steps spell out identically (lines
    59-69 and 146-156), filling [errors]. *)
Definition validate (user_input : gmap string pyval) : outcome (gmap string string) :=
  let errors : gmap string string := ∅ in
  let ttl_ := config_get user_input CONF_TTL (PInt DEFAULT_TTL) in
  match ttl_out_of_range ttl_ with
  | Raise e => Raise e
  | Ok bad_ttl =>
      let errors := if bad_ttl then <[CONF_TTL := "invalid_ttl"]> errors else errors in
      let errors :=
        if internal_cannot_proxy user_input
        then <[CONF_PROXIED := "internal_cannot_proxy"]> errors
        else errors in
      Ok errors
  end.

(** [CloudflareDDNSConfigFlow.async_step_user] *)
Definition async_step_user (user_input : option (gmap string pyval)) : outcome FlowResult :=
  match user_input with
  | Some user_input =>
      match validate user_input with
      | Raise e => Raise e
      | Ok errors =>
          if bool_decide (errors = ∅) then
            match config_item user_input CONF_DNS_RECORD with
            | Raise e => Raise e
            | Ok dns_name =>
                let title := config_get user_input CONF_DEVICE_NAME dns_name in
                Ok (CreateEntry title user_input)
            end
          else Ok (ShowForm "user" errors)
      end
  | None => Ok (ShowForm "user" ∅)
  end.

(** [CloudflareDDNSOptionsFlowHandler.async_step_init] *)
Definition async_step_init (user_input : option (gmap string pyval)) : outcome FlowResult :=
  match user_input with
  | Some user_input =>
      match validate user_input with
      | Raise e => Raise e
      | Ok errors =>
          if bool_decide (errors = ∅) then
            Ok (CreateEntry (PStr "") user_input)
          else Ok (ShowForm "init" errors)
      end
  | None => Ok (ShowForm "init" ∅)
  end.

(** What a step reports under [key]: [None] when the form is accepted or
    shown again with no error under that key. *)
Definition error_at (key : string) (res : outcome FlowResult) : option string :=
  match res with
  | Ok (ShowForm _ errors) => errors !! key
  | _ => None
  end.

Definition accepted (res : outcome FlowResult) : bool :=
  match res with
  | Ok (CreateEntry _ _) => true
  | _ => false
  end.

End ConfigFlow.

(** ** Concrete runs

    The scenario of the specification: the record [host.example.com] holds
    [1.2.3.4], the address-echo endpoint answers [5.6.7.8], nothing is
    proxied, both channels are configured. *)
Module Scenario.
Import Provider.

Definition cfg : gmap string pyval :=
  <[CONF_DNS_RECORD := PStr "host.example.com"]>
  (<[CONF_ZONE_ID := PStr "zone-1"]>
  (<[CONF_API_TOKEN := PStr "token"]>
  (<[CONF_WHAT_IP := PStr "external"]>
  (<[CONF_NOTIFY_TELEGRAM := PBool true]>
  (<[CONF_TELEGRAM_CHAT_ID := PStr "42"]>
  (<[CONF_TELEGRAM_BOT_TOKEN := PStr "bot-token"]>
  (<[CONF_NOTIFY_DISCORD := PBool true]>
  (<[CONF_DISCORD_WEBHOOK_URL := PStr "https://discord.example/hook"]> ∅)))))))).

(** The coordinator [__init__] builds from [cfg]. *)
Definition fresh : Coordinator :=
  {| config := cfg;
     dns_record := PStr "host.example.com";
     zone_id := PStr "zone-1";
     api_token := PStr "token";
     what_ip := PStr "external";
     proxied := PBool false;
     ttl := PInt 120;
     auto_update_enabled := PBool true;
     last_sync_time := None;
     _manual_sync_requested := false;
     data := None;
     last_update_success := true |}.

Definition pressed (c : Coordinator) := set_manual_sync_requested true c.
Definition switched_off (c : Coordinator) := set_auto_update_enabled (PBool false) c.

Definition newline : string := String (ascii_of_nat 10) EmptyString.

Definition stale : zone_record :=
  ZoneRecord "rec-1" (PStr "host.example.com") "1.2.3.4" (PInt 120) (PBool false).
Definition current : zone_record :=
  ZoneRecord "rec-1" (PStr "host.example.com") "5.6.7.8" (PInt 120) (PBool false).

(** Worlds: the record stale or current; the echo endpoint up or timing
    out; the provider refusing writes; the channels failing. *)
Definition mismatched : world :=
  World 100 (echoes (String.append "5.6.7.8" newline)) [stale] None silent.
Definition matched : world :=
  World 100 (echoes (String.append "5.6.7.8" newline)) [current] None silent.
Definition echo_down : world :=
  World 100 (inl TimeoutError) [stale] None silent.
Definition write_refused : world :=
  World 100 (echoes (String.append "5.6.7.8" newline)) [stale]
    (Some (inr (Response 200 None
                  (Some (JObj [("success", JAtom (PBool false))]))))) silent.
Definition channels_down : world :=
  World 100 (echoes (String.append "5.6.7.8" newline)) [stale] None
    (fun _ => inl TimeoutError).

Definition start (c : Coordinator) (w : world) : run world := Run c w [].

Definition ip : string := "5.6.7.8".

(** Starting states: auto-update on, a manual request pending, or
    auto-update switched off, in each world. *)
Definition auto_stale : run world := start fresh mismatched.
Definition auto_current : run world := start fresh matched.
Definition manual_current : run world := start (pressed fresh) matched.
Definition off_stale : run world := start (switched_off fresh) mismatched.
Definition auto_refused : run world := start fresh write_refused.
Definition manual_refused : run world := start (pressed fresh) write_refused.
Definition auto_unnotified : run world := start fresh channels_down.
Definition auto_echo_down : run world := start fresh echo_down.

(** The state after the write attempted by the cycle started in [st]. *)
Definition after_write (st : run world) : run world :=
  snd (_update_dns_record (field "id" (fields_of stale)) ip (after_read st)).

(** A form submitted with a TTL of 50. *)
Definition form_ttl_50 : gmap string pyval := <[CONF_TTL := PInt 50]> cfg.

End Scenario.

(** ** __init__.py: setting an entry up; switch.py: persisting the toggle *)

(** A configuration entry of the host: [entry.data] and [entry.options]. *)
Record ConfigEntry := mkConfigEntry {
  entry_data : gmap string pyval;
  entry_options : gmap string pyval;
}.

(** [{**entry.data, **entry.options}]: the options win. *)
Definition merged_config (entry : ConfigEntry) : gmap string pyval :=
  entry_options entry ∪ entry_data entry.

(** Lines 49-59 of [async_setup_entry]: the merged configuration, the
    update interval read from it, and the coordinator built from it. *)
Definition setup_coordinator (entry : ConfigEntry) : outcome (Coordinator * pyval) :=
  let config_ := merged_config entry in
  let update_interval :=
    config_get config_ CONF_UPDATE_INTERVAL (PInt DEFAULT_UPDATE_INTERVAL) in
  match __init__ config_ with
  | Raise e => Raise e
  | Ok coordinator => Ok (coordinator, update_interval)
  end.

(** [CloudflareDDNSAutoUpdateSwitch.is_on] *)
Definition is_on (c : Coordinator) : pyval := auto_update_enabled c.

(** The entry after [async_turn_on] ([b = true]) and [async_turn_off]
    ([b = false]):
    [async_update_entry(entry, options={**entry.options, CONF_AUTO_UPDATE: b})]. *)
Definition persist_auto_update (b : bool) (entry : ConfigEntry) : ConfigEntry :=
  mkConfigEntry (entry_data entry)
    (<[CONF_AUTO_UPDATE := PBool b]> (entry_options entry)).

(** ** sensor.py *)

(** [CloudflareDDNSSyncedSensor.native_value] *)
Definition synced_native_value (c : Coordinator) : string :=
  match data c with
  | Some d => if synced d then "Yes" else "No"
  | None => "Unknown"
  end.

(** [CloudflareDDNSSyncedSensor.extra_state_attributes], as the list of
    its items. *)
Definition synced_extra_state_attributes (c : Coordinator) : list (string * json) :=
  match data c with
  | Some d => [("dns_record_ip", dns_record_ip d);
               ("current_ip", JAtom (PStr (current_ip d)))]
  | None => []
  end.

(** [CloudflareDDNSLastSyncSensor.native_value] *)
Definition last_sync_native_value (c : Coordinator) : option Z := last_sync_time c.

(** [CloudflareDDNSDomainSensor.native_value] *)
Definition domain_native_value (c : Coordinator) : pyval :=
  match data c with
  | Some d => domain d
  | None => dns_record c
  end.

(** [CloudflareDDNSCurrentIPSensor.native_value] *)
Definition current_ip_native_value (c : Coordinator) : option string :=
  match data c with
  | Some d => Some (current_ip d)
  | None => None
  end.

(** ** More vocabulary: counting calls, a host that follows a script *)

Definition is_lookup (e : event) : bool :=
  match e with EvCall GetExternalIp => true | _ => false end.

Definition is_notification (e : event) : bool :=
  match e with
  | EvCall (TelegramSend _ _ _) | EvCall (DiscordPost _ _) => true
  | _ => false
  end.

(** Address lookups and notification calls in a trace. *)
Definition lookups (tr : list event) : nat := length (List.filter is_lookup tr).
Definition notifications (tr : list event) : nat :=
  length (List.filter is_notification tr).

(** The coordinator but for what a cycle may touch: the manual-sync flag
    and [last_sync_time]. *)
Definition settings (c : Coordinator) : Coordinator :=
  set_last_sync_time None (set_manual_sync_requested false c).

(** A host that answers the calls, whatever they are, with the replies of a
    list, in order, and whose clock advances at each call and each read. *)
Module Script.

Record world := World {
  answers : list reply;
  time : Z;
}.

Definition answer (r : request) (w : world) : reply * world :=
  match answers w with
  | [] => (inl (ClientError "connection refused"), World [] (time w + 1))
  | rep :: rest => (rep, World rest (time w + 1))
  end.

Definition read_clock (w : world) : Z * world :=
  (time w, World (answers w) (time w + 1)).

#[export] Instance host : Host world := {| serve := answer; now := read_clock |}.

(** Replies: a 200 with a text body, a 200 with a JSON body, a bare status. *)
Definition text_reply (body : string) : reply := inr (Response 200 (Some body) None).
Definition json_reply (j : json) : reply := inr (Response 200 None (Some j)).
Definition status_reply (code : Z) : reply := inr (Response code None None).

Definition start (c : Coordinator) (script : list reply) : run world :=
  Run c (World script 0) [].

End Script.

#[export] Existing Instance Script.host.

(** ** More concrete runs: other coordinators, entries, forms and scripts *)
Module Cases.

(** A coordinator with another configuration dictionary. *)
Definition with_config (cfg : gmap string pyval) (c : Coordinator) : Coordinator :=
  mkCoordinator cfg (dns_record c) (zone_id c) (api_token c) (what_ip c)
    (proxied c) (ttl c) (auto_update_enabled c) (last_sync_time c)
    (_manual_sync_requested c) (data c) (last_update_success c).

(** The coordinator of the scenario, set to the internal address source. *)
Definition internal : Coordinator :=
  mkCoordinator (<[CONF_WHAT_IP := PStr "internal"]> Scenario.cfg)
    (PStr "host.example.com") (PStr "zone-1") (PStr "token") (PStr "internal")
    (PBool false) (PInt 120) (PBool true) None false None true.

(** The chat-bot switched on, its token left out. *)
Definition no_token : Coordinator :=
  with_config (delete CONF_TELEGRAM_BOT_TOKEN Scenario.cfg) Scenario.fresh.

(** No channel configured. *)
Definition bare_cfg : gmap string pyval :=
  <[CONF_DNS_RECORD := PStr "host.example.com"]>
  (<[CONF_ZONE_ID := PStr "zone-1"]>
  (<[CONF_API_TOKEN := PStr "token"]>
  (<[CONF_WHAT_IP := PStr "external"]> ∅))).

Definition bare : Coordinator := with_config bare_cfg Scenario.fresh.

(** The entry of the scenario, as the initial step stores it. *)
Definition entry : ConfigEntry := mkConfigEntry Scenario.cfg ∅.

(** Forms: a TTL of 300; an internal address to be proxied with a TTL of 50. *)
Definition form_ttl_300 : gmap string pyval := <[CONF_TTL := PInt 300]> Scenario.cfg.
Definition form_internal_proxied : gmap string pyval :=
  <[CONF_TTL := PInt 50]>
  (<[CONF_WHAT_IP := PStr "internal"]>
  (<[CONF_PROXIED := PBool true]> Scenario.cfg)).

(** A zone that holds no record of the name. *)
Definition unlisted : Provider.world :=
  Provider.World 100 (Provider.echoes (String.append "5.6.7.8" Scenario.newline))
    [] None Provider.silent.

(** Answers to replay. *)
Definition echo_ok : reply := Script.text_reply (String.append "5.6.7.8" Scenario.newline).
Definition echo_blank : reply := Script.text_reply (String.append "  " Scenario.newline).
Definition listing (result : list json) : reply :=
  Script.json_reply (JObj [("success", JAtom (PBool true)); ("result", JArr result)]).
Definition put_ok : reply :=
  Script.json_reply (JObj [("success", JAtom (PBool true))]).

(** Records as the provider lists them: one whose proxied flag alone is
    off, one with no proxied field. *)
Definition proxied_fields : list (string * json) :=
  [("id", JAtom (PStr "rec-1")); ("content", JAtom (PStr "5.6.7.8"));
   ("proxied", JAtom (PBool true))].
Definition unflagged_fields : list (string * json) :=
  [("id", JAtom (PStr "rec-1")); ("content", JAtom (PStr "5.6.7.8"))].

Definition blank : run Script.world := Script.start Scenario.fresh [echo_blank].
Definition odd : run Script.world :=
  Script.start Scenario.fresh [echo_ok; listing [JAtom (PStr "oops")]].
Definition proxied_only : run Script.world :=
  Script.start Scenario.fresh [echo_ok; listing [JObj proxied_fields]; put_ok].
Definition unflagged : run Script.world :=
  Script.start Scenario.fresh [echo_ok; listing [JObj unflagged_fields]; put_ok].

(** Against the provider: no record listed; a manual request with the
    switch off. *)
Definition auto_unlisted : run Provider.world := Scenario.start Scenario.fresh unlisted.
Definition manual_off_stale : run Provider.world :=
  Scenario.start (Scenario.pressed (Scenario.switched_off Scenario.fresh))
    Scenario.mismatched.

End Cases.

(** * Properties *)

(** ** Python values *)

Lemma py_eq_refl (v : pyval) : py_eq v v = true.
Proof.
  destruct v as [| b | n | s]; simpl.
  - reflexivity.
  - now destruct b.
  - apply Z.eqb_refl.
  - apply String.eqb_refl.
Qed.

(** Comparing a JSON value with a string is exact: no other value, and no
    other spelling of an address, compares equal. *)
Lemma json_eq_str (j : json) (s : string) :
  json_eq j (PStr s) = true <-> j = JAtom (PStr s).
Proof.
  split.
  - destruct j as [[| b | n | t] | items | fields]; simpl; try discriminate.
    intros E. apply String.eqb_eq in E. now subst.
  - intros ->. simpl. apply String.eqb_refl.
Qed.

Lemma writes_app (tr1 tr2 : list event) : writes (tr1 ++ tr2) = (writes tr1 + writes tr2)%nat.
Proof. unfold writes. now rewrite List.filter_app, length_app. Qed.

(** ** What each helper of the coordinator can do *)

Section Helpers.
Context {W : Type} `{Host W}.

Lemma issues_nil (st : run W) : issues st st [].
Proof. split; [reflexivity | now rewrite app_nil_r]. Qed.

Lemma issues_trans (st st1 st2 : run W) (tr1 tr2 : list event) :
  issues st st1 tr1 -> issues st1 st2 tr2 -> issues st st2 (tr1 ++ tr2).
Proof.
  intros [C1 T1] [C2 T2]. split.
  - congruence.
  - rewrite T2, T1. now rewrite app_assoc.
Qed.

(** A request either raises or answers, and is logged once. *)
Lemma http_run (r : request) (st : run W) :
  exists rep st',
    issues st st' [EvCall r] /\
    http r st = (match rep with inl e => Raise e | inr resp => Ok resp end, st').
Proof.
  unfold http. destruct (serve r (world st)) as [rep w'].
  exists rep. eexists. split; [| destruct rep; reflexivity].
  split; reflexivity.
Qed.

Lemma dt_now_run (st : run W) :
  exists t st', dt_now st = (Ok t, st') /\ issues st st' [EvNow t].
Proof.
  unfold dt_now. destruct (now (world st)) as [t w'].
  exists t. eexists. split; [reflexivity | split; reflexivity].
Qed.

Lemma refresh_last_sync_time_run (st : run W) :
  exists t st',
    refresh_last_sync_time st = (Ok tt, st') /\
    trace st' = trace st ++ [EvNow t] /\
    coord st' = set_last_sync_time (Some t) (coord st).
Proof.
  unfold refresh_last_sync_time, bind.
  destruct (dt_now_run st) as (t & st1 & -> & C1 & T1).
  exists t. eexists. split; [reflexivity |].
  simpl. rewrite C1. split; [assumption | reflexivity].
Qed.

(** [_get_current_ip] never raises; it calls the address-echo endpoint at
    most once and nothing else. *)
Lemma _get_current_ip_run (st : run W) :
  exists r st' tr,
    _get_current_ip st = (Ok r, st') /\ issues st st' tr /\
    (tr = [] \/ tr = [EvCall GetExternalIp]).
Proof.
  unfold _get_current_ip, try_except, bind, self. simpl.
  destruct (py_eq (what_ip (coord st)) (PStr IP_TYPE_EXTERNAL)).
  - destruct (http_run GetExternalIp st) as (rep & st1 & I1 & ->).
    destruct rep as [e | resp].
    + exists None, st1, [EvCall GetExternalIp]. auto.
    + destruct (status resp =? 200).
      * unfold text. destruct (resp_text resp) as [body |].
        -- exists (Some (strip body)), st1, [EvCall GetExternalIp]. auto.
        -- exists None, st1, [EvCall GetExternalIp]. auto.
      * exists None, st1, [EvCall GetExternalIp]. auto.
  - exists None, st, []. split; [reflexivity |]. split; [apply issues_nil | auto].
Qed.


(** [_get_dns_record_info] never raises; it is one read of the provider. *)
Lemma _get_dns_record_info_run (st : run W) :
  exists info st',
    _get_dns_record_info st = (Ok info, st') /\
    issues st st'
      [EvCall (GetDnsRecords (zone_id (coord st)) (api_token (coord st))
                 (dns_record (coord st)))].
Proof.
  unfold _get_dns_record_info, try_except, bind, self. simpl.
  destruct (http_run (GetDnsRecords (zone_id (coord st)) (api_token (coord st))
                        (dns_record (coord st))) st) as (rep & st1 & I1 & ->).
  destruct rep as [e | resp]; [eauto |].
  destruct (status resp =? 200); [| unfold ret; eauto].
  unfold json_of. destruct (resp_json resp) as [j |]; [| unfold raise, ret; eauto].
  unfold ret at 1.
  destruct (dict_get j "success" st1) as [[success | e] st2] eqn:E1;
    unfold dict_get in E1; destruct j as [v | items | fields];
    unfold ret, raise in E1; inversion E1; subst; clear E1; eauto.
  destruct (json_truthy _); [| unfold ret; eauto].
  unfold dict_get, ret at 1.
  destruct (json_truthy _); [| unfold ret; eauto].
  unfold dict_item. destruct (assoc "result" fields) as [res |];
    [| unfold raise, ret; eauto].
  unfold ret at 1, item0.
  destruct res as [[| b | n | [| c s]] | [| first rest] | fs];
    unfold ret, raise; eauto.
Qed.

(** [_update_dns_record] never raises; it is one write of the provider. *)
Lemma _update_dns_record_run (record_id : json) (ip : string) (st : run W) :
  exists ok st',
    _update_dns_record record_id ip st = (Ok ok, st')  /\
    issues st st' [EvCall (put_request (coord st) record_id ip)].
Proof.
  unfold _update_dns_record, try_except, bind, self, put_request. simpl.
  match goal with |- context [http ?r st] =>
    destruct (http_run r st) as (rep & st1 & I1 & ->) end.
  destruct rep as [e | resp]; [unfold ret; eauto |].
  destruct (status resp =? 200); [| unfold ret; eauto].
  unfold json_of. destruct (resp_json resp) as [j |]; [| unfold raise, ret; eauto].
  unfold ret at 1, dict_get.
  destruct j as [v | items | fields]; unfold raise, ret; eauto.
  destruct (json_truthy _); eauto.
Qed.

Lemma _update_dns_record_true (record_id : json) (ip : string) (st st' : run W) :
  _update_dns_record record_id ip st = (Ok true, st') <->
  put_accepted (fst (serve (put_request (coord st) record_id ip) (world st))) /\
  st' = Run (coord st)
          (snd (serve (put_request (coord st) record_id ip) (world st)))
          (trace st ++ [EvCall (put_request (coord st) record_id ip)]).
Proof.
  unfold _update_dns_record, try_except, bind, self, put_request, put_accepted, http.
  simpl.
  destruct (serve _ (world st)) as [[e | resp] w']; simpl.
  - unfold ret. split.
    + intros E. inversion E.
    + intros [(resp & fields & success & E & _) _]. discriminate.
  - destruct (status resp =? 200) eqn:S.
    + apply Z.eqb_eq in S. unfold json_of.
      destruct (resp_json resp) as [j |] eqn:J.
      * unfold ret at 1, dict_get.
        destruct j as [v | items | fields]; unfold raise, ret.
        -- split; [intros E; inversion E |].
           intros [(r & fs & success & E & _ & J' & _) _].
           inversion E; subst r. congruence.
        -- split; [intros E; inversion E |].
           intros [(r & fs & success & E & _ & J' & _) _].
           inversion E; subst r. congruence.
        -- destruct (assoc "success" fields) as [success |] eqn:A; simpl.
           ++ destruct (json_truthy success) eqn:T.
              ** split.
                 --- intros E. inversion E. split; [| reflexivity].
                     exists resp, fields, success. auto.
                 --- intros [_ ->]. reflexivity.
              ** split; [intros E; inversion E |].
                 intros [(r & fs & s' & E & _ & J' & A' & T') _].
                 inversion E; subst r. rewrite J in J'. inversion J'; subst fs.
                 congruence.
           ++ split; [intros E; inversion E |].
              intros [(r & fs & s' & E & _ & J' & A' & T') _].
              inversion E; subst r. rewrite J in J'. inversion J'; subst fs.
              congruence.
      * unfold raise, ret. split; [intros E; inversion E |].
        intros [(r & fs & success & E & _ & J' & _) _].
        inversion E; subst r. congruence.
    + unfold ret. split; [intros E; inversion E |].
      intros [(r & fs & success & E & S' & _) _].
      inversion E; subst r. apply Z.eqb_neq in S. contradiction.
Qed.

(** One best-effort call: logged, and its failure swallowed. *)
Lemma best_effort_run (r : request) (st : run W) :
  exists st',
    try_except (bind (http r) (fun _ => ret tt)) (fun _ => ret tt) st = (Ok tt, st') /\
    issues st st' [EvCall r].
Proof.
  unfold try_except, bind.
  destruct (http_run r st) as (rep & st1 & I1 & ->).
  exists st1. split; [destruct rep; reflexivity | exact I1].
Qed.

Lemma notify_telegram_run (c : Coordinator) (m : message) (st : run W) :
  exists st', notify_telegram c m st = (Ok tt, st') /\ issues st st' (telegram_calls c m).
Proof.
  unfold notify_telegram, telegram_calls.
  destruct (truthy (config_get (config c) CONF_NOTIFY_TELEGRAM PNone)); simpl;
    [| exists st; split; [reflexivity | apply issues_nil]].
  destruct (truthy (config_get (config c) CONF_TELEGRAM_CHAT_ID PNone)
            && truthy (config_get (config c) CONF_TELEGRAM_BOT_TOKEN PNone));
    [apply best_effort_run | exists st; split; [reflexivity | apply issues_nil]].
Qed.

Lemma notify_discord_run (c : Coordinator) (m : message) (st : run W) :
  exists st', notify_discord c m st = (Ok tt, st') /\ issues st st' (discord_calls c m).
Proof.
  unfold notify_discord, discord_calls.
  destruct (truthy (config_get (config c) CONF_NOTIFY_DISCORD PNone)); simpl;
    [| exists st; split; [reflexivity | apply issues_nil]].
  destruct (truthy (config_get (config c) CONF_DISCORD_WEBHOOK_URL PNone));
    [apply best_effort_run | exists st; split; [reflexivity | apply issues_nil]].
Qed.

(** [_send_notifications] never raises, whatever the channels answer, and
    calls every configured channel. *)
Lemma _send_notifications_run (new_ip : string) (old_ip : json) (st : run W) :
  exists st',
    _send_notifications new_ip old_ip st = (Ok tt, st') /\
    issues st st' (notification_calls (coord st) new_ip old_ip).
Proof.
  unfold _send_notifications, notification_calls, bind, self.
  destruct (notify_telegram_run (coord st)
              (Message (dns_record (coord st)) new_ip old_ip) st)
    as (st1 & -> & I1).
  destruct (notify_discord_run (coord st)
              (Message (dns_record (coord st)) new_ip old_ip) st1)
    as (st2 & -> & I2).
  exists st2. split; [reflexivity | now apply issues_trans with st1].
Qed.

Lemma http_quiet (P : W -> Prop) (r : request) (st : run W) :
  quiet P -> is_write (EvCall r) = false -> P (world st) ->
  P (world (snd (http r st))).
Proof.
  intros [Q _] Hr Hw. unfold http. specialize (Q r (world st) Hr Hw).
  destruct (serve r (world st)) as [[e | resp] w']; exact Q.
Qed.

Lemma refresh_last_sync_time_quiet (P : W -> Prop) (st : run W) :
  quiet P -> P (world st) -> P (world (snd (refresh_last_sync_time st))).
Proof.
  intros [_ Q] Hw. unfold refresh_last_sync_time, bind, dt_now, modify.
  specialize (Q (world st) Hw).
  destruct (now (world st)) as [t w']. exact Q.
Qed.

Lemma best_effort_quiet (P : W -> Prop) (r : request) (st : run W) :
  quiet P -> is_write (EvCall r) = false -> P (world st) ->
  P (world (snd (try_except (bind (http r) (fun _ => ret tt)) (fun _ => ret tt) st))).
Proof.
  intros Q Hr Hw. pose proof (http_quiet P r st Q Hr Hw) as Hq.
  unfold try_except, bind.
  destruct (http r st) as [[resp | e] st1]; exact Hq.
Qed.

Lemma _send_notifications_quiet (P : W -> Prop) (new_ip : string) (old_ip : json)
      (st : run W) :
  quiet P -> P (world st) ->
  P (world (snd (_send_notifications new_ip old_ip st))).
Proof.
  intros Q Hw. unfold _send_notifications, bind, self.
  set (m := Message _ _ _).
  assert (H1 : P (world (snd (notify_telegram (coord st) m st)))).
  { unfold notify_telegram.
    destruct (truthy (config_get (config (coord st)) CONF_NOTIFY_TELEGRAM PNone));
      [| exact Hw].
    cbv zeta.
    destruct (truthy (config_get (config (coord st)) CONF_TELEGRAM_CHAT_ID PNone)
              && truthy (config_get (config (coord st)) CONF_TELEGRAM_BOT_TOKEN PNone));
      [| exact Hw].
    now apply best_effort_quiet. }
  destruct (notify_telegram_run (coord st) m st) as (st1 & E1 & _).
  rewrite E1 in H1 |- *. simpl in H1.
  unfold notify_discord.
  destruct (truthy (config_get (config (coord st)) CONF_NOTIFY_DISCORD PNone));
    [| exact H1].
  cbv zeta.
  destruct (truthy (config_get (config (coord st)) CONF_DISCORD_WEBHOOK_URL PNone));
    [| exact H1].
  now apply best_effort_quiet.
Qed.

(** No notification call is a provider read or write. *)
Lemma notification_calls_quiet (c : Coordinator) (new_ip : string) (old_ip : json) :
  List.filter is_write (notification_calls c new_ip old_ip) = [] /\
  List.filter is_read (notification_calls c new_ip old_ip) = [].
Proof.
  unfold notification_calls, telegram_calls, discord_calls.
  destruct (truthy (config_get (config c) CONF_NOTIFY_TELEGRAM PNone)
            && (truthy (config_get (config c) CONF_TELEGRAM_CHAT_ID PNone)
                && truthy (config_get (config c) CONF_TELEGRAM_BOT_TOKEN PNone)));
    destruct (truthy (config_get (config c) CONF_NOTIFY_DISCORD PNone)
              && truthy (config_get (config c) CONF_DISCORD_WEBHOOK_URL PNone));
    split; reflexivity.
Qed.

End Helpers.

(** ** The reconciliation cycle, branch by branch *)

Section Cycle.
Context {W : Type} `{Host W}.

Lemma observes_issues (st st2 : run W) (ip : string) (fields : list (string * json)) :
  observes st ip fields st2 ->
  coord st2 = set_manual_sync_requested false (coord st) /\
  exists tr, trace st2 = trace st ++ tr /\ writes tr = 0%nat.
Proof.
  intros (st1 & E1 & _ & E2 & _).
  destruct (_get_current_ip_run (started st)) as (r & st1' & tr1 & E1' & [C1 T1] & Htr1).
  rewrite E1 in E1'. inversion E1'; subst r st1'. clear E1'.
  destruct (_get_dns_record_info_run st1) as (info & st2' & E2' & [C2 T2]).
  rewrite E2 in E2'. inversion E2'; subst info st2'. clear E2'.
  split; [rewrite C2, C1; reflexivity |].
  eexists. split.
  - rewrite T2, T1. simpl. rewrite <- app_assoc. reflexivity.
  - rewrite writes_app. destruct Htr1 as [-> | ->]; reflexivity.
Qed.

Lemma update_data_body_observes (st st2 : run W) (ip : string)
      (fields : list (string * json)) :
  observes st ip fields st2 ->
  update_data_body st =
  reconcile_record (_manual_sync_requested (coord st)) ip (JObj fields) st2.
Proof.
  intros (st1 & E1 & Hip & E2 & Hf).
  unfold update_data_body, bind, self, modify. cbv beta iota.
  fold (started st). rewrite E1.
  destruct ip as [| a ip']; [congruence |].
  rewrite E2. destruct fields; [congruence | reflexivity].
Qed.

(** Already in sync, no manual request: nothing is written; the time is
    stamped when auto-update is on. *)
Lemma reconcile_record_in_sync (st2 : run W) (ip : string) (fields : list (string * json)) :
  in_sync (coord st2) ip fields = true ->
  exists st',
    reconcile_record false ip (JObj fields) st2 =
      (Ok (SyncData true ip (field "content" fields) (dns_record (coord st2))), st') /\
    if truthy (auto_update_enabled (coord st2))
    then exists t, trace st' = trace st2 ++ [EvNow t] /\
                   coord st' = set_last_sync_time (Some t) (coord st2)
    else st' = st2.
Proof.
  intros S. unfold reconcile_record, bind, self, dict_get, ret.
  fold (field "id" fields) (field "content" fields) (field "proxied" fields).
  fold (in_sync (coord st2) ip fields). rewrite S. simpl.
  destruct (truthy (auto_update_enabled (coord st2))); simpl.
  - destruct (refresh_last_sync_time_run st2) as (t & st' & -> & T & C).
    exists st'. rewrite C. simpl. split; [reflexivity | eauto].
  - exists st2. split; reflexivity.
Qed.

(** Already in sync, manual request: nothing is written; the time is
    stamped once, by line 163. *)
Lemma reconcile_record_manual_in_sync (st2 : run W) (ip : string)
      (fields : list (string * json)) :
  in_sync (coord st2) ip fields = true ->
  exists st' t,
    reconcile_record true ip (JObj fields) st2 =
      (Ok (SyncData true ip (field "content" fields) (dns_record (coord st2))), st') /\
    trace st' = trace st2 ++ [EvNow t] /\
    coord st' = set_last_sync_time (Some t) (coord st2).
Proof.
  intros S. unfold reconcile_record, bind, self, dict_get, ret.
  fold (field "id" fields) (field "content" fields) (field "proxied" fields).
  fold (in_sync (coord st2) ip fields). rewrite S. simpl.
  destruct (refresh_last_sync_time_run st2) as (t & st' & -> & T & C).
  exists st', t. rewrite andb_false_r, C. simpl. auto.
Qed.

(** Mismatch, auto-update off, no manual request: the mismatch is reported
    and nothing else happens. *)
Lemma reconcile_record_report (st2 : run W) (ip : string) (fields : list (string * json)) :
  in_sync (coord st2) ip fields = false ->
  truthy (auto_update_enabled (coord st2)) = false ->
  reconcile_record false ip (JObj fields) st2 =
    (Ok (SyncData false ip (field "content" fields) (dns_record (coord st2))), st2).
Proof.
  intros S A. unfold reconcile_record, bind, self, dict_get, ret.
  fold (field "id" fields) (field "content" fields) (field "proxied" fields).
  fold (in_sync (coord st2) ip fields). rewrite S, A. simpl.
  rewrite A. reflexivity.
Qed.

(** Mismatch with a manual request or auto-update on: the write is issued;
    when it fails the cycle raises at once. *)
Lemma reconcile_record_write_fails (m : bool) (st2 st3 : run W) (ip : string)
      (fields : list (string * json)) :
  in_sync (coord st2) ip fields = false ->
  m || truthy (auto_update_enabled (coord st2)) = true ->
  _update_dns_record (field "id" fields) ip st2 = (Ok false, st3) ->
  reconcile_record m ip (JObj fields) st2 = (Raise (UpdateFailed MSG_NO_UPDATE), st3).
Proof.
  intros S A U. unfold reconcile_record, bind, self, dict_get, ret.
  fold (field "id" fields) (field "content" fields) (field "proxied" fields).
  fold (in_sync (coord st2) ip fields). rewrite S. simpl.
  rewrite A. rewrite U. reflexivity.
Qed.

(** ... and when it succeeds the channels are notified, the time is stamped
    (twice in an automatic cycle), and the result says synced. *)
Lemma reconcile_record_write_succeeds (m : bool) (st2 st3 : run W) (ip : string)
      (fields : list (string * json)) :
  in_sync (coord st2) ip fields = false ->
  m || truthy (auto_update_enabled (coord st2)) = true ->
  _update_dns_record (field "id" fields) ip st2 = (Ok true, st3) ->
  exists st' t stamps,
    reconcile_record m ip (JObj fields) st2 =
      (Ok (SyncData true ip (field "content" fields) (dns_record (coord st2))), st') /\
    trace st' =
      trace st3 ++ notification_calls (coord st2) ip (field "content" fields)
                ++ stamps ++ [EvNow t] /\
    Forall (fun e => is_call e = false) stamps /\
    coord st' = set_last_sync_time (Some t) (coord st2) /\
    (forall P : W -> Prop, quiet P -> P (world st3) -> P (world st')).
Proof.
  intros S A U. unfold reconcile_record, bind, self, dict_get, ret.
  fold (field "id" fields) (field "content" fields) (field "proxied" fields).
  fold (in_sync (coord st2) ip fields). rewrite S. simpl.
  rewrite A, U.
  destruct (_update_dns_record_run (field "id" fields) ip st2)
    as (ok & st3' & U' & [C3 T3]).
  rewrite U in U'. inversion U'; subst ok st3'. clear U'.
  pose proof (fun P Q Hw => _send_notifications_quiet P ip (field "content" fields) st3 Q Hw)
    as Q4.
  destruct (_send_notifications_run ip (field "content" fields) st3)
    as (st4 & E4 & [C4 T4]).
  rewrite E4 in Q4 |- *. simpl in Q4.
  pose proof (fun P Q Hw => refresh_last_sync_time_quiet P st4 Q Hw) as Q5.
  destruct (refresh_last_sync_time_run st4) as (t & st5 & E5 & T5 & C5).
  rewrite E5 in Q5 |- *. simpl in Q5.
  rewrite C5. simpl. rewrite C4, C3.
  destruct (truthy (auto_update_enabled (coord st2)) && negb m); simpl.
  - pose proof (fun P Q Hw => refresh_last_sync_time_quiet P st5 Q Hw) as Q6.
    destruct (refresh_last_sync_time_run st5) as (t' & st6 & E6 & T6 & C6).
    rewrite E6 in Q6 |- *. simpl in Q6.
    exists st6, t', [EvNow t]. rewrite C6, C5, C4, C3. simpl.
    split; [reflexivity |].
    split; [| split; [repeat constructor | split; [reflexivity |]]];
      [| intros P Q Hw; apply (Q6 P Q), (Q5 P Q), (Q4 P Q), Hw].
    rewrite T6, T5, T4, C3. rewrite <- !app_assoc. reflexivity.
  - exists st5, t, []. rewrite C5, C4, C3. simpl.
    split; [reflexivity |].
    split; [| split; [constructor | split; [reflexivity |]]];
      [| intros P Q Hw; apply (Q5 P Q), (Q4 P Q), Hw].
    rewrite T5, T4, C3. rewrite <- !app_assoc. reflexivity.
Qed.

End Cycle.

(** ** From the body to the cycle and to the published snapshot *)

Section Publish.
Context {W : Type} `{Host W}.

Lemma _async_update_data_ok (st st' : run W) (d : sync_data) :
  update_data_body st = (Ok d, st') -> _async_update_data st = (Ok d, st').
Proof. intros E. unfold _async_update_data, try_except. now rewrite E. Qed.

Lemma _async_update_data_failed (st st' : run W) (msg : string) :
  update_data_body st = (Raise (UpdateFailed msg), st') ->
  _async_update_data st =
    (Raise (UpdateFailed (String.append "Error updating data: " msg)), st').
Proof. intros E. unfold _async_update_data, try_except. now rewrite E. Qed.

Lemma async_refresh_ok (st st' : run W) (d : sync_data) :
  _async_update_data st = (Ok d, st') ->
  async_refresh st =
    (Ok tt, Run (set_data (Some d) true (coord st')) (world st') (trace st')).
Proof. intros E. unfold async_refresh, try_except, bind. now rewrite E. Qed.

Lemma async_refresh_failed (st st' : run W) (e : exn) :
  _async_update_data st = (Raise e, st') ->
  async_refresh st =
    (Ok tt, Run (set_data (data (coord st')) false (coord st')) (world st') (trace st')).
Proof. intros E. unfold async_refresh, try_except, bind. now rewrite E. Qed.

End Publish.

(** ** Every way a cycle can go *)

Section Cases.
Context {W : Type} `{Host W}.

(** Either the cycle fails before it has a record to look at, the
    coordinator changed by nothing but the reset of the flag, or it
    observes an address and a record. *)
Lemma update_data_body_cases (st : run W) :
  (exists e st', update_data_body st = (Raise e, st') /\
                 coord st' = coord (started st)) \/
  (exists ip fields st2, observes st ip fields st2).
Proof.
  destruct (_get_current_ip_run (started st)) as (r & st1 & tr & E1 & [C1 _] & _).
  destruct r as [[| a ip'] |].
  - left. exists (UpdateFailed MSG_NO_IP), st1. split; [| exact C1].
    unfold update_data_body, bind, self, modify. cbv beta iota.
    fold (started st). now rewrite E1.
  - destruct (_get_dns_record_info_run st1) as (info & st2 & E2 & [C2 _]).
    destruct info as [v | items | [| f fs]].
    + left. destruct (truthy v) eqn:T.
      * exists (AttributeError
                  (String.append "'"
                     (String.append (py_type_name (JAtom v))
                        "' object has no attribute 'get'"))), st2.
        split; [| congruence].
        unfold update_data_body, bind, self, modify. cbv beta iota.
        fold (started st). rewrite E1, E2. simpl. rewrite T. reflexivity.
      * exists (UpdateFailed MSG_NO_RECORD), st2. split; [| congruence].
        unfold update_data_body, bind, self, modify. cbv beta iota.
        fold (started st). rewrite E1, E2. simpl. rewrite T. reflexivity.
    + left. destruct items as [| i0 items].
      * exists (UpdateFailed MSG_NO_RECORD), st2. split; [| congruence].
        unfold update_data_body, bind, self, modify. cbv beta iota.
        fold (started st). rewrite E1, E2. reflexivity.
      * exists (AttributeError "'list' object has no attribute 'get'"), st2.
        split; [| congruence].
        unfold update_data_body, bind, self, modify. cbv beta iota.
        fold (started st). rewrite E1, E2. reflexivity.
    + left. exists (UpdateFailed MSG_NO_RECORD), st2. split; [| congruence].
      unfold update_data_body, bind, self, modify. cbv beta iota.
      fold (started st). rewrite E1, E2. reflexivity.
    + right. exists (String a ip'), (f :: fs), st2, st1.
      split; [exact E1 |]. split; [discriminate |]. split; [exact E2 | discriminate].
  - left. exists (UpdateFailed MSG_NO_IP), st1. split; [| exact C1].
    unfold update_data_body, bind, self, modify. cbv beta iota.
    fold (started st). now rewrite E1.
Qed.

(** [reconcile_record] on a record changes nothing of the coordinator but
    [last_sync_time]. *)
Lemma reconcile_record_frame (m : bool) (ip : string) (fields : list (string * json))
      (st2 : run W) :
  set_last_sync_time None (coord (snd (reconcile_record m ip (JObj fields) st2))) =
  set_last_sync_time None (coord st2).
Proof.
  destruct (in_sync (coord st2) ip fields) eqn:S.
  - destruct m.
    + destruct (reconcile_record_manual_in_sync st2 ip fields S) as (st' & t & -> & _ & C).
      simpl. now rewrite C.
    + destruct (reconcile_record_in_sync st2 ip fields S) as (st' & -> & F).
      simpl. destruct (truthy (auto_update_enabled (coord st2))).
      * destruct F as (t & _ & C). now rewrite C.
      * now subst st'.
  - destruct (m || truthy (auto_update_enabled (coord st2))) eqn:A.
    + destruct (_update_dns_record_run (field "id" fields) ip st2)
        as (ok & st3 & U & [C3 _]).
      destruct ok.
      * destruct (reconcile_record_write_succeeds m st2 st3 ip fields S A U)
          as (st' & t & stamps & -> & _ & _ & C & _).
        simpl. now rewrite C.
      * rewrite (reconcile_record_write_fails m st2 st3 ip fields S A U).
        simpl. now rewrite C3.
    + apply orb_false_iff in A. destruct A as [-> A].
      now rewrite (reconcile_record_report st2 ip fields S A).
Qed.

(** After a cycle, however it ends, no manual request is pending. *)
Lemma update_data_body_resets_flag (st : run W) :
  _manual_sync_requested (coord (snd (update_data_body st))) = false.
Proof.
  destruct (update_data_body_cases st) as [(e & st' & -> & C) | (ip & fields & st2 & O)].
  - simpl. now rewrite C.
  - rewrite (update_data_body_observes _ _ _ _ O).
    destruct (observes_issues _ _ _ _ O) as (C2 & _).
    pose proof (reconcile_record_frame (_manual_sync_requested (coord st)) ip fields st2) as F.
    apply (f_equal _manual_sync_requested) in F. simpl in F.
    rewrite F, C2. reflexivity.
Qed.

Lemma _async_update_data_coord (st : run W) :
  coord (snd (_async_update_data st)) = coord (snd (update_data_body st)).
Proof.
  unfold _async_update_data, try_except.
  destruct (update_data_body st) as [[d | e] st']; [reflexivity |].
  destruct e; reflexivity.
Qed.

Lemma _async_update_data_ok_inv (st st' : run W) (d : sync_data) :
  _async_update_data st = (Ok d, st') -> update_data_body st = (Ok d, st').
Proof.
  unfold _async_update_data, try_except.
  destruct (update_data_body st) as [[d' | e] st'']; [auto |].
  destruct e; discriminate.
Qed.

End Cases.

(** ** The cycle, statement by statement *)

Section Statements.
Context {W : Type} `{Host W}.

(** C1: when the record read holds exactly the resolved address (the same
    string) and its proxied flag equals the configured one, a cycle with no
    manual request pending issues no provider write and computes
    [synced = True]. *)
Theorem synced_record_is_not_written
        (st st2 : run W) (ip : string) (fields : list (string * json)) :
  _manual_sync_requested (coord st) = false ->
  observes st ip fields st2 ->
  field "content" fields = JAtom (PStr ip) ->
  json_eq (field "proxied" fields) (proxied (coord st)) = true ->
  exists d st' tr,
    _async_update_data st = (Ok d, st') /\
    synced d = true /\
    trace st' = trace st ++ tr /\
    writes tr = 0%nat.
Proof.
  intros M O A P.
  destruct (observes_issues _ _ _ _ O) as (C2 & tr2 & T2 & W2).
  assert (S : in_sync (coord st2) ip fields = true).
  { unfold in_sync. rewrite A, C2. simpl. rewrite String.eqb_refl. exact P. }
  pose proof (update_data_body_observes _ _ _ _ O) as B. rewrite M in B.
  destruct (reconcile_record_in_sync st2 ip fields S) as (st' & R & F).
  rewrite R in B. apply _async_update_data_ok in B.
  destruct (truthy (auto_update_enabled (coord st2))).
  - destruct F as (t & T & _).
    eexists; exists st', (tr2 ++ [EvNow t]).
    split; [exact B |]. split; [reflexivity |].
    split; [rewrite T, T2; now rewrite app_assoc |].
    rewrite writes_app, W2. reflexivity.
  - subst st'. eexists; exists st2, tr2.
    split; [exact B |]. auto.
Qed.

(** C2: when the address is not resolved, or is empty, the cycle fails with
    the address-resolution failure, reads and writes nothing at the
    provider, and leaves [last_sync_time] and the published [data] as they
    were, also once the framework has recorded the failure. *)
Theorem unresolved_address_fails_untouched
        (st st1 : run W) (r : option string) :
  _get_current_ip (started st) = (Ok r, st1) ->
  r = None \/ r = Some "" ->
  exists tr,
    _async_update_data st = (Raise AddressResolutionError, st1) /\
    trace st1 = trace st ++ tr /\
    reads tr = 0%nat /\ writes tr = 0%nat /\
    last_sync_time (coord st1) = last_sync_time (coord st) /\
    data (coord st1) = data (coord st) /\
    exists st',
      async_refresh st = (Ok tt, st') /\
      trace st' = trace st1 /\
      last_sync_time (coord st') = last_sync_time (coord st) /\
      data (coord st') = data (coord st).
Proof.
  intros E Hr.
  destruct (_get_current_ip_run (started st)) as (r' & st1' & tr & E' & [C T] & Htr).
  rewrite E in E'. inversion E'; subst r' st1'. clear E'.
  assert (B : update_data_body st = (Raise (UpdateFailed MSG_NO_IP), st1)).
  { unfold update_data_body, bind, self, modify. cbv beta iota.
    fold (started st). rewrite E. destruct Hr as [-> | ->]; reflexivity. }
  apply _async_update_data_failed in B.
  exists tr. split; [exact B |]. split; [exact T |].
  split; [destruct Htr as [-> | ->]; reflexivity |].
  split; [destruct Htr as [-> | ->]; reflexivity |].
  split; [rewrite C; reflexivity |]. split; [rewrite C; reflexivity |].
  eexists. split; [apply (async_refresh_failed _ _ _ B) |].
  simpl. rewrite C. auto.
Qed.

(** A refused write in a cycle that attempted one: shared by the
    statements below. *)
Lemma refused_write (st st2 st3 : run W) (ip : string) (fields : list (string * json)) :
  observes st ip fields st2 ->
  in_sync (coord st) ip fields = false ->
  _manual_sync_requested (coord st) || truthy (auto_update_enabled (coord st)) = true ->
  _update_dns_record (field "id" fields) ip st2 = (Ok false, st3) ->
  _async_update_data st = (Raise UpdateError, st3) /\
  coord st3 = set_manual_sync_requested false (coord st).
Proof.
  intros O S A U.
  destruct (observes_issues _ _ _ _ O) as (C2 & _).
  destruct (_update_dns_record_run (field "id" fields) ip st2)
    as (ok' & st3' & U' & [C3 _]).
  rewrite U in U'. inversion U'; subst ok' st3'. clear U'.
  assert (B : update_data_body st = (Raise (UpdateFailed MSG_NO_UPDATE), st3)).
  { rewrite (update_data_body_observes _ _ _ _ O).
    apply reconcile_record_write_fails;
      [rewrite C2; assumption | rewrite C2; assumption | assumption]. }
  apply _async_update_data_failed in B.
  split; [exact B | congruence].
Qed.

(** C4: the provider write returns [True] exactly when the answer has
    status 200 and a JSON envelope whose success flag is true; and when it
    returns [False] in a cycle that attempted it, the cycle fails with the
    update failure, [last_sync_time] is not stamped, and the published
    snapshot stays the previous one. *)
Theorem refused_write_fails_the_cycle
        (st st2 st3 : run W) (ip : string) (fields : list (string * json))
        (ok : bool) :
  observes st ip fields st2 ->
  in_sync (coord st) ip fields = false ->
  _manual_sync_requested (coord st) || truthy (auto_update_enabled (coord st)) = true ->
  _update_dns_record (field "id" fields) ip st2 = (Ok ok, st3) ->
  (ok = true <->
   put_accepted
     (fst (serve (put_request (coord st2) (field "id" fields) ip) (world st2)))) /\
  (ok = false ->
   _async_update_data st = (Raise UpdateError, st3) /\
   last_sync_time (coord st3) = last_sync_time (coord st) /\
   data (coord st3) = data (coord st) /\
   exists st',
     async_refresh st = (Ok tt, st') /\
     data (coord st') = data (coord st) /\
     last_sync_time (coord st') = last_sync_time (coord st) /\
     last_update_success (coord st') = false).
Proof.
  intros O S A U.
  destruct (observes_issues _ _ _ _ O) as (C2 & _).
  split.
  - split.
    + intros ->. now apply _update_dns_record_true in U.
    + intros Acc. destruct ok; [reflexivity |].
      destruct (_update_dns_record_run (field "id" fields) ip st2)
        as (ok' & st3' & U' & _).
      assert (T : _update_dns_record (field "id" fields) ip st2 =
                  (Ok true, Run (coord st2)
                     (snd (serve (put_request (coord st2) (field "id" fields) ip) (world st2)))
                     (trace st2 ++ [EvCall (put_request (coord st2) (field "id" fields) ip)])))
        by (apply _update_dns_record_true; auto).
      rewrite U in T. discriminate.
  - intros ->.
    destruct (refused_write st st2 st3 ip fields O S A U) as (B & C3).
    split; [exact B |].
    split; [rewrite C3; reflexivity |]. split; [rewrite C3; reflexivity |].
    eexists. split; [apply (async_refresh_failed _ _ _ B) |].
    simpl. rewrite C3. auto.
Qed.

(** C5: a successful cycle that started with auto-update on and no manual
    request ends by reading the clock and storing that time in
    [last_sync_time], whether or not it wrote to the provider. *)
Theorem automatic_cycle_stamps_the_time
        (st st' : run W) (d : sync_data) :
  truthy (auto_update_enabled (coord st)) = true ->
  _manual_sync_requested (coord st) = false ->
  _async_update_data st = (Ok d, st') ->
  exists tr t,
    trace st' = trace st ++ tr ++ [EvNow t] /\
    last_sync_time (coord st') = Some t /\
    (writes tr <= 1)%nat.
Proof.
  intros A M E. apply _async_update_data_ok_inv in E.
  destruct (update_data_body_cases st) as [(e & st'' & E' & _) | (ip & fields & st2 & O)];
    [congruence |].
  rewrite (update_data_body_observes _ _ _ _ O), M in E.
  destruct (observes_issues _ _ _ _ O) as (C2 & tr2 & T2 & W2).
  assert (A2 : truthy (auto_update_enabled (coord st2)) = true) by now rewrite C2.
  destruct (in_sync (coord st2) ip fields) eqn:S.
  - destruct (reconcile_record_in_sync st2 ip fields S) as (st3 & R & F).
    rewrite E in R. inversion R; subst st3. rewrite A2 in F.
    destruct F as (t & T & C). exists tr2, t.
    split; [rewrite T, T2; now rewrite app_assoc |].
    split; [now rewrite C | rewrite W2; lia].
  - destruct (_update_dns_record_run (field "id" fields) ip st2)
      as (ok & st3 & U & [C3 T3]).
    destruct ok.
    + destruct (reconcile_record_write_succeeds false st2 st3 ip fields S A2 U)
        as (st4 & t & stamps & R & T & Hs & C & _).
      rewrite E in R. inversion R; subst st4.
      exists (tr2 ++ [EvCall (put_request (coord st2) (field "id" fields) ip)]
                ++ notification_calls (coord st2) ip (field "content" fields) ++ stamps), t.
      split; [rewrite T, T3, T2; now rewrite <- !app_assoc |].
      split; [now rewrite C |].
      rewrite !writes_app, W2. unfold writes at 2.
      destruct (notification_calls_quiet (coord st2) ip (field "content" fields)) as [-> _].
      replace (writes stamps) with 0%nat; [simpl; lia |].
      clear - Hs. induction Hs as [| e l He _ IH]; [reflexivity |].
      unfold writes in *. simpl. destruct e as [r | t]; [discriminate | exact IH].
    + rewrite (reconcile_record_write_fails false st2 st3 ip fields S A2 U) in E.
      discriminate.
Qed.

(** C6: a cycle with a manual request pending, on a record already in
    sync, issues no provider write and ends by storing the time it reads
    in [last_sync_time]. *)
Theorem manual_cycle_in_sync_stamps_the_time
        (st st2 : run W) (ip : string) (fields : list (string * json)) :
  _manual_sync_requested (coord st) = true ->
  observes st ip fields st2 ->
  in_sync (coord st) ip fields = true ->
  exists d st' tr t,
    _async_update_data st = (Ok d, st') /\
    synced d = true /\
    trace st' = trace st ++ tr ++ [EvNow t] /\
    writes (tr ++ [EvNow t]) = 0%nat /\
    last_sync_time (coord st') = Some t.
Proof.
  intros M O S.
  destruct (observes_issues _ _ _ _ O) as (C2 & tr2 & T2 & W2).
  assert (S2 : in_sync (coord st2) ip fields = true) by now rewrite C2.
  pose proof (update_data_body_observes _ _ _ _ O) as B. rewrite M in B.
  destruct (reconcile_record_manual_in_sync st2 ip fields S2) as (st' & t & R & T & C).
  rewrite R in B. apply _async_update_data_ok in B.
  eexists; exists st', tr2, t. split; [exact B |]. split; [reflexivity |].
  split; [rewrite T, T2; now rewrite app_assoc |].
  split; [rewrite writes_app, W2; reflexivity | now rewrite C].
Qed.

(** C7: with auto-update off and no manual request, a cycle on a
    mismatched record writes nothing, succeeds, and publishes
    [synced = False] with the current address and the record's. *)
Theorem mismatch_is_only_reported
        (st st2 : run W) (ip : string) (fields : list (string * json)) :
  truthy (auto_update_enabled (coord st)) = false ->
  _manual_sync_requested (coord st) = false ->
  observes st ip fields st2 ->
  in_sync (coord st) ip fields = false ->
  _async_update_data st =
    (Ok (SyncData false ip (field "content" fields) (dns_record (coord st))), st2) /\
  (exists tr, trace st2 = trace st ++ tr /\ writes tr = 0%nat) /\
  last_sync_time (coord st2) = last_sync_time (coord st) /\
  exists st',
    async_refresh st = (Ok tt, st') /\
    trace st' = trace st2 /\
    data (coord st') =
      Some (SyncData false ip (field "content" fields) (dns_record (coord st))).
Proof.
  intros A M O S.
  destruct (observes_issues _ _ _ _ O) as (C2 & tr2 & T2 & W2).
  pose proof (update_data_body_observes _ _ _ _ O) as B. rewrite M in B.
  rewrite reconcile_record_report in B by (rewrite C2; assumption).
  rewrite C2 in B. simpl in B. apply _async_update_data_ok in B.
  split; [exact B |]. split; [eauto |]. split; [now rewrite C2 |].
  eexists. split; [apply (async_refresh_ok _ _ _ B) |]. split; reflexivity.
Qed.

(** C8: with both channels configured, a cycle whose write succeeded calls
    the chat-bot and then the webhook, whatever either answers or raises,
    and the cycle still succeeds with [synced = True]. *)
Theorem notifications_never_fail_the_cycle
        (st st2 st3 : run W) (ip : string) (fields : list (string * json)) :
  truthy (config_get (config (coord st)) CONF_NOTIFY_TELEGRAM PNone) = true ->
  truthy (config_get (config (coord st)) CONF_TELEGRAM_CHAT_ID PNone) = true ->
  truthy (config_get (config (coord st)) CONF_TELEGRAM_BOT_TOKEN PNone) = true ->
  truthy (config_get (config (coord st)) CONF_NOTIFY_DISCORD PNone) = true ->
  truthy (config_get (config (coord st)) CONF_DISCORD_WEBHOOK_URL PNone) = true ->
  observes st ip fields st2 ->
  in_sync (coord st) ip fields = false ->
  _manual_sync_requested (coord st) || truthy (auto_update_enabled (coord st)) = true ->
  _update_dns_record (field "id" fields) ip st2 = (Ok true, st3) ->
  exists d st' stamps,
    _async_update_data st = (Ok d, st') /\
    synced d = true /\
    trace st' =
      trace st3
      ++ [EvCall (TelegramSend
                    (config_get (config (coord st)) CONF_TELEGRAM_BOT_TOKEN PNone)
                    (config_get (config (coord st)) CONF_TELEGRAM_CHAT_ID PNone)
                    (Message (dns_record (coord st)) ip (field "content" fields)));
          EvCall (DiscordPost
                    (config_get (config (coord st)) CONF_DISCORD_WEBHOOK_URL PNone)
                    (Message (dns_record (coord st)) ip (field "content" fields)))]
      ++ stamps /\
    Forall (fun e => is_call e = false) stamps /\
    (forall st4,
       exists st5, _send_notifications ip (field "content" fields) st4 = (Ok tt, st5)).
Proof.
  intros NT TC TB ND DW O S A U.
  destruct (observes_issues _ _ _ _ O) as (C2 & _).
  pose proof (update_data_body_observes _ _ _ _ O) as B.
  destruct (reconcile_record_write_succeeds
              (_manual_sync_requested (coord st)) st2 st3 ip fields)
    as (st' & t & stamps & R & T & Hs & _); try (rewrite C2; assumption); [exact U |].
  rewrite R in B. apply _async_update_data_ok in B.
  eexists; exists st', (stamps ++ [EvNow t]).
  split; [exact B |]. split; [reflexivity |]. split; [| split].
  - rewrite T. unfold notification_calls, telegram_calls, discord_calls.
    rewrite C2. simpl. rewrite NT, TC, TB, ND, DW. simpl. reflexivity.
  - apply Forall_app. split; [exact Hs | repeat constructor].
  - intros st4. destruct (_send_notifications_run ip (field "content" fields) st4)
      as (st5 & E & _). eauto.
Qed.

(** C10: the manual-sync flag is read and reset at the start of every
    cycle: after a cycle, failed or not, no request is pending; a cycle whose
    manual write fails leaves none behind; and a refresh by the scheduler
    that finds the flag set does exactly what a press of the button does. *)
Theorem manual_flag_is_consumed_by_every_cycle (st : run W) :
  _manual_sync_requested (coord (snd (_async_update_data st))) = false /\
  _manual_sync_requested (coord (snd (async_refresh st))) = false /\
  (_manual_sync_requested (coord st) = true -> async_refresh st = async_press st) /\
  (forall ip fields st2 st3,
     _manual_sync_requested (coord st) = true ->
     observes st ip fields st2 ->
     in_sync (coord st) ip fields = false ->
     _update_dns_record (field "id" fields) ip st2 = (Ok false, st3) ->
     _async_update_data st = (Raise UpdateError, st3) /\
     _manual_sync_requested (coord st3) = false).
Proof.
  assert (F : _manual_sync_requested (coord (snd (_async_update_data st))) = false)
    by (rewrite _async_update_data_coord; apply update_data_body_resets_flag).
  split; [exact F |]. split; [| split].
  - unfold async_refresh, try_except, bind.
    destruct (_async_update_data st) as [[d | e] st']; simpl in *; exact F.
  - intros M. unfold async_press, bind, modify. cbv beta iota.
    destruct st as [c w tr]. simpl in M. destruct c. simpl in M. subst.
    reflexivity.
  - intros ip fields st2 st3 M O S U.
    assert (A : _manual_sync_requested (coord st)
                || truthy (auto_update_enabled (coord st)) = true)
      by (rewrite M; reflexivity).
    destruct (refused_write st st2 st3 ip fields O S A U) as (E & C3).
    split; [exact E | now rewrite C3].
Qed.

End Statements.

(** ** The cycle against the provider *)

Section AgainstProvider.
Import Provider.

Lemma provider_get_current_ip (c : Coordinator) (w : world) (tr : list event)
      (body : string) :
  py_eq (what_ip c) (PStr IP_TYPE_EXTERNAL) = true ->
  echo w = echoes body ->
  _get_current_ip (Run c w tr) =
    (Ok (Some (strip body)), Run c (tick w) (tr ++ [EvCall GetExternalIp])).
Proof.
  intros X E. unfold _get_current_ip, try_except, bind, self, http. simpl.
  rewrite X. simpl. rewrite E. reflexivity.
Qed.

Lemma provider_get_dns_record_info (c : Coordinator) (w : world) (tr : list event)
      (r : zone_record) :
  head (List.filter (named (dns_record c)) (zone w)) = Some r ->
  _get_dns_record_info (Run c w tr) =
    (Ok (to_json r),
     Run c (tick w)
       (tr ++ [EvCall (GetDnsRecords (zone_id c) (api_token c) (dns_record c))])).
Proof.
  intros Hd. unfold _get_dns_record_info, try_except, bind, self, http. simpl.
  destruct (List.filter (named (dns_record c)) (zone w)) as [| r' rs]; [discriminate |].
  simpl in Hd. inversion Hd; subst r'. reflexivity.
Qed.

Lemma head_filter_In {A : Type} (f : A -> bool) (l : list A) (x : A) :
  head (List.filter f l) = Some x -> In x l /\ f x = true.
Proof.
  intros Hd. apply List.filter_In.
  destruct (List.filter f l) as [| y ys]; [discriminate |].
  simpl in Hd. inversion Hd. now left.
Qed.

Lemma has_id_self (r : zone_record) : has_id (JAtom (PStr (rec_id r))) r = true.
Proof. simpl. apply String.eqb_refl. Qed.

Lemma provider_update_dns_record (c : Coordinator) (w : world) (tr : list event)
      (r : zone_record) (ip : string) :
  put_fault w = None ->
  In r (zone w) ->
  _update_dns_record (JAtom (PStr (rec_id r))) ip (Run c w tr) =
    (Ok true,
     Run c
       (tick (set_zone
                (map (replace (JAtom (PStr (rec_id r))) (dns_record c) ip (ttl c) (proxied c))
                     (zone w)) w))
       (tr ++ [EvCall (put_request c (JAtom (PStr (rec_id r))) ip)])).
Proof.
  intros F I. unfold _update_dns_record, try_except, bind, self, http. simpl.
  rewrite F.
  assert (X : existsb (has_id (JAtom (PStr (rec_id r)))) (zone w) = true).
  { apply existsb_exists. exists r. split; [exact I | apply has_id_self]. }
  simpl in X. rewrite X. reflexivity.
Qed.

(** After the write, the first record of that name is the one written. *)
Lemma first_named_after_replace (name : pyval) (ip : string) (ttl_ proxied_ : pyval)
      (z : list zone_record) (r0 : zone_record) :
  head (List.filter (named name) z) = Some r0 ->
  head (List.filter (named name)
          (map (replace (JAtom (PStr (rec_id r0))) name ip ttl_ proxied_) z)) =
    Some (ZoneRecord (rec_id r0) name ip ttl_ proxied_).
Proof.
  induction z as [| r z IH]; simpl; [discriminate |].
  destruct (named name r) eqn:N.
  - simpl. intros E. inversion E; subst r. unfold replace.
    rewrite (has_id_self r0). unfold named at 1. simpl.
    rewrite py_eq_refl. reflexivity.
  - intros E.
    destruct (has_id (JAtom (PStr (rec_id r0))) r) eqn:I.
    + assert (R : replace (JAtom (PStr (rec_id r0))) name ip ttl_ proxied_ r =
                  ZoneRecord (rec_id r0) name ip ttl_ proxied_).
      { unfold replace. rewrite I. simpl in I. apply String.eqb_eq in I.
        now rewrite I. }
      rewrite R. unfold named at 1. simpl. rewrite py_eq_refl. reflexivity.
    + assert (R : replace (JAtom (PStr (rec_id r0))) name ip ttl_ proxied_ r = r)
        by (unfold replace; now rewrite I).
      rewrite R, N. now apply IH.
Qed.

Lemma settled_quiet (e : reply) (z : list zone_record) : quiet (settled e z).
Proof.
  split.
  - intros r w Hr S. destruct r; try discriminate; exact S.
  - intros w S. exact S.
Qed.

(** C3: with auto-update on and no manual request, against a provider
    whose zone changes only by the write it serves, two cycles in a row on a
    mismatched record issue exactly one provider write: the first cycle
    writes the current address, the second finds the record in sync and
    writes nothing. *)
Theorem two_cycles_one_write
        (c : Coordinator) (w : world) (tr0 : list event) (body : string)
        (r0 : zone_record) :
  truthy (auto_update_enabled c) = true ->
  _manual_sync_requested c = false ->
  py_eq (what_ip c) (PStr IP_TYPE_EXTERNAL) = true ->
  echo w = echoes body ->
  strip body <> "" ->
  put_fault w = None ->
  head (List.filter (named (dns_record c)) (zone w)) = Some r0 ->
  String.eqb (rec_content r0) (strip body) && py_eq (rec_proxied r0) (proxied c) = false ->
  exists d1 st1 d2 st2 tr1 tr2,
    _async_update_data (Run c w tr0) = (Ok d1, st1) /\
    _async_update_data st1 = (Ok d2, st2) /\
    trace st1 = tr0 ++ tr1 /\
    trace st2 = trace st1 ++ tr2 /\
    List.filter is_write tr1 =
      [EvCall (put_request c (JAtom (PStr (rec_id r0))) (strip body))] /\
    writes tr2 = 0%nat /\
    synced d1 = true /\
    synced d2 = true /\
    dns_record_ip d2 = JAtom (PStr (strip body)) /\
    writes (tr1 ++ tr2) = 1%nat.
Proof.
  intros A M X E Hip F Hd Mis.
  set (ip := strip body) in *.
  set (c' := set_manual_sync_requested false c).
  assert (Cc : c' = c) by (destruct c; simpl in M; subst; reflexivity).
  destruct (head_filter_In _ _ _ Hd) as [I0 _].
  (* first cycle: what it observes *)
  set (st := Run c w tr0).
  set (w2 := tick (tick w)).
  set (st2 := Run c' w2
                (tr0 ++ [EvCall GetExternalIp]
                     ++ [EvCall (GetDnsRecords (zone_id c) (api_token c) (dns_record c))])).
  assert (O : observes st ip (Provider.fields_of r0) st2).
  { exists (Run c' (tick w) (tr0 ++ [EvCall GetExternalIp])).
    split; [apply provider_get_current_ip; assumption |].
    split; [exact Hip |]. split; [| discriminate].
    unfold st2. rewrite app_assoc.
    apply (provider_get_dns_record_info c' (tick w)). exact Hd. }
  assert (S : in_sync (coord st2) ip (Provider.fields_of r0) = false) by exact Mis.
  (* first cycle: the write *)
  set (z' := map (replace (JAtom (PStr (rec_id r0))) (dns_record c) ip (ttl c) (proxied c))
                 (zone w)).
  pose proof (provider_update_dns_record c' w2 (trace st2) r0 ip F I0) as U.
  fold st2 in U.
  destruct (reconcile_record_write_succeeds false st2 _ ip (Provider.fields_of r0) S A U)
    as (st1 & t & stamps & R & T & Hs & C & Q).
  specialize (Q (settled (echoes body) z') (settled_quiet _ _)).
  destruct Q as (E1 & Z1 & F1); [repeat split; assumption |].
  pose proof (update_data_body_observes _ _ _ _ O) as B. simpl in B.
  rewrite M, R in B. apply _async_update_data_ok in B.
  (* second cycle: what it observes *)
  destruct st1 as [c1 w1 tr1']. simpl in T, C, E1, Z1, F1.
  assert (C1 : c1 = set_last_sync_time (Some t) c) by (rewrite C; exact (f_equal _ Cc)).
  set (r1 := ZoneRecord (rec_id r0) (dns_record c) ip (ttl c) (proxied c)).
  set (st2' := Run c1 (tick (tick w1))
                 (tr1' ++ [EvCall GetExternalIp]
                       ++ [EvCall (GetDnsRecords (zone_id c) (api_token c) (dns_record c))])).
  assert (O' : observes (Run c1 w1 tr1') ip (Provider.fields_of r1) st2').
  { exists (Run c1 (tick w1) (tr1' ++ [EvCall GetExternalIp])).
    assert (St : started (Run c1 w1 tr1') = Run c1 w1 tr1')
      by (rewrite C1; unfold started; simpl; rewrite <- Cc at 2; reflexivity).
    rewrite St.
    split; [apply provider_get_current_ip; [rewrite C1; exact X | exact E1] |].
    split; [exact Hip |]. split; [| discriminate].
    unfold st2'. rewrite app_assoc.
    replace (GetDnsRecords (zone_id c) (api_token c) (dns_record c))
      with (GetDnsRecords (zone_id c1) (api_token c1) (dns_record c1))
      by (rewrite C1; reflexivity).
    apply (provider_get_dns_record_info c1 (tick w1)).
    simpl. rewrite Z1. rewrite C1. simpl.
    apply first_named_after_replace. exact Hd. }
  assert (S' : in_sync (coord st2') ip (Provider.fields_of r1) = true).
  { unfold in_sync. simpl. rewrite String.eqb_refl. rewrite C1. simpl.
    apply py_eq_refl. }
  destruct (reconcile_record_in_sync st2' ip (Provider.fields_of r1) S') as (st3 & R' & F').
  pose proof (update_data_body_observes _ _ _ _ O') as B'. simpl in B'.
  replace (_manual_sync_requested c1) with false in B' by (rewrite C1; simpl; now rewrite M).
  rewrite R' in B'. apply _async_update_data_ok in B'.
  replace (truthy (auto_update_enabled (coord st2'))) with true in F'
    by (simpl; rewrite C1; simpl; now rewrite A).
  destruct F' as (t' & T' & _).
  (* the two traces *)
  set (n := notification_calls (coord st2) ip (field "content" (Provider.fields_of r0))) in *.
  assert (Wn : List.filter is_write n = []) by apply notification_calls_quiet.
  assert (Ws : List.filter is_write stamps = []).
  { clear - Hs. induction Hs as [| e l He _ IH]; [reflexivity |].
    simpl. destruct e as [r | t]; [discriminate | exact IH]. }
  set (put := EvCall (put_request c (JAtom (PStr (rec_id r0))) ip)).
  set (tr1 := [EvCall GetExternalIp;
               EvCall (GetDnsRecords (zone_id c) (api_token c) (dns_record c)); put]
              ++ n ++ stamps ++ [EvNow t]).
  set (tr2 := [EvCall GetExternalIp;
               EvCall (GetDnsRecords (zone_id c) (api_token c) (dns_record c));
               EvNow t']).
  assert (W1 : List.filter is_write tr1 = [put]).
  { unfold tr1. rewrite !List.filter_app, Wn, Ws. reflexivity. }
  eexists; exists (Run c1 w1 tr1'); eexists; exists st3, tr1, tr2.
  split; [exact B |]. split; [exact B' |].
  split; [simpl; rewrite T; simpl; unfold tr1, put, put_request; rewrite <- Cc at 1;
          rewrite <- !app_assoc; reflexivity |].
  split; [rewrite T'; simpl; unfold tr2; rewrite <- !app_assoc; reflexivity |].
  split; [exact W1 |]. split; [reflexivity |]. split; [reflexivity |].
  split; [reflexivity |]. split; [reflexivity |].
  rewrite writes_app. unfold writes at 1. rewrite W1. reflexivity.
Qed.

End AgainstProvider.

(** ** The configuration forms *)

Section Forms.
Import ConfigFlow.

Lemma validate_ttl (user_input : gmap string pyval) (n : Z) :
  user_input !! CONF_TTL = Some (PInt n) ->
  exists errors,
    validate user_input = Ok errors /\
    errors !! CONF_TTL =
      if negb (n =? AUTO_TTL) && ((n <? MIN_TTL) || (MAX_TTL <? n))
      then Some "invalid_ttl" else None.
Proof.
  intros T. unfold validate, config_get at 1. rewrite T. simpl.
  unfold ttl_out_of_range. simpl.
  destruct (n =? AUTO_TTL) eqn:E1; simpl.
  - destruct (internal_cannot_proxy user_input); eexists; (split; [reflexivity |]).
    + rewrite lookup_insert_ne by discriminate. apply lookup_empty.
    + apply lookup_empty.
  - destruct (n <? MIN_TTL) eqn:E2; simpl.
    + destruct (internal_cannot_proxy user_input); eexists; (split; [reflexivity |]).
      * rewrite lookup_insert_ne by discriminate. apply lookup_insert_eq.
      * apply lookup_insert_eq.
    + destruct (MAX_TTL <? n) eqn:E3;
        destruct (internal_cannot_proxy user_input); eexists; (split; [reflexivity |]).
      * rewrite lookup_insert_ne by discriminate. apply lookup_insert_eq.
      * apply lookup_insert_eq.
      * rewrite lookup_insert_ne by discriminate. apply lookup_empty.
      * apply lookup_empty.
Qed.

Lemma validate_no_conflict (user_input : gmap string pyval) (n : Z) :
  user_input !! CONF_TTL = Some (PInt n) ->
  negb (n =? AUTO_TTL) && ((n <? MIN_TTL) || (MAX_TTL <? n)) = false ->
  internal_cannot_proxy user_input = false ->
  validate user_input = Ok ∅.
Proof.
  intros T R C. unfold validate, config_get at 1. rewrite T, C. simpl.
  unfold ttl_out_of_range. simpl.
  destruct (n =? AUTO_TTL); simpl in *; [reflexivity |].
  destruct (n <? MIN_TTL); simpl in *; [discriminate |].
  now rewrite R.
Qed.

(** C9: in the initial step and in the options step alike, a TTL of 1 is
    never reported (it is accepted as it is, outside the range 120-7200), so
    the form goes through when nothing else is wrong with it; a TTL that is
    not 1 and lies outside 120-7200, such as 50, is reported as
    [invalid_ttl] and the form is shown again. *)
Theorem ttl_is_validated_in_both_steps (user_input : gmap string pyval) (n : Z) :
  user_input !! CONF_TTL = Some (PInt n) ->
  (n = 1 ->
   error_at CONF_TTL (async_step_user (Some user_input)) = None /\
   error_at CONF_TTL (async_step_init (Some user_input)) = None /\
   (internal_cannot_proxy user_input = false ->
    async_step_init (Some user_input) = Ok (CreateEntry (PStr "") user_input) /\
    forall name, user_input !! CONF_DNS_RECORD = Some name ->
      async_step_user (Some user_input) =
        Ok (CreateEntry (config_get user_input CONF_DEVICE_NAME name) user_input))) /\
  (n <> 1 -> n < 120 \/ 7200 < n ->
   exists errors,
     errors !! CONF_TTL = Some "invalid_ttl" /\
     async_step_user (Some user_input) = Ok (ShowForm "user" errors) /\
     async_step_init (Some user_input) = Ok (ShowForm "init" errors)).
Proof.
  intros T. destruct (validate_ttl user_input n T) as (errors & V & L).
  split.
  - intros ->. simpl in L.
    unfold async_step_user, async_step_init. rewrite V.
    split; [| split].
    + destruct (bool_decide (errors = ∅)); simpl; [| exact L].
      unfold config_item. now destruct (user_input !! CONF_DNS_RECORD).
    + destruct (bool_decide (errors = ∅)); simpl; [reflexivity | exact L].
    + intros C. rewrite (validate_no_conflict user_input 1 T eq_refl C) in V.
      inversion V; subst errors. simpl. split; [reflexivity |].
      intros name D. unfold config_item. now rewrite D.
  - intros N R. exists errors.
    assert (B : negb (n =? AUTO_TTL) && ((n <? MIN_TTL) || (MAX_TTL <? n)) = true).
    { apply andb_true_iff. split.
      - apply negb_true_iff, Z.eqb_neq. exact N.
      - apply orb_true_iff. unfold MIN_TTL, MAX_TTL.
        destruct R; [left | right]; now apply Z.ltb_lt. }
    rewrite B in L. split; [exact L |].
    unfold async_step_user, async_step_init. rewrite V.
    assert (NE : bool_decide (errors = ∅) = false).
    { apply bool_decide_eq_false. intros ->. rewrite lookup_empty in L. discriminate. }
    rewrite NE. split; reflexivity.
Qed.

End Forms.

(** ** Concrete runs *)

Example init_fresh : __init__ Scenario.cfg = Ok Scenario.fresh.
Proof. vm_compute. reflexivity. Qed.

Lemma synced_record_is_not_written_witness :
  _manual_sync_requested (coord Scenario.auto_current) = false /\
  observes Scenario.auto_current Scenario.ip
    (Provider.fields_of Scenario.current) (after_read Scenario.auto_current) /\
  field "content" (Provider.fields_of Scenario.current) = JAtom (PStr Scenario.ip) /\
  json_eq (field "proxied" (Provider.fields_of Scenario.current))
    (proxied (coord Scenario.auto_current)) = true /\
  exists d st' tr,
    _async_update_data Scenario.auto_current = (Ok d, st') /\
    synced d = true /\
    trace st' = trace Scenario.auto_current ++ tr /\
    writes tr = 0%nat.
Proof.
  assert (O : observes Scenario.auto_current Scenario.ip
                (Provider.fields_of Scenario.current)
                (after_read Scenario.auto_current)).
  { eexists. split; [vm_compute; reflexivity |]. split; [discriminate |].
    split; [vm_compute; reflexivity | discriminate]. }
  split; [reflexivity |]. split; [exact O |].
  split; [reflexivity |]. split; [reflexivity |].
  exact (synced_record_is_not_written Scenario.auto_current _ _ _
           eq_refl O eq_refl eq_refl).
Defined.

Lemma unresolved_address_fails_untouched_witness :
  _get_current_ip (started Scenario.auto_echo_down) =
    (Ok None, snd (_get_current_ip (started Scenario.auto_echo_down))) /\
  exists tr,
    _async_update_data Scenario.auto_echo_down =
      (Raise AddressResolutionError,
       snd (_get_current_ip (started Scenario.auto_echo_down))) /\
    trace (snd (_get_current_ip (started Scenario.auto_echo_down))) =
      trace Scenario.auto_echo_down ++ tr /\
    reads tr = 0%nat /\ writes tr = 0%nat /\
    last_sync_time (coord (snd (_get_current_ip (started Scenario.auto_echo_down)))) =
      last_sync_time (coord Scenario.auto_echo_down) /\
    data (coord (snd (_get_current_ip (started Scenario.auto_echo_down)))) =
      data (coord Scenario.auto_echo_down) /\
    exists st',
      async_refresh Scenario.auto_echo_down = (Ok tt, st') /\
      trace st' = trace (snd (_get_current_ip (started Scenario.auto_echo_down))) /\
      last_sync_time (coord st') = last_sync_time (coord Scenario.auto_echo_down) /\
      data (coord st') = data (coord Scenario.auto_echo_down).
Proof.
  assert (E : _get_current_ip (started Scenario.auto_echo_down) =
              (Ok None, snd (_get_current_ip (started Scenario.auto_echo_down))))
    by (vm_compute; reflexivity).
  split; [exact E |].
  exact (unresolved_address_fails_untouched Scenario.auto_echo_down _ _ E
           (or_introl eq_refl)).
Defined.

Lemma two_cycles_one_write_witness :
  exists d1 st1 d2 st2 tr1 tr2,
    _async_update_data Scenario.auto_stale = (Ok d1, st1) /\
    _async_update_data st1 = (Ok d2, st2) /\
    trace st1 = [] ++ tr1 /\
    trace st2 = trace st1 ++ tr2 /\
    List.filter is_write tr1 =
      [EvCall (put_request Scenario.fresh (JAtom (PStr "rec-1"))
                 (strip (String.append "5.6.7.8" Scenario.newline)))] /\
    writes tr2 = 0%nat /\
    synced d1 = true /\
    synced d2 = true /\
    dns_record_ip d2 = JAtom (PStr (strip (String.append "5.6.7.8" Scenario.newline))) /\
    writes (tr1 ++ tr2) = 1%nat.
Proof.
  apply (two_cycles_one_write Scenario.fresh Scenario.mismatched []
           (String.append "5.6.7.8" Scenario.newline) Scenario.stale).
  - reflexivity.
  - reflexivity.
  - reflexivity.
  - reflexivity.
  - vm_compute. discriminate.
  - reflexivity.
  - reflexivity.
  - vm_compute. reflexivity.
Defined.

Lemma refused_write_fails_the_cycle_witness :
  observes Scenario.auto_refused Scenario.ip (Provider.fields_of Scenario.stale)
    (after_read Scenario.auto_refused) /\
  _update_dns_record (field "id" (Provider.fields_of Scenario.stale)) Scenario.ip
    (after_read Scenario.auto_refused) =
    (Ok false, Scenario.after_write Scenario.auto_refused) /\
  _async_update_data Scenario.auto_refused =
    (Raise UpdateError, Scenario.after_write Scenario.auto_refused) /\
  exists st',
    async_refresh Scenario.auto_refused = (Ok tt, st') /\
    data (coord st') = data (coord Scenario.auto_refused) /\
    last_sync_time (coord st') = last_sync_time (coord Scenario.auto_refused) /\
    last_update_success (coord st') = false.
Proof.
  assert (O : observes Scenario.auto_refused Scenario.ip
                (Provider.fields_of Scenario.stale) (after_read Scenario.auto_refused)).
  { eexists. split; [vm_compute; reflexivity |]. split; [discriminate |].
    split; [vm_compute; reflexivity | discriminate]. }
  assert (U : _update_dns_record (field "id" (Provider.fields_of Scenario.stale))
                Scenario.ip (after_read Scenario.auto_refused) =
              (Ok false, Scenario.after_write Scenario.auto_refused))
    by (vm_compute; reflexivity).
  split; [exact O |]. split; [exact U |].
  destruct (refused_write_fails_the_cycle Scenario.auto_refused _ _ _ _ false
              O eq_refl eq_refl U) as (_ & F).
  destruct (F eq_refl) as (E & _ & _ & P).
  split; [exact E | exact P].
Defined.

Lemma automatic_cycle_stamps_the_time_witness :
  _async_update_data Scenario.auto_stale =
    (Ok (SyncData true Scenario.ip (JAtom (PStr "1.2.3.4")) (PStr "host.example.com")),
     snd (_async_update_data Scenario.auto_stale)) /\
  exists tr t,
    trace (snd (_async_update_data Scenario.auto_stale)) =
      trace Scenario.auto_stale ++ tr ++ [EvNow t] /\
    last_sync_time (coord (snd (_async_update_data Scenario.auto_stale))) = Some t /\
    (writes tr <= 1)%nat.
Proof.
  assert (E : _async_update_data Scenario.auto_stale =
              (Ok (SyncData true Scenario.ip (JAtom (PStr "1.2.3.4"))
                     (PStr "host.example.com")),
               snd (_async_update_data Scenario.auto_stale)))
    by (vm_compute; reflexivity).
  split; [exact E |].
  exact (automatic_cycle_stamps_the_time Scenario.auto_stale _ _ eq_refl eq_refl E).
Defined.

Lemma manual_cycle_in_sync_stamps_the_time_witness :
  _manual_sync_requested (coord Scenario.manual_current) = true /\
  observes Scenario.manual_current Scenario.ip (Provider.fields_of Scenario.current)
    (after_read Scenario.manual_current) /\
  exists d st' tr t,
    _async_update_data Scenario.manual_current = (Ok d, st') /\
    synced d = true /\
    trace st' = trace Scenario.manual_current ++ tr ++ [EvNow t] /\
    writes (tr ++ [EvNow t]) = 0%nat /\
    last_sync_time (coord st') = Some t.
Proof.
  assert (O : observes Scenario.manual_current Scenario.ip
                (Provider.fields_of Scenario.current)
                (after_read Scenario.manual_current)).
  { eexists. split; [vm_compute; reflexivity |]. split; [discriminate |].
    split; [vm_compute; reflexivity | discriminate]. }
  split; [reflexivity |]. split; [exact O |].
  exact (manual_cycle_in_sync_stamps_the_time Scenario.manual_current _ _ _
           eq_refl O eq_refl).
Defined.

Lemma mismatch_is_only_reported_witness :
  truthy (auto_update_enabled (coord Scenario.off_stale)) = false /\
  observes Scenario.off_stale Scenario.ip (Provider.fields_of Scenario.stale)
    (after_read Scenario.off_stale) /\
  _async_update_data Scenario.off_stale =
    (Ok (SyncData false Scenario.ip (JAtom (PStr "1.2.3.4")) (PStr "host.example.com")),
     after_read Scenario.off_stale) /\
  writes (trace (after_read Scenario.off_stale)) = 0%nat /\
  exists st',
    async_refresh Scenario.off_stale = (Ok tt, st') /\
    data (coord st') =
      Some (SyncData false Scenario.ip (JAtom (PStr "1.2.3.4")) (PStr "host.example.com")).
Proof.
  assert (O : observes Scenario.off_stale Scenario.ip
                (Provider.fields_of Scenario.stale) (after_read Scenario.off_stale)).
  { eexists. split; [vm_compute; reflexivity |]. split; [discriminate |].
    split; [vm_compute; reflexivity | discriminate]. }
  split; [reflexivity |]. split; [exact O |].
  destruct (mismatch_is_only_reported Scenario.off_stale _ _ _ eq_refl eq_refl O eq_refl)
    as (E & _ & _ & st' & R & _ & D).
  split; [exact E |]. split; [reflexivity |].
  exists st'. split; [exact R | exact D].
Defined.

Lemma notifications_never_fail_the_cycle_witness :
  fst (serve (TelegramSend (PStr "bot-token") (PStr "42")
                (Message (PStr "host.example.com") Scenario.ip (JAtom (PStr "1.2.3.4"))))
         Scenario.channels_down) = inl TimeoutError /\
  observes Scenario.auto_unnotified Scenario.ip (Provider.fields_of Scenario.stale)
    (after_read Scenario.auto_unnotified) /\
  _update_dns_record (field "id" (Provider.fields_of Scenario.stale)) Scenario.ip
    (after_read Scenario.auto_unnotified) =
    (Ok true, Scenario.after_write Scenario.auto_unnotified) /\
  exists d st' stamps,
    _async_update_data Scenario.auto_unnotified = (Ok d, st') /\
    synced d = true /\
    trace st' =
      trace (Scenario.after_write Scenario.auto_unnotified)
      ++ [EvCall (TelegramSend (PStr "bot-token") (PStr "42")
                    (Message (PStr "host.example.com") Scenario.ip
                       (JAtom (PStr "1.2.3.4"))));
          EvCall (DiscordPost (PStr "https://discord.example/hook")
                    (Message (PStr "host.example.com") Scenario.ip
                       (JAtom (PStr "1.2.3.4"))))]
      ++ stamps /\
    Forall (fun e => is_call e = false) stamps.
Proof.
  assert (O : observes Scenario.auto_unnotified Scenario.ip
                (Provider.fields_of Scenario.stale)
                (after_read Scenario.auto_unnotified)).
  { eexists. split; [vm_compute; reflexivity |]. split; [discriminate |].
    split; [vm_compute; reflexivity | discriminate]. }
  assert (U : _update_dns_record (field "id" (Provider.fields_of Scenario.stale))
                Scenario.ip (after_read Scenario.auto_unnotified) =
              (Ok true, Scenario.after_write Scenario.auto_unnotified))
    by (vm_compute; reflexivity).
  split; [reflexivity |]. split; [exact O |]. split; [exact U |].
  destruct (notifications_never_fail_the_cycle Scenario.auto_unnotified _ _ _ _
              eq_refl eq_refl eq_refl eq_refl eq_refl O eq_refl eq_refl U)
    as (d & st' & stamps & E & S & T & Hs & _).
  exists d, st', stamps. auto.
Defined.

Lemma ttl_is_validated_in_both_steps_witness :
  Scenario.form_ttl_50 !! CONF_TTL = Some (PInt 50) /\
  exists errors,
    errors !! CONF_TTL = Some "invalid_ttl" /\
    ConfigFlow.async_step_user (Some Scenario.form_ttl_50) =
      Ok (ConfigFlow.ShowForm "user" errors) /\
    ConfigFlow.async_step_init (Some Scenario.form_ttl_50) =
      Ok (ConfigFlow.ShowForm "init" errors).
Proof.
  assert (T : Scenario.form_ttl_50 !! CONF_TTL = Some (PInt 50)) by reflexivity.
  split; [exact T |].
  destruct (ttl_is_validated_in_both_steps Scenario.form_ttl_50 50 T) as (_ & R).
  apply R; [discriminate | left; reflexivity].
Defined.

Lemma manual_flag_is_consumed_by_every_cycle_witness :
  _manual_sync_requested (coord Scenario.manual_refused) = true /\
  observes Scenario.manual_refused Scenario.ip (Provider.fields_of Scenario.stale)
    (after_read Scenario.manual_refused) /\
  _update_dns_record (field "id" (Provider.fields_of Scenario.stale)) Scenario.ip
    (after_read Scenario.manual_refused) =
    (Ok false, Scenario.after_write Scenario.manual_refused) /\
  _async_update_data Scenario.manual_refused =
    (Raise UpdateError, Scenario.after_write Scenario.manual_refused) /\
  _manual_sync_requested (coord (Scenario.after_write Scenario.manual_refused)) = false /\
  async_refresh Scenario.manual_refused = async_press Scenario.manual_refused.
Proof.
  assert (O : observes Scenario.manual_refused Scenario.ip
                (Provider.fields_of Scenario.stale)
                (after_read Scenario.manual_refused)).
  { eexists. split; [vm_compute; reflexivity |]. split; [discriminate |].
    split; [vm_compute; reflexivity | discriminate]. }
  assert (U : _update_dns_record (field "id" (Provider.fields_of Scenario.stale))
                Scenario.ip (after_read Scenario.manual_refused) =
              (Ok false, Scenario.after_write Scenario.manual_refused))
    by (vm_compute; reflexivity).
  split; [reflexivity |]. split; [exact O |]. split; [exact U |].
  destruct (manual_flag_is_consumed_by_every_cycle Scenario.manual_refused)
    as (_ & _ & P & R).
  destruct (R _ _ _ _ eq_refl O eq_refl U) as (E & F).
  split; [exact E |]. split; [exact F | exact (P eq_refl)].
Defined.

(** * Beyond the statements above: every path of the cycle *)

Section Paths.
Context {W : Type} `{Host W}.

(** An address comes with exactly one call of the address-echo endpoint. *)
Lemma _get_current_ip_some_issues (st st' : run W) (s : string) :
  _get_current_ip st = (Ok (Some s), st') ->
  issues st st' [EvCall GetExternalIp].
Proof.
  unfold _get_current_ip, try_except, bind, self. simpl.
  destruct (py_eq (what_ip (coord st)) (PStr IP_TYPE_EXTERNAL)); [| discriminate].
  destruct (http_run GetExternalIp st) as (rep & st1 & I1 & ->).
  destruct rep as [e | resp]; [discriminate |].
  destruct (status resp =? 200); [| discriminate].
  unfold text. destruct (resp_text resp); [| discriminate].
  intros E. inversion E; subst. exact I1.
Qed.

Lemma _get_current_ip_internal (st : run W) :
  py_eq (what_ip (coord st)) (PStr IP_TYPE_EXTERNAL) = false ->
  _get_current_ip st = (Ok None, st).
Proof.
  intros X. unfold _get_current_ip, try_except, bind, self. simpl.
  now rewrite X.
Qed.

Lemma observes_trace (st st2 : run W) (ip : string) (fields : list (string * json)) :
  observes st ip fields st2 ->
  trace st2 =
    trace st ++ [EvCall GetExternalIp;
                 EvCall (GetDnsRecords (zone_id (coord st)) (api_token (coord st))
                           (dns_record (coord st)))].
Proof.
  intros (st1 & E1 & _ & E2 & _).
  destruct (_get_current_ip_some_issues _ _ _ E1) as [C1 T1].
  destruct (_get_dns_record_info_run st1) as (info & st2' & E2' & [C2 T2]).
  rewrite E2 in E2'. inversion E2'; subst info st2'.
  rewrite T2, T1, C1. simpl. now rewrite <- app_assoc.
Qed.

(** What a cycle does before it has a record to look at. *)
Lemma cycle_before_record (st : run W) :
  (exists st1 tr,
     _async_update_data st = (Raise AddressResolutionError, st1) /\
     coord st1 = coord (started st) /\
     trace st1 = trace st ++ tr /\
     (tr = [] \/ tr = [EvCall GetExternalIp])) \/
  (exists st2 info,
     (json_truthy info = false /\
      _async_update_data st = (Raise RecordLookupError, st2) \/
      json_truthy info = true /\ (forall fields, info <> JObj fields) /\
      _async_update_data st =
        (Raise (UpdateFailed
                  (String.append "Error updating data: "
                     (String.append "'"
                        (String.append (py_type_name info)
                           "' object has no attribute 'get'")))), st2)) /\
     (exists st1, _get_dns_record_info st1 = (Ok info, st2)) /\
     coord st2 = coord (started st) /\
     trace st2 =
       trace st ++ [EvCall GetExternalIp;
                    EvCall (GetDnsRecords (zone_id (coord st)) (api_token (coord st))
                              (dns_record (coord st)))]) \/
  (exists ip fields st2, observes st ip fields st2).
Proof.
  destruct (_get_current_ip_run (started st)) as (r & st1 & tr & E1 & [C1 T1] & Htr).
  assert (Unres : r = None \/ r = Some "" ->
    update_data_body st = (Raise (UpdateFailed MSG_NO_IP), st1)).
  { intros Hr. unfold update_data_body, bind, self, modify. cbv beta iota.
    fold (started st). rewrite E1. destruct Hr as [-> | ->]; reflexivity. }
  destruct r as [[| a ip'] |].
  - left. exists st1, tr. split; [apply _async_update_data_failed; auto |]. auto.
  - destruct (_get_current_ip_some_issues _ _ _ E1) as [_ T1'].
    destruct (_get_dns_record_info_run st1) as (info & st2 & E2 & [C2 T2]).
    assert (T : trace st2 =
                trace st ++ [EvCall GetExternalIp;
                             EvCall (GetDnsRecords (zone_id (coord st)) (api_token (coord st))
                                       (dns_record (coord st)))]).
    { rewrite T2, T1', C1. simpl. now rewrite <- app_assoc. }
    assert (C : coord st2 = coord (started st)) by congruence.
    assert (Pre : update_data_body st =
                  (if negb (json_truthy info)
                   then raise (UpdateFailed MSG_NO_RECORD)
                   else reconcile_record (_manual_sync_requested (coord st))
                          (String a ip') info) st2).
    { unfold update_data_body, bind, self, modify. cbv beta iota.
      fold (started st). now rewrite E1, E2. }
    destruct (json_truthy info) eqn:Tr.
    + destruct info as [v | items | fields].
      * right; left. exists st2, (JAtom v). split; [right | eauto].
        split; [exact Tr |]. split; [discriminate |].
        unfold _async_update_data, try_except. rewrite Pre. reflexivity.
      * right; left. exists st2, (JArr items). split; [right | eauto].
        split; [exact Tr |]. split; [discriminate |].
        unfold _async_update_data, try_except. rewrite Pre. reflexivity.
      * right; right. exists (String a ip'), fields, st2, st1.
        split; [exact E1 |]. split; [discriminate |]. split; [exact E2 |].
        destruct fields; [discriminate | discriminate].
    + right; left. exists st2, info. split; [left | eauto].
      split; [exact Tr |].
      apply _async_update_data_failed. rewrite Pre. reflexivity.
  - left. exists st1, tr. split; [apply _async_update_data_failed; auto |]. auto.
Qed.

(** What a cycle does once it has a record. *)
Lemma cycle_after_record (st st2 : run W) (ip : string) (fields : list (string * json)) :
  observes st ip fields st2 ->
  (in_sync (coord st) ip fields = true /\
   exists st' stamps,
     _async_update_data st =
       (Ok (SyncData true ip (field "content" fields) (dns_record (coord st))), st') /\
     trace st' = trace st2 ++ stamps /\
     (stamps = [] /\ st' = st2 /\
      _manual_sync_requested (coord st) = false /\
      truthy (auto_update_enabled (coord st)) = false \/
      exists t, stamps = [EvNow t] /\
                coord st' = set_last_sync_time (Some t) (coord st2))) \/
  (in_sync (coord st) ip fields = false /\
   _manual_sync_requested (coord st) = false /\
   truthy (auto_update_enabled (coord st)) = false /\
   _async_update_data st =
     (Ok (SyncData false ip (field "content" fields) (dns_record (coord st))), st2)) \/
  (in_sync (coord st) ip fields = false /\
   _manual_sync_requested (coord st) || truthy (auto_update_enabled (coord st)) = true /\
   exists ok st3,
     _update_dns_record (field "id" fields) ip st2 = (Ok ok, st3) /\
     trace st3 = trace st2 ++ [EvCall (put_request (coord st) (field "id" fields) ip)] /\
     coord st3 = coord st2 /\
     (ok = false /\ _async_update_data st = (Raise UpdateError, st3) \/
      ok = true /\
      exists st' t stamps,
        _async_update_data st =
          (Ok (SyncData true ip (field "content" fields) (dns_record (coord st))), st') /\
        trace st' =
          trace st3 ++ notification_calls (coord st) ip (field "content" fields)
                    ++ stamps ++ [EvNow t] /\
        Forall (fun e => is_call e = false) stamps /\
        (_manual_sync_requested (coord st) = true -> stamps = []) /\
        coord st' = set_last_sync_time (Some t) (coord st2))).
Proof.
  intros O.
  destruct (observes_issues _ _ _ _ O) as (C2 & _).
  pose proof (update_data_body_observes _ _ _ _ O) as B.
  assert (Sy : in_sync (coord st2) ip fields = in_sync (coord st) ip fields)
    by (rewrite C2; reflexivity).
  assert (Au : auto_update_enabled (coord st2) = auto_update_enabled (coord st))
    by (rewrite C2; reflexivity).
  assert (Dn : dns_record (coord st2) = dns_record (coord st))
    by (rewrite C2; reflexivity).
  destruct (in_sync (coord st) ip fields) eqn:S.
  - left. split; [reflexivity |].
    destruct (_manual_sync_requested (coord st)) eqn:M.
    + destruct (reconcile_record_manual_in_sync st2 ip fields Sy) as (st' & t & R & T & C).
      rewrite R, Dn in B. apply _async_update_data_ok in B.
      exists st', [EvNow t]. split; [exact B |]. split; [exact T |]. right. eauto.
    + destruct (reconcile_record_in_sync st2 ip fields Sy) as (st' & R & F).
      rewrite R, Dn in B. apply _async_update_data_ok in B.
      rewrite Au in F. destruct (truthy (auto_update_enabled (coord st))).
      * destruct F as (t & T & C). exists st', [EvNow t].
        split; [exact B |]. split; [exact T |]. right. eauto.
      * subst st'. exists st2, []. split; [exact B |].
        split; [now rewrite app_nil_r |]. left. auto.
  - right.
    destruct (_manual_sync_requested (coord st) || truthy (auto_update_enabled (coord st)))
      eqn:A.
    + right. split; [reflexivity |]. split; [reflexivity |].
      destruct (_update_dns_record_run (field "id" fields) ip st2)
        as (ok & st3 & U & [C3 T3]).
      exists ok, st3. split; [exact U |].
      split; [rewrite T3; unfold put_request; rewrite C2; reflexivity |].
      split; [exact C3 |].
      destruct ok.
      * right. split; [reflexivity |].
        assert (A2 : _manual_sync_requested (coord st)
                     || truthy (auto_update_enabled (coord st2)) = true)
          by now rewrite Au.
        destruct (reconcile_record_write_succeeds _ st2 st3 ip fields Sy A2 U)
          as (st' & t & stamps & R & T & Hs & C & _).
        rewrite R, Dn in B. apply _async_update_data_ok in B.
        exists st', t, stamps. split; [exact B |].
        split; [rewrite T; unfold notification_calls, telegram_calls, discord_calls;
                rewrite C2; reflexivity |].
        split; [exact Hs |]. split; [| exact C].
        intros M.
        (* a manual cycle stamps once: the trace tells *)
        pose proof R as R'. unfold reconcile_record, bind, self, dict_get, ret in R'.
        fold (field "id" fields) (field "content" fields) (field "proxied" fields) in R'.
        fold (in_sync (coord st2) ip fields) in R'. rewrite Sy in R'. simpl in R'.
        rewrite M in R'. simpl in R'. rewrite U in R'.
        destruct (_send_notifications_run ip (field "content" fields) st3)
          as (st4 & E4 & [C4 T4]).
        rewrite E4 in R'.
        destruct (refresh_last_sync_time_run st4) as (t5 & st5 & E5 & T5 & C5).
        rewrite E5 in R'. rewrite andb_false_r in R'. simpl in R'.
        inversion R'; subst st'.
        rewrite T5, T4, C3 in T. rewrite <- !app_assoc in T.
        apply app_inv_head in T. apply app_inv_head in T.
        destruct stamps as [| e stamps]; [reflexivity |].
        simpl in T. inversion T.
        destruct stamps; discriminate.
      * left. split; [reflexivity |].
        assert (A2 : _manual_sync_requested (coord st)
                     || truthy (auto_update_enabled (coord st2)) = true)
          by now rewrite Au.
        rewrite (reconcile_record_write_fails _ st2 st3 ip fields Sy A2 U) in B.
        apply _async_update_data_failed in B. exact B.
    + left. apply orb_false_iff in A. destruct A as [M A].
      split; [reflexivity |]. split; [exact M |]. split; [exact A |].
      rewrite M in B.
      rewrite reconcile_record_report in B by (rewrite ?Au; assumption).
      rewrite Dn in B. now apply _async_update_data_ok in B.
Qed.

End Paths.

(** * Further properties of the cycle *)

Section MoreCycle.
Context {W : Type} `{Host W}.

(** Events that are no call to the address-echo endpoint or the provider. *)
Lemma no_provider_call_counts (post : list event) :
  Forall (fun e => is_lookup e || is_read e || is_write e = false) post ->
  lookups post = 0%nat /\ reads post = 0%nat /\ writes post = 0%nat.
Proof.
  induction 1 as [| e l He _ (IH1 & IH2 & IH3)]; [repeat split |].
  apply orb_false_iff in He. destruct He as [He Hw].
  apply orb_false_iff in He. destruct He as [Hl Hr].
  unfold lookups, reads, writes in *. simpl. rewrite Hl, Hr, Hw. auto.
Qed.

Lemma notification_calls_only_notify (c : Coordinator) (new_ip : string) (old_ip : json) :
  Forall (fun e => is_lookup e || is_read e || is_write e = false)
    (notification_calls c new_ip old_ip).
Proof.
  unfold notification_calls, telegram_calls, discord_calls.
  destruct (truthy (config_get (config c) CONF_NOTIFY_TELEGRAM PNone)
            && (truthy (config_get (config c) CONF_TELEGRAM_CHAT_ID PNone)
                && truthy (config_get (config c) CONF_TELEGRAM_BOT_TOKEN PNone)));
    destruct (truthy (config_get (config c) CONF_NOTIFY_DISCORD PNone)
              && truthy (config_get (config c) CONF_DISCORD_WEBHOOK_URL PNone));
    repeat constructor.
Qed.

Lemma stamps_are_no_calls (stamps : list event) :
  Forall (fun e => is_call e = false) stamps ->
  Forall (fun e => is_lookup e || is_read e || is_write e = false) stamps /\
  notifications stamps = 0%nat.
Proof.
  induction 1 as [| e l He _ (IH1 & IH2)]; [split; [constructor | reflexivity] |].
  destruct e as [r | t]; [discriminate |].
  split; [constructor; [reflexivity | exact IH1] | exact IH2].
Qed.

(** The shape of the trace of one cycle, shared by the statements below. *)
Lemma cycle_shape (st : run W) :
  exists record_id ip n post,
    trace (snd (_async_update_data st)) =
      trace st
      ++ firstn n [EvCall GetExternalIp;
                   EvCall (GetDnsRecords (zone_id (coord st)) (api_token (coord st))
                             (dns_record (coord st)));
                   EvCall (put_request (coord st) record_id ip)]
      ++ post /\
    Forall (fun e => is_lookup e || is_read e || is_write e = false) post /\
    (notifications post <> 0%nat ->
     n = 3%nat /\ exists d, fst (_async_update_data st) = Ok d /\ synced d = true) /\
    (fst (_async_update_data st) = Raise UpdateError -> n = 3%nat /\ post = []) /\
    ((n = 3)%nat ->
     _manual_sync_requested (coord st) || truthy (auto_update_enabled (coord st)) = true).
Proof.
  destruct (cycle_before_record st)
    as [(st1 & tr & E & _ & T & Htr)
       | [(st2 & info & E & _ & _ & T) | (ip & fields & st2 & O)]].
  - rewrite E. simpl. exists JNone, "".
    destruct Htr as [-> | ->]; [exists 0%nat, [] | exists 1%nat, []];
      (split; [rewrite T; reflexivity |]); (split; [constructor |]);
      (split; [intros N; now elim N |]); (split; [discriminate | discriminate]).
  - exists JNone, "", 2%nat, [].
    destruct E as [(_ & E) | (_ & _ & E)]; rewrite E; simpl;
      (split; [rewrite T; reflexivity |]); (split; [constructor |]);
      (split; [intros N; now elim N |]); (split; [discriminate | discriminate]).
  - pose proof (observes_trace _ _ _ _ O) as T2.
    destruct (cycle_after_record _ _ _ _ O)
      as [(_ & st' & stamps & E & T & Hs)
         | [(_ & _ & _ & E)
           | (_ & A & ok & st3 & _ & T3 & _ & [(_ & E) | (_ & st' & t & stamps & E & T & Hs & _)])]].
    + exists JNone, "", 2%nat, stamps. rewrite E. simpl.
      split; [rewrite T, T2; now rewrite <- app_assoc |].
      assert (Forall (fun e => is_call e = false) stamps) as Fs
        by (destruct Hs as [(-> & _) | (t & -> & _)]; repeat constructor).
      destruct (stamps_are_no_calls _ Fs) as (F1 & F2).
      split; [exact F1 |]. split; [intros N; now elim N |].
      split; [discriminate | discriminate].
    + exists JNone, "", 2%nat, []. rewrite E. simpl.
      split; [rewrite T2; reflexivity |]. split; [constructor |].
      split; [intros N; now elim N |]. split; [discriminate | discriminate].
    + exists (field "id" fields), ip, 3%nat, []. rewrite E. simpl.
      split; [rewrite T3, T2; now rewrite <- app_assoc |]. split; [constructor |].
      split; [intros N; now elim N |]. split; [auto | auto].
    + exists (field "id" fields), ip, 3%nat,
        (notification_calls (coord st) ip (field "content" fields) ++ stamps ++ [EvNow t]).
      rewrite E. simpl.
      split; [rewrite T, T3, T2; now rewrite <- !app_assoc |].
      destruct (stamps_are_no_calls _ Hs) as (F1 & _).
      split; [apply Forall_app; split; [apply notification_calls_only_notify |];
              apply Forall_app; split; [exact F1 | repeat constructor] |].
      split; [intros _; split; [reflexivity | eauto] |].
      split; [discriminate | auto].
Qed.

(** A cycle touches nothing of the coordinator but the manual-sync flag and
    [last_sync_time]; shared by the statements below. *)
Lemma cycle_frame (st : run W) :
  settings (coord (snd (_async_update_data st))) = settings (coord st).
Proof.
  rewrite _async_update_data_coord.
  destruct (update_data_body_cases st) as [(e & st' & -> & C) | (ip & fields & st2 & O)].
  - simpl. rewrite C. reflexivity.
  - rewrite (update_data_body_observes _ _ _ _ O).
    destruct (observes_issues _ _ _ _ O) as (C2 & _).
    pose proof (reconcile_record_frame (_manual_sync_requested (coord st)) ip fields st2) as F.
    apply (f_equal (set_manual_sync_requested false)) in F.
    change (settings (coord (snd (reconcile_record (_manual_sync_requested (coord st)) ip
                                    (JObj fields) st2))) =
            set_manual_sync_requested false (set_last_sync_time None (coord st2))) in F.
    rewrite F, C2. reflexivity.
Qed.

(** A failed cycle, shared by the statements below: the failure is one of
    four, and the coordinator is as the reset of the flag left it. *)
Lemma cycle_failure (st st' : run W) (e : exn) :
  _async_update_data st = (Raise e, st') ->
  coord st' = coord (started st) /\
  (e = AddressResolutionError \/ e = RecordLookupError \/ e = UpdateError \/
   exists info,
     json_truthy info = true /\ (forall fields, info <> JObj fields) /\
     e = UpdateFailed
           (String.append "Error updating data: "
              (String.append "'"
                 (String.append (py_type_name info)
                    "' object has no attribute 'get'")))).
Proof.
  intros E.
  destruct (cycle_before_record st)
    as [(st1 & tr & E' & C & _)
       | [(st2 & info & E' & _ & C & _) | (ip & fields & st2 & O)]].
  - rewrite E in E'. inversion E'; subst. auto.
  - destruct E' as [(_ & E') | (T & N & E')]; rewrite E in E'; inversion E'; subst.
    + auto.
    + split; [exact C |]. right; right; right. exists info. auto.
  - destruct (observes_issues _ _ _ _ O) as (C2 & _).
    destruct (cycle_after_record _ _ _ _ O)
      as [(_ & s1 & stamps & E' & _)
         | [(_ & _ & _ & E')
           | (_ & _ & ok & st3 & _ & _ & C3 & [(_ & E') | (_ & s1 & t & stamps & E' & _)])]];
      rewrite E in E'; inversion E'; subst.
    split; [rewrite C3, C2; reflexivity | auto].
Qed.

(** A cycle with no manual request and auto-update off, shared by the
    statements below. *)
Lemma idle_cycle (st : run W) :
  _manual_sync_requested (coord st) = false ->
  truthy (auto_update_enabled (coord st)) = false ->
  exists tr,
    trace (snd (_async_update_data st)) = trace st ++ tr /\
    writes tr = 0%nat /\ notifications tr = 0%nat /\
    coord (snd (_async_update_data st)) = coord st.
Proof.
  intros M A.
  assert (St : coord (started st) = coord st)
    by (unfold started; simpl; destruct (coord st); simpl in *; now subst).
  destruct (cycle_before_record st)
    as [(st1 & tr & E & C & T & Htr)
       | [(st2 & info & E & _ & C & T) | (ip & fields & st2 & O)]].
  - rewrite E. simpl. exists tr. split; [exact T |].
    destruct Htr as [-> | ->]; (split; [reflexivity |]); (split; [reflexivity |]);
      congruence.
  - eexists. destruct E as [(_ & E) | (_ & _ & E)]; rewrite E; simpl;
      (split; [exact T |]); (split; [reflexivity |]); (split; [reflexivity |]);
      congruence.
  - pose proof (observes_trace _ _ _ _ O) as T2.
    destruct (observes_issues _ _ _ _ O) as (C2 & _).
    destruct (cycle_after_record _ _ _ _ O)
      as [(_ & st' & stamps & E & T & [(-> & -> & _) | (t & -> & C)])
         | [(_ & _ & _ & E) | (_ & A' & _)]].
    + rewrite E. simpl. eexists. split; [exact T2 |].
      split; [reflexivity |]. split; [reflexivity |]. rewrite C2. exact St.
    + exfalso. clear T2.
      (* a stamp needs auto-update or a manual request *)
      pose proof (update_data_body_observes _ _ _ _ O) as B. rewrite M in B.
      destruct (in_sync (coord st2) ip fields) eqn:S.
      * destruct (reconcile_record_in_sync st2 ip fields S) as (s & R & F).
        replace (truthy (auto_update_enabled (coord st2))) with false in F
          by (rewrite C2; simpl; now rewrite A).
        subst s. rewrite R in B. apply _async_update_data_ok in B.
        rewrite B in E. inversion E; subst st'.
        rewrite <- (app_nil_r (trace st2)) in T at 1.
        apply app_inv_head in T. discriminate.
      * rewrite reconcile_record_report in B
          by (try assumption; rewrite C2; simpl; now rewrite A).
        apply _async_update_data_ok in B. rewrite B in E. discriminate.
    + rewrite E. simpl. eexists. split; [exact T2 |].
      split; [reflexivity |]. split; [reflexivity |]. rewrite C2. exact St.
    + rewrite M, A in A'. discriminate.
Qed.

(** X1: a cycle calls the address-echo endpoint, then reads the record,
    then writes it, each at most once and in this order, and notifies only
    after a write. *)
Theorem each_call_at_most_once_in_order (st : run W) :
  exists tr record_id ip n post,
    trace (snd (_async_update_data st)) = trace st ++ tr /\
    tr = firstn n [EvCall GetExternalIp;
                   EvCall (GetDnsRecords (zone_id (coord st)) (api_token (coord st))
                             (dns_record (coord st)));
                   EvCall (put_request (coord st) record_id ip)]
         ++ post /\
    Forall (fun e => is_lookup e || is_read e || is_write e = false) post /\
    (lookups tr <= 1)%nat /\ (reads tr <= 1)%nat /\ (writes tr <= 1)%nat /\
    (notifications tr <> 0%nat -> writes tr = 1%nat).
Proof.
  destruct (cycle_shape st) as (record_id & ip & n & post & T & F & N & _).
  eexists; exists record_id, ip, n, post.
  split; [exact T |]. split; [reflexivity |]. split; [exact F |].
  destruct (no_provider_call_counts _ F) as (L0 & R0 & W0).
  unfold lookups, reads, writes, notifications in *.
  rewrite !List.filter_app, !length_app, L0, R0, W0.
  unfold put_request.
  destruct n as [| [| [| n]]]; simpl; rewrite ?firstn_nil; simpl;
    (split; [lia |]); (split; [lia |]); (split; [lia |]);
    intros Hn; try reflexivity;
    destruct (N Hn) as (Hn3 & _); discriminate.
Qed.

(** X2: a cycle changes nothing of the coordinator except the manual-sync
    flag and [last_sync_time]: the configuration attributes, the auto-update
    switch and the published [data] are as before. *)
Theorem cycle_changes_only_flag_and_time (st : run W) :
  settings (coord (snd (_async_update_data st))) = settings (coord st).
Proof. apply cycle_frame. Qed.

(** X3: a cycle that fails raises one of four failures, never the timeout
    message of the first handler, has notified nobody, and leaves
    [last_sync_time], [data] and every other attribute but the flag as they
    were. *)
Theorem failed_cycle_leaves_no_mark (st st' : run W) (e : exn) :
  _async_update_data st = (Raise e, st') ->
  coord st' = set_manual_sync_requested false (coord st) /\
  e <> UpdateFailed "Timeout connecting to Cloudflare API" /\
  (e = AddressResolutionError \/ e = RecordLookupError \/ e = UpdateError \/
   exists info,
     json_truthy info = true /\ (forall fields, info <> JObj fields) /\
     e = UpdateFailed
           (String.append "Error updating data: "
              (String.append "'"
                 (String.append (py_type_name info)
                    "' object has no attribute 'get'")))) /\
  exists tr, trace st' = trace st ++ tr /\ notifications tr = 0%nat.
Proof.
  intros E. destruct (cycle_failure _ _ _ E) as (C & K).
  split; [exact C |]. split; [| split; [exact K |]].
  - destruct K as [-> | [-> | [-> | (info & _ & _ & ->)]]]; discriminate.
  - destruct (cycle_shape st) as (record_id & ip & n & post & T & F & N & _).
    rewrite E in T, N. simpl in T, N.
    eexists. split; [exact T |].
    unfold notifications in *. rewrite List.filter_app, length_app.
    destruct (length (List.filter is_notification post)) eqn:L.
    + unfold put_request.
      destruct n as [| [| [| n]]]; simpl; rewrite ?firstn_nil; reflexivity.
    + destruct N as (_ & d & D & _); [discriminate | discriminate].
Qed.

(** X4: with no manual request pending and auto-update off, a cycle,
    however it ends, writes nothing, notifies nobody and leaves the
    coordinator as it was. *)
Theorem idle_cycle_only_observes (st : run W) :
  _manual_sync_requested (coord st) = false ->
  truthy (auto_update_enabled (coord st)) = false ->
  exists tr,
    trace (snd (_async_update_data st)) = trace st ++ tr /\
    writes tr = 0%nat /\ notifications tr = 0%nat /\
    coord (snd (_async_update_data st)) = coord st.
Proof. apply idle_cycle. Qed.

(** X5: switching auto-update off and then running a cycle writes nothing,
    whatever the record holds. *)
Theorem switched_off_cycle_writes_nothing (st : run W) :
  _manual_sync_requested (coord st) = false ->
  exists st1 tr,
    async_turn_off st = (Ok tt, st1) /\
    is_on (coord st1) = PBool false /\
    trace (snd (bind async_turn_off (fun _ => _async_update_data) st)) = trace st ++ tr /\
    writes tr = 0%nat /\ notifications tr = 0%nat.
Proof.
  intros M.
  set (st1 := Run (set_auto_update_enabled (PBool false) (coord st)) (world st) (trace st)).
  exists st1. destruct (idle_cycle st1 M eq_refl) as (tr & T & Wr & N & _).
  exists tr. split; [reflexivity |]. split; [reflexivity |].
  split; [exact T | auto].
Qed.

(** X6: when the address is resolved but the record read yields nothing
    (no record of that name, a refused or failed read), the cycle fails with
    the record-lookup failure right after the read; nothing is written,
    stamped or published. *)
Theorem missing_record_fails_untouched
        (st st1 st2 : run W) (ip : string) (info : json) :
  _get_current_ip (started st) = (Ok (Some ip), st1) ->
  ip <> "" ->
  _get_dns_record_info st1 = (Ok info, st2) ->
  json_truthy info = false ->
  _async_update_data st = (Raise RecordLookupError, st2) /\
  trace st2 =
    trace st ++ [EvCall GetExternalIp;
                 EvCall (GetDnsRecords (zone_id (coord st)) (api_token (coord st))
                           (dns_record (coord st)))] /\
  last_sync_time (coord st2) = last_sync_time (coord st) /\
  data (coord st2) = data (coord st).
Proof.
  intros E1 Hip E2 T.
  destruct (_get_current_ip_some_issues _ _ _ E1) as [C1 T1].
  destruct (_get_dns_record_info_run st1) as (info' & st2' & E2' & [C2 T2]).
  rewrite E2 in E2'. inversion E2'; subst info' st2'. clear E2'.
  split.
  - apply _async_update_data_failed.
    unfold update_data_body, bind, self, modify. cbv beta iota.
    fold (started st). rewrite E1.
    destruct ip as [| a ip']; [congruence |]. rewrite E2, T. reflexivity.
  - split; [rewrite T2, T1, C1; simpl; now rewrite <- app_assoc |].
    rewrite C2, C1. auto.
Qed.

(** X7: with the internal address source the cycle makes no call at all: it
    fails with the address-resolution failure in the state in which it
    started, but for the manual-sync flag, reset. *)
Theorem internal_source_makes_no_call (st : run W) :
  py_eq (what_ip (coord st)) (PStr IP_TYPE_EXTERNAL) = false ->
  _async_update_data st = (Raise AddressResolutionError, started st).
Proof.
  intros X. apply _async_update_data_failed.
  unfold update_data_body, bind, self, modify. cbv beta iota.
  fold (started st).
  rewrite (_get_current_ip_internal (started st)) by exact X. reflexivity.
Qed.

(** X8: a record that is no dict (the first element of the result is a
    string, a number or a list) makes the cycle fail with the text of the
    [AttributeError] as its cause, right after the read, nothing written. *)
Theorem odd_record_fails_the_cycle
        (st st1 st2 : run W) (ip : string) (info : json) :
  _get_current_ip (started st) = (Ok (Some ip), st1) ->
  ip <> "" ->
  _get_dns_record_info st1 = (Ok info, st2) ->
  json_truthy info = true ->
  (forall fields, info <> JObj fields) ->
  _async_update_data st =
    (Raise (UpdateFailed
              (String.append "Error updating data: "
                 (String.append "'"
                    (String.append (py_type_name info)
                       "' object has no attribute 'get'")))), st2) /\
  trace st2 =
    trace st ++ [EvCall GetExternalIp;
                 EvCall (GetDnsRecords (zone_id (coord st)) (api_token (coord st))
                           (dns_record (coord st)))] /\
  coord st2 = set_manual_sync_requested false (coord st).
Proof.
  intros E1 Hip E2 T N.
  destruct (_get_current_ip_some_issues _ _ _ E1) as [C1 T1].
  destruct (_get_dns_record_info_run st1) as (info' & st2' & E2' & [C2 T2]).
  rewrite E2 in E2'. inversion E2'; subst info' st2'. clear E2'.
  split.
  - unfold _async_update_data, try_except.
    unfold update_data_body, bind, self, modify. cbv beta iota.
    fold (started st). rewrite E1.
    destruct ip as [| a ip']; [congruence |]. rewrite E2, T.
    destruct info as [v | items | fields]; [reflexivity | reflexivity |].
    now elim (N fields).
  - split; [rewrite T2, T1, C1; simpl; now rewrite <- app_assoc |].
    rewrite C2, C1. reflexivity.
Qed.

(** X9: what a successful cycle returns: the resolved, non-empty address,
    the content of the record as it was read (before any write), the
    configured record name, and [synced = True] unless the record is
    mismatched with auto-update off and no manual request. *)
Theorem successful_cycle_result (st st' : run W) (d : sync_data) :
  _async_update_data st = (Ok d, st') ->
  exists ip fields st2,
    observes st ip fields st2 /\
    current_ip d = ip /\ ip <> "" /\
    dns_record_ip d = field "content" fields /\
    domain d = dns_record (coord st) /\
    (synced d = false <->
     in_sync (coord st) ip fields = false /\
     _manual_sync_requested (coord st) = false /\
     truthy (auto_update_enabled (coord st)) = false).
Proof.
  intros E.
  destruct (cycle_before_record st)
    as [(st1 & tr & E' & _) | [(st2 & info & E' & _) | (ip & fields & st2 & O)]].
  - rewrite E in E'. discriminate.
  - destruct E' as [(_ & E') | (_ & _ & E')]; rewrite E in E'; discriminate.
  - exists ip, fields, st2. split; [exact O |].
    assert (Hip : ip <> "") by (destruct O as (? & _ & Hip & _); exact Hip).
    destruct (cycle_after_record _ _ _ _ O)
      as [(S & s1 & stamps & E' & _)
         | [(S & M & A & E')
           | (S & A & ok & st3 & _ & _ & _ & [(_ & E') | (_ & s1 & t & stamps & E' & _)])]];
      rewrite E in E'; inversion E'; subst; simpl;
      (split; [reflexivity |]); (split; [exact Hip |]);
      (split; [reflexivity |]); (split; [reflexivity |]).
    + split; [discriminate | intros (S' & _); congruence].
    + split; [auto | reflexivity].
    + split; [discriminate |]. intros (_ & M & A').
      rewrite M, A' in A. discriminate.
Qed.

(** X10: a record whose address is right and whose proxied flag alone
    differs is written like any mismatch, and the channels are told that the
    record was updated to the address it already had. *)
Theorem proxied_only_mismatch_is_rewritten
        (st st2 st3 : run W) (ip : string) (fields : list (string * json)) :
  observes st ip fields st2 ->
  field "content" fields = JAtom (PStr ip) ->
  json_eq (field "proxied" fields) (proxied (coord st)) = false ->
  _manual_sync_requested (coord st) || truthy (auto_update_enabled (coord st)) = true ->
  _update_dns_record (field "id" fields) ip st2 = (Ok true, st3) ->
  exists st' rest,
    _async_update_data st =
      (Ok (SyncData true ip (JAtom (PStr ip)) (dns_record (coord st))), st') /\
    trace st' =
      trace st2
      ++ [EvCall (put_request (coord st) (field "id" fields) ip)]
      ++ notification_calls (coord st) ip (JAtom (PStr ip))
      ++ rest /\
    Forall (fun e => is_call e = false) rest.
Proof.
  intros O Hc Hp A U.
  assert (S : in_sync (coord st) ip fields = false)
    by (unfold in_sync; rewrite Hp; apply andb_false_r).
  destruct (cycle_after_record _ _ _ _ O)
    as [(S' & _) | [(_ & M' & A' & _)
       | (_ & _ & ok & st3' & U' & T3 & _ & [(-> & _) | (_ & st' & t & stamps & E & T & Hs & _)])]].
  - congruence.
  - rewrite M', A' in A. discriminate.
  - rewrite U in U'. discriminate.
  - rewrite U in U'. inversion U'; subst st3'.
    exists st', (stamps ++ [EvNow t]). rewrite Hc in E, T.
    split; [exact E |].
    split; [rewrite T, T3; now rewrite <- !app_assoc |].
    apply Forall_app. split; [exact Hs | repeat constructor].
Qed.

(** X11: a record that carries no proxied field never compares equal to a
    boolean setting, so with auto-update on it is written at every cycle,
    its address right or not. *)
Theorem record_without_proxied_is_always_written
        (st st2 : run W) (ip : string) (fields : list (string * json)) (b : bool) :
  observes st ip fields st2 ->
  assoc "proxied" fields = None ->
  proxied (coord st) = PBool b ->
  _manual_sync_requested (coord st) || truthy (auto_update_enabled (coord st)) = true ->
  in_sync (coord st) ip fields = false /\
  exists post,
    trace (snd (_async_update_data st)) =
      trace st2 ++ [EvCall (put_request (coord st) (field "id" fields) ip)] ++ post.
Proof.
  intros O Hp Hb A.
  assert (S : in_sync (coord st) ip fields = false).
  { unfold in_sync, field at 2. rewrite Hp, Hb. simpl. apply andb_false_r. }
  split; [exact S |].
  destruct (cycle_after_record _ _ _ _ O)
    as [(S' & _) | [(_ & M' & A' & _)
       | (_ & _ & ok & st3 & _ & T3 & _ & [(_ & E) | (_ & st' & t & stamps & E & T & _)])]].
  - congruence.
  - rewrite M', A' in A. discriminate.
  - rewrite E. simpl. exists []. rewrite T3. reflexivity.
  - rewrite E. simpl. eexists. rewrite T, T3. rewrite <- !app_assoc. reflexivity.
Qed.

(** X12: a manual request overrides the switch: with auto-update off, a
    cycle started with the flag set writes a mismatched record, and on
    success reports [synced = True], stamps the time once and has consumed
    the flag. *)
Theorem manual_request_overrides_the_switch
        (st st2 st3 : run W) (ip : string) (fields : list (string * json)) :
  _manual_sync_requested (coord st) = true ->
  truthy (auto_update_enabled (coord st)) = false ->
  observes st ip fields st2 ->
  in_sync (coord st) ip fields = false ->
  _update_dns_record (field "id" fields) ip st2 = (Ok true, st3) ->
  exists st' t,
    _async_update_data st =
      (Ok (SyncData true ip (field "content" fields) (dns_record (coord st))), st') /\
    trace st' =
      trace st2
      ++ [EvCall (put_request (coord st) (field "id" fields) ip)]
      ++ notification_calls (coord st) ip (field "content" fields)
      ++ [EvNow t] /\
    last_sync_time (coord st') = Some t /\
    _manual_sync_requested (coord st') = false.
Proof.
  intros M A O S U.
  destruct (observes_issues _ _ _ _ O) as (C2 & _).
  destruct (cycle_after_record _ _ _ _ O)
    as [(S' & _) | [(_ & M' & _)
       | (_ & _ & ok & st3' & U' & T3 & _ & [(-> & _) | (_ & st' & t & stamps & E & T & _ & Hm & C)])]].
  - congruence.
  - congruence.
  - rewrite U in U'. discriminate.
  - rewrite U in U'. inversion U'; subst st3'.
    rewrite (Hm M) in T. simpl in T.
    exists st', t. split; [exact E |].
    split; [rewrite T, T3; now rewrite <- !app_assoc |].
    rewrite C, C2. split; reflexivity.
Qed.

End MoreCycle.

(** * Further properties of the provider client and the notifier *)

(** ** Trimming the address *)

Lemma lstrip_all_space (l : list ascii) :
  forallb is_space l = true -> lstrip l = [].
Proof.
  induction l as [| c l IH]; simpl; [reflexivity |].
  destruct (is_space c); simpl; [exact IH | discriminate].
Qed.

Lemma lstrip_tight (l : list ascii) (c : ascii) (r : list ascii) :
  lstrip l = c :: r -> is_space c = false.
Proof.
  induction l as [| a l IH]; simpl; [discriminate |].
  destruct (is_space a) eqn:S; [exact IH |].
  intros E. inversion E; subst. exact S.
Qed.

Lemma lstrip_fixed (l : list ascii) :
  (forall c r, l = c :: r -> is_space c = false) -> lstrip l = l.
Proof.
  destruct l as [| c r]; [reflexivity |].
  intros Hc. simpl. now rewrite (Hc c r eq_refl).
Qed.

Lemma lstrip_keeps_last (x : list ascii) (c : ascii) :
  is_space c = false -> exists y, lstrip (x ++ [c]) = y ++ [c].
Proof.
  intros Hc. induction x as [| a x IH]; simpl.
  - rewrite Hc. now exists [].
  - destruct (is_space a); [exact IH | now exists (a :: x)].
Qed.

(** Dropping the trailing whitespace of a list that starts with none leaves
    its first character in place. *)
Lemma rstrip_keeps_head (m : list ascii) :
  (forall c r, m = c :: r -> is_space c = false) ->
  forall c r, rev (lstrip (rev m)) = c :: r -> is_space c = false.
Proof.
  intros Hm. destruct m as [| a m']; simpl.
  - discriminate.
  - pose proof (Hm a m' eq_refl) as Ha.
    destruct (lstrip_keeps_last (rev m') a Ha) as (y & ->).
    rewrite rev_app_distr. simpl. intros c r E. inversion E; subst. exact Ha.
Qed.

(** The model of [str.strip()] behaves as trimming should: it is
    idempotent, and a trimmed text neither starts nor ends with whitespace. *)
Lemma strip_is_tight_and_idempotent (s : string) :
  strip (strip s) = strip s /\
  (forall c r, list_ascii_of_string (strip s) = c :: r -> is_space c = false) /\
  (forall c r, rev (list_ascii_of_string (strip s)) = c :: r -> is_space c = false).
Proof.
  unfold strip. rewrite !list_ascii_of_string_of_list_ascii.
  set (m := lstrip (list_ascii_of_string s)).
  assert (Hm : forall c r, m = c :: r -> is_space c = false)
    by (intros c r; apply lstrip_tight).
  assert (Hh : forall c r, rev (lstrip (rev m)) = c :: r -> is_space c = false)
    by (apply rstrip_keeps_head; exact Hm).
  assert (Ht : forall c r, rev (rev (lstrip (rev m))) = c :: r -> is_space c = false)
    by (intros c r; rewrite rev_involutive; apply lstrip_tight).
  split; [| split; [exact Hh | exact Ht]].
  rewrite (lstrip_fixed _ Hh). rewrite rev_involutive.
  rewrite (lstrip_fixed (lstrip (rev m))); [reflexivity |].
  intros c r. apply lstrip_tight.
Qed.

Lemma strip_blank (body : string) :
  forallb is_space (list_ascii_of_string body) = true -> strip body = "".
Proof. intros B. unfold strip. now rewrite (lstrip_all_space _ B). Qed.

Section MoreHelpers.
Context {W : Type} `{Host W}.

(** X13: an answer of the address-echo endpoint that holds nothing but
    whitespace is an unresolved address: the cycle fails after that single
    call. *)
Theorem blank_address_is_unresolved
        (st : run W) (resp : response) (w' : W) (body : string) :
  py_eq (what_ip (coord st)) (PStr IP_TYPE_EXTERNAL) = true ->
  serve GetExternalIp (world st) = (inr resp, w') ->
  status resp = 200 ->
  resp_text resp = Some body ->
  forallb is_space (list_ascii_of_string body) = true ->
  _async_update_data st =
    (Raise AddressResolutionError,
     Run (set_manual_sync_requested false (coord st)) w'
       (trace st ++ [EvCall GetExternalIp])).
Proof.
  intros X S C B Bl. apply _async_update_data_failed.
  unfold update_data_body, bind, self, modify. cbv beta iota.
  unfold _get_current_ip, try_except, bind, self, http. simpl.
  rewrite X. simpl. rewrite S. simpl.
  replace (status resp =? 200) with true by (symmetry; now apply Z.eqb_eq).
  unfold text. rewrite B. simpl.
  rewrite (strip_blank _ Bl). reflexivity.
Qed.

(** X14: [_get_dns_record_info] yields something other than [None] only from
    a 200 answer whose JSON envelope has a true success flag and a non-empty
    result, of which it is the first element; a transport error, a timeout,
    another status, an undecodable body, a false flag and an empty result
    all give [None]. *)
Theorem record_info_comes_from_a_successful_listing
        (st st' : run W) (info : json) :
  _get_dns_record_info st = (Ok info, st') ->
  info <> JNone ->
  exists resp fields success result,
    fst (serve (GetDnsRecords (zone_id (coord st)) (api_token (coord st))
                  (dns_record (coord st))) (world st)) = inr resp /\
    status resp = 200 /\
    resp_json resp = Some (JObj fields) /\
    assoc "success" fields = Some success /\ json_truthy success = true /\
    assoc "result" fields = Some result /\
    ((exists rest, result = JArr (info :: rest)) \/
     (exists c s, result = JAtom (PStr (String c s)) /\
                  info = JAtom (PStr (String c "")))).
Proof.
  unfold _get_dns_record_info, try_except, bind, self, http. simpl.
  destruct (serve _ (world st)) as [[e | resp] w']; simpl.
  - unfold ret. intros E N. inversion E. congruence.
  - destruct (status resp =? 200) eqn:S;
      [| unfold ret; intros E N; inversion E; congruence].
    apply Z.eqb_eq in S. unfold json_of.
    destruct (resp_json resp) as [j |] eqn:J;
      [| unfold raise, ret; intros E N; inversion E; congruence].
    unfold ret at 1, dict_get.
    destruct j as [v | items | fields];
      try (unfold raise, ret; intros E N; inversion E; congruence).
    unfold ret at 1.
    destruct (assoc "success" fields) as [success |] eqn:A1; simpl;
      [| unfold ret; intros E N; inversion E; congruence].
    destruct (json_truthy success) eqn:T1;
      [| unfold ret; intros E N; inversion E; congruence].
    unfold ret at 1.
    destruct (assoc "result" fields) as [result |] eqn:A2; simpl;
      [| unfold ret; intros E N; inversion E; congruence].
    destruct (json_truthy result) eqn:T2;
      [| unfold ret; intros E N; inversion E; congruence].
    unfold ret at 1, item0.
    destruct result as [[| b | n | [| c s]] | [| first rest] | fs];
      unfold ret, raise; intros E N; inversion E; subst; try congruence;
      exists resp; eexists; eexists; eexists;
      (split; [reflexivity |]); (split; [exact S |]); (split; [exact J |]);
      (split; [exact A1 |]); (split; [exact T1 |]); (split; [exact A2 |]).
    + right. eauto.
    + left. eauto.
Qed.

(** X16: a channel whose credentials are missing or empty is skipped without
    a word, switched on or not: with no chat id or no bot token,
    [_send_notifications] makes no chat-bot call and goes on to the
    webhook. *)
Theorem channel_without_credentials_is_skipped
        (st : run W) (new_ip : string) (old_ip : json) :
  truthy (config_get (config (coord st)) CONF_TELEGRAM_CHAT_ID PNone) = false \/
  truthy (config_get (config (coord st)) CONF_TELEGRAM_BOT_TOKEN PNone) = false ->
  exists st',
    _send_notifications new_ip old_ip st = (Ok tt, st') /\
    trace st' =
      trace st ++ discord_calls (coord st) (Message (dns_record (coord st)) new_ip old_ip) /\
    coord st' = coord st.
Proof.
  intros Hc.
  destruct (_send_notifications_run new_ip old_ip st) as (st' & E & [C T]).
  exists st'. split; [exact E |]. split; [| exact C].
  rewrite T. unfold notification_calls, telegram_calls.
  replace (truthy (config_get (config (coord st)) CONF_TELEGRAM_CHAT_ID PNone)
           && truthy (config_get (config (coord st)) CONF_TELEGRAM_BOT_TOKEN PNone))
    with false
    by (destruct Hc as [-> | ->]; [reflexivity | now rewrite andb_false_r]).
  rewrite andb_false_r. reflexivity.
Qed.

(** X17: with no usable channel, [_send_notifications] does nothing at all:
    no call, the state unchanged. *)
Theorem nothing_configured_nothing_sent
        (st : run W) (new_ip : string) (old_ip : json) :
  telegram_calls (coord st) (Message (dns_record (coord st)) new_ip old_ip) = [] ->
  discord_calls (coord st) (Message (dns_record (coord st)) new_ip old_ip) = [] ->
  _send_notifications new_ip old_ip st = (Ok tt, st).
Proof.
  unfold telegram_calls, discord_calls.
  intros Ht Hd. unfold _send_notifications, bind, self.
  assert (E1 : notify_telegram (coord st) (Message (dns_record (coord st)) new_ip old_ip) st
               = (Ok tt, st)).
  { unfold notify_telegram.
    destruct (truthy (config_get (config (coord st)) CONF_NOTIFY_TELEGRAM PNone));
      [| reflexivity].
    cbv zeta.
    destruct (truthy (config_get (config (coord st)) CONF_TELEGRAM_CHAT_ID PNone)
              && truthy (config_get (config (coord st)) CONF_TELEGRAM_BOT_TOKEN PNone));
      [discriminate | reflexivity]. }
  rewrite E1. unfold notify_discord.
  destruct (truthy (config_get (config (coord st)) CONF_NOTIFY_DISCORD PNone));
    [| reflexivity].
  cbv zeta.
  destruct (truthy (config_get (config (coord st)) CONF_DISCORD_WEBHOOK_URL PNone));
    [discriminate | reflexivity].
Qed.

End MoreHelpers.

(** * Further properties: setting up, the switch, the sensors, the forms *)

(** X18: [__init__] succeeds exactly when the four required keys are there;
    the first one missing, in the order of the source, is the [KeyError];
    the optional ones default to not proxied, a TTL of 120 and auto-update
    on; and a new coordinator has no manual request, no last sync time and
    nothing published. *)
Theorem init_needs_the_four_keys (cfg : gmap string pyval) :
  ((exists c, __init__ cfg = Ok c) <->
   is_Some (cfg !! CONF_DNS_RECORD) /\ is_Some (cfg !! CONF_ZONE_ID) /\
   is_Some (cfg !! CONF_API_TOKEN) /\ is_Some (cfg !! CONF_WHAT_IP)) /\
  (cfg !! CONF_DNS_RECORD = None -> __init__ cfg = Raise (KeyError "'dns_record'")) /\
  (is_Some (cfg !! CONF_DNS_RECORD) -> cfg !! CONF_ZONE_ID = None ->
   __init__ cfg = Raise (KeyError "'zone_id'")) /\
  (forall c, __init__ cfg = Ok c ->
     config c = cfg /\
     cfg !! CONF_DNS_RECORD = Some (dns_record c) /\
     cfg !! CONF_WHAT_IP = Some (what_ip c) /\
     proxied c = default (PBool false) (cfg !! CONF_PROXIED) /\
     ttl c = default (PInt 120) (cfg !! CONF_TTL) /\
     auto_update_enabled c = default (PBool true) (cfg !! CONF_AUTO_UPDATE) /\
     last_sync_time c = None /\ _manual_sync_requested c = false /\ data c = None).
Proof.
  unfold __init__, config_item. split; [| split; [| split]].
  - split.
    + intros (c & E).
      destruct (cfg !! CONF_DNS_RECORD); [| discriminate].
      destruct (cfg !! CONF_ZONE_ID); [| discriminate].
      destruct (cfg !! CONF_API_TOKEN); [| discriminate].
      destruct (cfg !! CONF_WHAT_IP); [| discriminate].
      repeat split; eauto.
    + intros ((d & ->) & (z & ->) & (a & ->) & (w & ->)). eauto.
  - intros ->. reflexivity.
  - intros (d & ->) ->. reflexivity.
  - intros c E.
    destruct (cfg !! CONF_DNS_RECORD) as [d |]; [| discriminate].
    destruct (cfg !! CONF_ZONE_ID) as [z |]; [| discriminate].
    destruct (cfg !! CONF_API_TOKEN) as [a |]; [| discriminate].
    destruct (cfg !! CONF_WHAT_IP) as [w |]; [| discriminate].
    inversion E; subst c. simpl. unfold config_get. repeat split.
Qed.

Lemma merged_config_persist (b : bool) (entry : ConfigEntry) :
  merged_config (persist_auto_update b entry) =
  <[CONF_AUTO_UPDATE := PBool b]> (merged_config entry).
Proof.
  unfold merged_config, persist_auto_update. simpl. symmetry. apply insert_union_l.
Qed.

(** X19: the toggle survives a reload: after the switch has stored its
    value in the entry's options, setting the entry up again builds a
    coordinator with auto-update as toggled and every other attribute, and
    the update interval, as before. *)
Theorem toggle_survives_reload
        (entry : ConfigEntry) (b : bool) (c : Coordinator) (u : pyval) :
  setup_coordinator entry = Ok (c, u) ->
  exists c',
    setup_coordinator (persist_auto_update b entry) = Ok (c', u) /\
    is_on c' = PBool b /\
    config c' = <[CONF_AUTO_UPDATE := PBool b]> (config c) /\
    dns_record c' = dns_record c /\ zone_id c' = zone_id c /\
    api_token c' = api_token c /\ what_ip c' = what_ip c /\
    proxied c' = proxied c /\ ttl c' = ttl c.
Proof.
  unfold setup_coordinator. rewrite merged_config_persist.
  set (cfg := merged_config entry).
  unfold __init__, config_item, config_get. cbv zeta.
  assert (L : forall k, k <> CONF_AUTO_UPDATE ->
                <[CONF_AUTO_UPDATE := PBool b]> cfg !! k = cfg !! k)
    by (intros k Hk; apply lookup_insert_ne; congruence).
  rewrite (L CONF_UPDATE_INTERVAL), (L CONF_DNS_RECORD), (L CONF_ZONE_ID),
    (L CONF_API_TOKEN), (L CONF_WHAT_IP), (L CONF_PROXIED), (L CONF_TTL)
    by discriminate.
  rewrite lookup_insert_eq.
  destruct (cfg !! CONF_DNS_RECORD) as [d |]; [| discriminate].
  destruct (cfg !! CONF_ZONE_ID) as [z |]; [| discriminate].
  destruct (cfg !! CONF_API_TOKEN) as [a |]; [| discriminate].
  destruct (cfg !! CONF_WHAT_IP) as [w |]; [| discriminate].
  intros E. inversion E; subst c u. eexists. split; [reflexivity |].
  simpl. repeat split.
Qed.

Section MoreSensors.
Context {W : Type} `{Host W}.

(** X20: after a cycle that succeeded, the sensors show its result: Synced
    says Yes or No as the result does, with the record's address as read and
    the current address as attributes; Current IP shows the resolved
    address; Last Sync shows what the cycle left in [last_sync_time]. *)
Theorem sensors_show_the_result (st st' : run W) (d : sync_data) :
  _async_update_data st = (Ok d, st') ->
  synced_native_value (coord (snd (async_refresh st))) =
    (if synced d then "Yes" else "No") /\
  synced_extra_state_attributes (coord (snd (async_refresh st))) =
    [("dns_record_ip", dns_record_ip d); ("current_ip", JAtom (PStr (current_ip d)))] /\
  current_ip_native_value (coord (snd (async_refresh st))) = Some (current_ip d) /\
  domain_native_value (coord (snd (async_refresh st))) = domain d /\
  last_sync_native_value (coord (snd (async_refresh st))) = last_sync_time (coord st').
Proof.
  intros E. rewrite (async_refresh_ok _ _ _ E). simpl.
  unfold synced_native_value, synced_extra_state_attributes, current_ip_native_value,
    domain_native_value, last_sync_native_value. simpl. repeat split.
Qed.

(** X21: after a cycle that failed, every sensor shows what it showed
    before: the values of the last successful cycle, or Unknown and nothing
    when there was none. *)
Theorem sensors_keep_their_values_on_failure (st st' : run W) (e : exn) :
  _async_update_data st = (Raise e, st') ->
  synced_native_value (coord (snd (async_refresh st))) = synced_native_value (coord st) /\
  synced_extra_state_attributes (coord (snd (async_refresh st))) =
    synced_extra_state_attributes (coord st) /\
  current_ip_native_value (coord (snd (async_refresh st))) =
    current_ip_native_value (coord st) /\
  domain_native_value (coord (snd (async_refresh st))) = domain_native_value (coord st) /\
  last_sync_native_value (coord (snd (async_refresh st))) =
    last_sync_native_value (coord st) /\
  (data (coord st) = None ->
   synced_native_value (coord (snd (async_refresh st))) = "Unknown").
Proof.
  intros E. destruct (cycle_failure _ _ _ E) as (C & _).
  rewrite (async_refresh_failed _ _ _ E). simpl.
  unfold synced_native_value, synced_extra_state_attributes, current_ip_native_value,
    domain_native_value, last_sync_native_value. simpl. rewrite C. simpl.
  repeat split. intros ->. reflexivity.
Qed.

End MoreSensors.

Section MoreForms.
Import ConfigFlow.

Lemma validate_int_ttl (user_input : gmap string pyval) (n : Z) :
  user_input !! CONF_TTL = Some (PInt n) ->
  validate user_input =
    Ok (let errors : gmap string string :=
          if negb (n =? AUTO_TTL) && ((n <? MIN_TTL) || (MAX_TTL <? n))
          then <[CONF_TTL := "invalid_ttl"]> ∅ else ∅ in
        if internal_cannot_proxy user_input
        then <[CONF_PROXIED := "internal_cannot_proxy"]> errors else errors).
Proof.
  intros T. unfold validate, config_get at 1. rewrite T. simpl.
  unfold ttl_out_of_range. simpl.
  destruct (n =? AUTO_TTL); simpl; [reflexivity |].
  destruct (n <? MIN_TTL); simpl; [reflexivity |].
  destruct (MAX_TTL <? n); reflexivity.
Qed.

Lemma ttl_in_range_iff (n : Z) :
  negb (n =? AUTO_TTL) && ((n <? MIN_TTL) || (MAX_TTL <? n)) = false <->
  n = 1 \/ 120 <= n <= 7200.
Proof.
  unfold AUTO_TTL, MIN_TTL, MAX_TTL.
  destruct (n =? 1) eqn:E1; simpl.
  - apply Z.eqb_eq in E1. split; auto.
  - apply Z.eqb_neq in E1.
    destruct (n <? 120) eqn:E2; simpl.
    + apply Z.ltb_lt in E2. split; [discriminate | lia].
    + apply Z.ltb_ge in E2. destruct (7200 <? n) eqn:E3.
      * apply Z.ltb_lt in E3. split; [discriminate | lia].
      * apply Z.ltb_ge in E3. split; [lia | reflexivity].
Qed.

(** X22: which forms go through.  With an integer TTL, the options step
    creates the entry exactly when the TTL is 1 or within 120-7200 and the
    form does not ask to proxy an internal address; the initial step does
    the same for a form that names its record; and what is stored is the
    form as submitted, under the device name if given, else the record
    name. *)
Theorem forms_go_through_iff (user_input : gmap string pyval) (n : Z) :
  user_input !! CONF_TTL = Some (PInt n) ->
  (accepted (async_step_init (Some user_input)) = true <->
   (n = 1 \/ 120 <= n <= 7200) /\ internal_cannot_proxy user_input = false) /\
  (accepted (async_step_init (Some user_input)) = true ->
   async_step_init (Some user_input) = Ok (CreateEntry (PStr "") user_input)) /\
  (forall name, user_input !! CONF_DNS_RECORD = Some name ->
     (accepted (async_step_user (Some user_input)) = true <->
      (n = 1 \/ 120 <= n <= 7200) /\ internal_cannot_proxy user_input = false) /\
     (accepted (async_step_user (Some user_input)) = true ->
      async_step_user (Some user_input) =
        Ok (CreateEntry (default name (user_input !! CONF_DEVICE_NAME)) user_input))).
Proof.
  intros T. pose proof (validate_int_ttl user_input n T) as V.
  pose proof (ttl_in_range_iff n) as R.
  unfold async_step_init, async_step_user. rewrite V. clear V.
  destruct (negb (n =? AUTO_TTL) && ((n <? MIN_TTL) || (MAX_TTL <? n))) eqn:B;
    destruct (internal_cannot_proxy user_input) eqn:C; cbv zeta.
  - assert (NE : bool_decide
                   (<[CONF_PROXIED := "internal_cannot_proxy"]>
                      (<[CONF_TTL := "invalid_ttl"]> (∅ : gmap string string)) = ∅) = false)
      by (apply bool_decide_eq_false, insert_non_empty).
    rewrite NE. simpl. repeat split; try discriminate; intros (_ & ?); discriminate.
  - assert (NE : bool_decide
                   (<[CONF_TTL := "invalid_ttl"]> (∅ : gmap string string) = ∅) = false)
      by (apply bool_decide_eq_false, insert_non_empty).
    rewrite NE. simpl. repeat split; try discriminate;
      intros (Hn & _); apply R in Hn; discriminate.
  - assert (NE : bool_decide
                   (<[CONF_PROXIED := "internal_cannot_proxy"]> (∅ : gmap string string) = ∅)
                 = false)
      by (apply bool_decide_eq_false, insert_non_empty).
    rewrite NE. simpl. repeat split; try discriminate; intros (_ & ?); discriminate.
  - assert (EE : bool_decide ((∅ : gmap string string) = ∅) = true)
      by (now apply bool_decide_eq_true).
    rewrite EE. simpl.
    split; [split; [intros _; split; [now apply R | reflexivity] | reflexivity] |].
    split; [reflexivity |].
    intros name D. unfold config_item. rewrite D. simpl.
    split; [split; [intros _; split; [now apply R | reflexivity] | reflexivity] |].
    reflexivity.
Qed.

(** X23: a form that asks to proxy an internal address is shown again, by
    either step, with [internal_cannot_proxy] under [proxied], whatever its
    TTL; and a TTL out of range is reported beside it, not instead of it. *)
Theorem internal_address_cannot_be_proxied (user_input : gmap string pyval) (n : Z) :
  user_input !! CONF_TTL = Some (PInt n) ->
  internal_cannot_proxy user_input = true ->
  exists errors,
    async_step_user (Some user_input) = Ok (ShowForm "user" errors) /\
    async_step_init (Some user_input) = Ok (ShowForm "init" errors) /\
    errors !! CONF_PROXIED = Some "internal_cannot_proxy" /\
    (errors !! CONF_TTL = Some "invalid_ttl" <-> n <> 1 /\ (n < 120 \/ 7200 < n)) /\
    (errors !! CONF_TTL = None <-> n = 1 \/ 120 <= n <= 7200).
Proof.
  intros T C. pose proof (validate_int_ttl user_input n T) as V.
  pose proof (ttl_in_range_iff n) as R.
  rewrite C in V. cbv zeta in V.
  unfold async_step_init, async_step_user. rewrite V. clear V.
  destruct (negb (n =? AUTO_TTL) && ((n <? MIN_TTL) || (MAX_TTL <? n))) eqn:B.
  - eexists.
    rewrite (bool_decide_eq_false_2 _ (insert_non_empty _ _ _)).
    split; [reflexivity |]. split; [reflexivity |].
    split; [apply lookup_insert_eq |].
    rewrite lookup_insert_ne by discriminate. rewrite lookup_insert_eq.
    split; [split; [intros _ | reflexivity] | split; [discriminate |]].
    + assert (N : ~ (n = 1 \/ 120 <= n <= 7200)) by (rewrite <- R; discriminate).
      lia.
    + intros Hn. apply R in Hn. discriminate.
  - eexists.
    rewrite (bool_decide_eq_false_2 _ (insert_non_empty _ _ _)).
    split; [reflexivity |]. split; [reflexivity |].
    split; [apply lookup_insert_eq |].
    rewrite lookup_insert_ne by discriminate. rewrite lookup_empty.
    split; [split; [discriminate |] | split; [intros _; now apply R | reflexivity]].
    intros Hn. assert (N : n = 1 \/ 120 <= n <= 7200) by now apply R. lia.
Qed.

(** X24: a form without a TTL is validated with the default of 120: nothing
    is reported under [ttl], and the options step creates the entry unless
    the form asks to proxy an internal address. *)
Theorem omitted_ttl_defaults_to_120 (user_input : gmap string pyval) :
  user_input !! CONF_TTL = None ->
  error_at CONF_TTL (async_step_user (Some user_input)) = None /\
  error_at CONF_TTL (async_step_init (Some user_input)) = None /\
  (internal_cannot_proxy user_input = false ->
   async_step_init (Some user_input) = Ok (CreateEntry (PStr "") user_input) /\
   async_step_init (Some (<[CONF_TTL := PInt 120]> user_input)) =
     Ok (CreateEntry (PStr "") (<[CONF_TTL := PInt 120]> user_input))).
Proof.
  intros T.
  assert (V : validate user_input =
              Ok (if internal_cannot_proxy user_input
                  then <[CONF_PROXIED := "internal_cannot_proxy"]> ∅ else ∅)).
  { unfold validate, config_get at 1. rewrite T. reflexivity. }
  unfold async_step_user, async_step_init. rewrite V.
  destruct (internal_cannot_proxy user_input) eqn:C.
  - rewrite (bool_decide_eq_false_2 _ (insert_non_empty _ _ _)). simpl.
    rewrite lookup_insert_ne by discriminate. rewrite lookup_empty.
    split; [reflexivity |]. split; [reflexivity | discriminate].
  - assert (EE : bool_decide ((∅ : gmap string string) = ∅) = true)
      by (now apply bool_decide_eq_true).
    rewrite EE. simpl.
    split; [unfold config_item; now destruct (user_input !! CONF_DNS_RECORD) |].
    split; [reflexivity |]. intros _. split; [reflexivity |].
    assert (C' : internal_cannot_proxy (<[CONF_TTL := PInt 120]> user_input) = false).
    { unfold internal_cannot_proxy, config_get in *.
      rewrite !lookup_insert_ne by discriminate. exact C. }
    rewrite (validate_int_ttl _ 120 (lookup_insert_eq _ _ _)), C'. simpl.
    now rewrite EE.
Qed.

End MoreForms.

Section FormToCoordinator.
Import ConfigFlow.


End FormToCoordinator.

(** * More concrete runs *)


Lemma missing_record_fails_untouched_witness :
  _get_current_ip (started Cases.auto_unlisted) =
    (Ok (Some Scenario.ip), snd (_get_current_ip (started Cases.auto_unlisted))) /\
  _get_dns_record_info (snd (_get_current_ip (started Cases.auto_unlisted))) =
    (Ok JNone, after_read Cases.auto_unlisted) /\
  _async_update_data Cases.auto_unlisted =
    (Raise RecordLookupError, after_read Cases.auto_unlisted).
Proof.
  assert (E1 : _get_current_ip (started Cases.auto_unlisted) =
               (Ok (Some Scenario.ip), snd (_get_current_ip (started Cases.auto_unlisted))))
    by (vm_compute; reflexivity).
  assert (E2 : _get_dns_record_info (snd (_get_current_ip (started Cases.auto_unlisted))) =
               (Ok JNone, after_read Cases.auto_unlisted))
    by (vm_compute; reflexivity).
  split; [exact E1 |]. split; [exact E2 |].
  assert (N : Scenario.ip <> "") by discriminate.
  exact (proj1 (missing_record_fails_untouched Cases.auto_unlisted _ _
                  Scenario.ip JNone E1 N E2 eq_refl)).
Defined.

Lemma internal_source_makes_no_call_witness :
  py_eq (what_ip Cases.internal) (PStr IP_TYPE_EXTERNAL) = false /\
  _async_update_data (Scenario.start Cases.internal Scenario.mismatched) =
    (Raise AddressResolutionError,
     started (Scenario.start Cases.internal Scenario.mismatched)).
Proof.
  split; [reflexivity |].
  exact (internal_source_makes_no_call
           (Scenario.start Cases.internal Scenario.mismatched) eq_refl).
Defined.

Lemma odd_record_fails_the_cycle_witness :
  _get_current_ip (started Cases.odd) =
    (Ok (Some Scenario.ip), snd (_get_current_ip (started Cases.odd))) /\
  _get_dns_record_info (snd (_get_current_ip (started Cases.odd))) =
    (Ok (JAtom (PStr "oops")), after_read Cases.odd) /\
  _async_update_data Cases.odd =
    (Raise (UpdateFailed "Error updating data: 'str' object has no attribute 'get'"),
     after_read Cases.odd).
Proof.
  assert (E1 : _get_current_ip (started Cases.odd) =
               (Ok (Some Scenario.ip), snd (_get_current_ip (started Cases.odd))))
    by (vm_compute; reflexivity).
  assert (E2 : _get_dns_record_info (snd (_get_current_ip (started Cases.odd))) =
               (Ok (JAtom (PStr "oops")), after_read Cases.odd))
    by (vm_compute; reflexivity).
  split; [exact E1 |]. split; [exact E2 |].
  assert (N : Scenario.ip <> "") by discriminate.
  assert (D : forall fields, JAtom (PStr "oops") <> JObj fields) by discriminate.
  exact (proj1 (odd_record_fails_the_cycle Cases.odd _ _
                  Scenario.ip (JAtom (PStr "oops")) E1 N E2 eq_refl D)).
Defined.

Lemma successful_cycle_result_witness :
  _async_update_data Scenario.auto_stale =
    (Ok (SyncData true Scenario.ip (JAtom (PStr "1.2.3.4")) (PStr "host.example.com")),
     snd (_async_update_data Scenario.auto_stale)) /\
  exists ip fields st2,
    observes Scenario.auto_stale ip fields st2 /\
    Scenario.ip = ip /\ ip <> "" /\
    JAtom (PStr "1.2.3.4") = field "content" fields.
Proof.
  assert (E : _async_update_data Scenario.auto_stale =
              (Ok (SyncData true Scenario.ip (JAtom (PStr "1.2.3.4"))
                     (PStr "host.example.com")),
               snd (_async_update_data Scenario.auto_stale)))
    by (vm_compute; reflexivity).
  split; [exact E |].
  destruct (successful_cycle_result Scenario.auto_stale _ _ E)
    as (ip & fields & st2 & O & I & N & C & _).
  exists ip, fields, st2. auto.
Defined.

Lemma proxied_only_mismatch_is_rewritten_witness :
  observes Cases.proxied_only Scenario.ip Cases.proxied_fields
    (after_read Cases.proxied_only) /\
  json_eq (field "proxied" Cases.proxied_fields) (proxied (coord Cases.proxied_only))
    = false /\
  exists st' rest,
    _async_update_data Cases.proxied_only =
      (Ok (SyncData true Scenario.ip (JAtom (PStr Scenario.ip))
             (dns_record (coord Cases.proxied_only))), st') /\
    trace st' =
      trace (after_read Cases.proxied_only)
      ++ [EvCall (put_request (coord Cases.proxied_only)
                    (field "id" Cases.proxied_fields) Scenario.ip)]
      ++ notification_calls (coord Cases.proxied_only) Scenario.ip
           (JAtom (PStr Scenario.ip))
      ++ rest /\
    Forall (fun e => is_call e = false) rest.
Proof.
  assert (O : observes Cases.proxied_only Scenario.ip Cases.proxied_fields
                (after_read Cases.proxied_only)).
  { eexists. split; [vm_compute; reflexivity |]. split; [discriminate |].
    split; [vm_compute; reflexivity | discriminate]. }
  split; [exact O |]. split; [reflexivity |].
  apply (proxied_only_mismatch_is_rewritten Cases.proxied_only _
           (snd (_update_dns_record (field "id" Cases.proxied_fields) Scenario.ip
                   (after_read Cases.proxied_only))) _ _ O);
    [reflexivity | reflexivity | reflexivity | vm_compute; reflexivity].
Defined.

Lemma record_without_proxied_is_always_written_witness :
  observes Cases.unflagged Scenario.ip Cases.unflagged_fields
    (after_read Cases.unflagged) /\
  field "content" Cases.unflagged_fields = JAtom (PStr Scenario.ip) /\
  in_sync (coord Cases.unflagged) Scenario.ip Cases.unflagged_fields = false /\
  exists post,
    trace (snd (_async_update_data Cases.unflagged)) =
      trace (after_read Cases.unflagged)
      ++ [EvCall (put_request (coord Cases.unflagged)
                    (field "id" Cases.unflagged_fields) Scenario.ip)] ++ post.
Proof.
  assert (O : observes Cases.unflagged Scenario.ip Cases.unflagged_fields
                (after_read Cases.unflagged)).
  { eexists. split; [vm_compute; reflexivity |]. split; [discriminate |].
    split; [vm_compute; reflexivity | discriminate]. }
  split; [exact O |]. split; [reflexivity |].
  exact (record_without_proxied_is_always_written Cases.unflagged _ _ _ false
           O eq_refl eq_refl eq_refl).
Defined.

Lemma manual_request_overrides_the_switch_witness :
  _manual_sync_requested (coord Cases.manual_off_stale) = true /\
  truthy (auto_update_enabled (coord Cases.manual_off_stale)) = false /\
  observes Cases.manual_off_stale Scenario.ip (Provider.fields_of Scenario.stale)
    (after_read Cases.manual_off_stale) /\
  exists st' t,
    _async_update_data Cases.manual_off_stale =
      (Ok (SyncData true Scenario.ip
             (field "content" (Provider.fields_of Scenario.stale))
             (dns_record (coord Cases.manual_off_stale))), st') /\
    last_sync_time (coord st') = Some t /\
    _manual_sync_requested (coord st') = false.
Proof.
  assert (O : observes Cases.manual_off_stale Scenario.ip
                (Provider.fields_of Scenario.stale) (after_read Cases.manual_off_stale)).
  { eexists. split; [vm_compute; reflexivity |]. split; [discriminate |].
    split; [vm_compute; reflexivity | discriminate]. }
  split; [reflexivity |]. split; [reflexivity |]. split; [exact O |].
  destruct (manual_request_overrides_the_switch Cases.manual_off_stale _
              (Scenario.after_write Cases.manual_off_stale) _ _
              eq_refl eq_refl O eq_refl)
    as (st' & t & E & _ & L & F); [vm_compute; reflexivity |].
  exists st', t. auto.
Defined.

Lemma failed_cycle_leaves_no_mark_witness :
  _async_update_data Scenario.auto_refused =
    (Raise UpdateError, Scenario.after_write Scenario.auto_refused) /\
  coord (Scenario.after_write Scenario.auto_refused) =
    set_manual_sync_requested false (coord Scenario.auto_refused) /\
  exists tr,
    trace (Scenario.after_write Scenario.auto_refused) =
      trace Scenario.auto_refused ++ tr /\
    notifications tr = 0%nat.
Proof.
  assert (E : _async_update_data Scenario.auto_refused =
              (Raise UpdateError, Scenario.after_write Scenario.auto_refused))
    by (vm_compute; reflexivity).
  split; [exact E |].
  destruct (failed_cycle_leaves_no_mark Scenario.auto_refused _ _ E) as (C & _ & _ & T).
  split; [exact C | exact T].
Defined.

Lemma idle_cycle_only_observes_witness :
  _manual_sync_requested (coord Scenario.off_stale) = false /\
  truthy (auto_update_enabled (coord Scenario.off_stale)) = false /\
  exists tr,
    trace (snd (_async_update_data Scenario.off_stale)) = trace Scenario.off_stale ++ tr /\
    writes tr = 0%nat /\ notifications tr = 0%nat /\
    coord (snd (_async_update_data Scenario.off_stale)) = coord Scenario.off_stale.
Proof.
  split; [reflexivity |]. split; [reflexivity |].
  exact (idle_cycle_only_observes Scenario.off_stale eq_refl eq_refl).
Defined.

Lemma switched_off_cycle_writes_nothing_witness :
  _manual_sync_requested (coord Scenario.auto_stale) = false /\
  exists st1 tr,
    async_turn_off Scenario.auto_stale = (Ok tt, st1) /\
    is_on (coord st1) = PBool false /\
    trace (snd (bind async_turn_off (fun _ => _async_update_data) Scenario.auto_stale)) =
      trace Scenario.auto_stale ++ tr /\
    writes tr = 0%nat /\ notifications tr = 0%nat.
Proof.
  split; [reflexivity |].
  exact (switched_off_cycle_writes_nothing Scenario.auto_stale eq_refl).
Defined.

Lemma blank_address_is_unresolved_witness :
  serve GetExternalIp (world Cases.blank) =
    (Cases.echo_blank, Script.World [] 1) /\
  _async_update_data Cases.blank =
    (Raise AddressResolutionError,
     Run (set_manual_sync_requested false (coord Cases.blank)) (Script.World [] 1)
       (trace Cases.blank ++ [EvCall GetExternalIp])).
Proof.
  split; [reflexivity |].
  apply (blank_address_is_unresolved Cases.blank
           (Response 200 (Some (String.append "  " Scenario.newline)) None)
           (Script.World [] 1) (String.append "  " Scenario.newline));
    reflexivity.
Defined.

Lemma record_info_comes_from_a_successful_listing_witness :
  _get_dns_record_info Scenario.auto_stale =
    (Ok (Provider.to_json Scenario.stale), snd (_get_dns_record_info Scenario.auto_stale)) /\
  exists resp fields success result,
    fst (serve (GetDnsRecords (zone_id (coord Scenario.auto_stale))
                  (api_token (coord Scenario.auto_stale))
                  (dns_record (coord Scenario.auto_stale)))
           (world Scenario.auto_stale)) = inr resp /\
    status resp = 200 /\
    resp_json resp = Some (JObj fields) /\
    assoc "success" fields = Some success /\ json_truthy success = true /\
    assoc "result" fields = Some result.
Proof.
  assert (E : _get_dns_record_info Scenario.auto_stale =
              (Ok (Provider.to_json Scenario.stale),
               snd (_get_dns_record_info Scenario.auto_stale)))
    by (vm_compute; reflexivity).
  split; [exact E |].
  destruct (record_info_comes_from_a_successful_listing Scenario.auto_stale _ _ E)
    as (resp & fields & success & result & H1 & H2 & H3 & H4 & H5 & H6 & _);
    [discriminate |].
  exists resp, fields, success, result. auto 10.
Defined.

Lemma channel_without_credentials_is_skipped_witness :
  truthy (config_get (config Cases.no_token) CONF_NOTIFY_TELEGRAM PNone) = true /\
  truthy (config_get (config Cases.no_token) CONF_TELEGRAM_BOT_TOKEN PNone) = false /\
  exists st',
    _send_notifications Scenario.ip (JAtom (PStr "1.2.3.4"))
      (Scenario.start Cases.no_token Scenario.mismatched) = (Ok tt, st') /\
    trace st' =
      [EvCall (DiscordPost (PStr "https://discord.example/hook")
                 (Message (PStr "host.example.com") Scenario.ip (JAtom (PStr "1.2.3.4"))))].
Proof.
  split; [reflexivity |]. split; [reflexivity |].
  destruct (channel_without_credentials_is_skipped
              (Scenario.start Cases.no_token Scenario.mismatched)
              Scenario.ip (JAtom (PStr "1.2.3.4")) (or_intror eq_refl))
    as (st' & E & T & _).
  exists st'. split; [exact E | exact T].
Defined.

Lemma nothing_configured_nothing_sent_witness :
  _send_notifications Scenario.ip (JAtom (PStr "1.2.3.4"))
    (Scenario.start Cases.bare Scenario.mismatched) =
    (Ok tt, Scenario.start Cases.bare Scenario.mismatched).
Proof.
  exact (nothing_configured_nothing_sent
           (Scenario.start Cases.bare Scenario.mismatched)
           Scenario.ip (JAtom (PStr "1.2.3.4")) eq_refl eq_refl).
Defined.

Lemma toggle_survives_reload_witness :
  setup_coordinator Cases.entry = Ok (Scenario.fresh, PInt 60) /\
  exists c',
    setup_coordinator (persist_auto_update false Cases.entry) = Ok (c', PInt 60) /\
    is_on c' = PBool false /\
    dns_record c' = dns_record Scenario.fresh /\
    ttl c' = ttl Scenario.fresh.
Proof.
  assert (E : setup_coordinator Cases.entry = Ok (Scenario.fresh, PInt 60))
    by (vm_compute; reflexivity).
  split; [exact E |].
  destruct (toggle_survives_reload Cases.entry false _ _ E)
    as (c' & S & I & _ & D & _ & _ & _ & _ & T).
  exists c'. auto.
Defined.

Lemma sensors_show_the_result_witness :
  _async_update_data Scenario.off_stale =
    (Ok (SyncData false Scenario.ip (JAtom (PStr "1.2.3.4")) (PStr "host.example.com")),
     snd (_async_update_data Scenario.off_stale)) /\
  synced_native_value (coord (snd (async_refresh Scenario.off_stale))) = "No" /\
  current_ip_native_value (coord (snd (async_refresh Scenario.off_stale))) =
    Some Scenario.ip.
Proof.
  assert (E : _async_update_data Scenario.off_stale =
              (Ok (SyncData false Scenario.ip (JAtom (PStr "1.2.3.4"))
                     (PStr "host.example.com")),
               snd (_async_update_data Scenario.off_stale)))
    by (vm_compute; reflexivity).
  split; [exact E |].
  destruct (sensors_show_the_result Scenario.off_stale _ _ E) as (S & _ & C & _).
  split; [exact S | exact C].
Defined.

Lemma sensors_keep_their_values_on_failure_witness :
  _async_update_data Scenario.auto_refused =
    (Raise UpdateError, Scenario.after_write Scenario.auto_refused) /\
  synced_native_value (coord (snd (async_refresh Scenario.auto_refused))) = "Unknown" /\
  last_sync_native_value (coord (snd (async_refresh Scenario.auto_refused))) = None.
Proof.
  assert (E : _async_update_data Scenario.auto_refused =
              (Raise UpdateError, Scenario.after_write Scenario.auto_refused))
    by (vm_compute; reflexivity).
  split; [exact E |].
  destruct (sensors_keep_their_values_on_failure Scenario.auto_refused _ _ E)
    as (_ & _ & _ & _ & L & U).
  split; [exact (U eq_refl) | exact L].
Defined.

Lemma forms_go_through_iff_witness :
  Cases.form_ttl_300 !! CONF_TTL = Some (PInt 300) /\
  ConfigFlow.async_step_init (Some Cases.form_ttl_300) =
    Ok (ConfigFlow.CreateEntry (PStr "") Cases.form_ttl_300).
Proof.
  assert (T : Cases.form_ttl_300 !! CONF_TTL = Some (PInt 300)) by reflexivity.
  split; [exact T |].
  destruct (forms_go_through_iff Cases.form_ttl_300 300 T) as (A & B & _).
  apply B, A. split; [right; lia | vm_compute; reflexivity].
Defined.

Lemma internal_address_cannot_be_proxied_witness :
  Cases.form_internal_proxied !! CONF_TTL = Some (PInt 50) /\
  ConfigFlow.internal_cannot_proxy Cases.form_internal_proxied = true /\
  exists errors,
    ConfigFlow.async_step_user (Some Cases.form_internal_proxied) =
      Ok (ConfigFlow.ShowForm "user" errors) /\
    errors !! CONF_PROXIED = Some "internal_cannot_proxy" /\
    errors !! CONF_TTL = Some "invalid_ttl".
Proof.
  assert (T : Cases.form_internal_proxied !! CONF_TTL = Some (PInt 50)) by reflexivity.
  assert (C : ConfigFlow.internal_cannot_proxy Cases.form_internal_proxied = true)
    by (vm_compute; reflexivity).
  split; [exact T |]. split; [exact C |].
  destruct (internal_address_cannot_be_proxied Cases.form_internal_proxied 50 T C)
    as (errors & U & _ & P & I & _).
  exists errors. split; [exact U |]. split; [exact P |].
  apply I. lia.
Defined.

Lemma omitted_ttl_defaults_to_120_witness :
  Scenario.cfg !! CONF_TTL = None /\
  ConfigFlow.async_step_init (Some Scenario.cfg) =
    Ok (ConfigFlow.CreateEntry (PStr "") Scenario.cfg).
Proof.
  assert (T : Scenario.cfg !! CONF_TTL = None) by reflexivity.
  split; [exact T |].
  destruct (omitted_ttl_defaults_to_120 Scenario.cfg T) as (_ & _ & A).
  apply A. vm_compute. reflexivity.
Defined.

